(** * PC Bottleneck Analyzer: the analysis engine and the hardware catalog

    A shallow embedding of [src/lib/analysis.ts] and [src/data/hardware-db.ts]
    and the properties the specification states about them, followed by the
    parts of the dashboard that read the engine's result
    ([components/ScoreGauge.tsx], [components/SystemOverview.tsx],
    [components/RecommendationList.tsx]) and by the validation and the
    sanitizer of the scan endpoint ([app/api/scan/route.ts]) and of the
    uploader ([components/ScanUploader.tsx]).

    Modelling conventions.
    - A JavaScript [number] that the engine adds, multiplies or divides
      before it compares it (the per-core usage that is averaged, the two
      clocks, the VRAM amounts, the capacity and the used space of a drive)
      is a binary64 value ([float]); every operation rounds as the language
      does.  A number that is only compared with an integer literal
      (temperatures, utilization, memory size and speed) is the rational it
      denotes ([Q]).  The prices and gaming scores of the catalog are
      rationals as well, and the value ratio of the upgrade ranking is their
      exact quotient.  Scores and counters only ever hold small integers
      and are in [Z].
    - A string is a [string] of 8-bit code units: the model ranges over the
      strings whose code units are below U+0100.  On them lower-casing,
      trimming and the whitespace class are those of the language.
    - [T | null] is [option T].
    - [Record<string, HardwareEntry>] is the list of its own properties in
      the order [Object.entries] enumerates them (insertion order, the keys
      of the catalog are not integer-like).  Reading a property by name
      also finds the members the object inherits from [Object.prototype]
      ([HardwareDb.Member]).
    - An array that a function receives and [push]es to is passed in and
      returned.
    - The prose fields of a finding (title, description, impact, fix) and of
      a recommendation (title, description, impact) are display text that no
      code path reads back; they are left out. *)

From Stdlib Require Import Floats.
From Stdlib Require Import ZArith QArith Qminmax List String Ascii Bool.
From Stdlib Require Import DecimalString.
From Stdlib Require Import Lia Lqa.
From Stdlib Require Import Sorting.Sorted Sorting.Permutation.
Import ListNotations.

Set Implicit Arguments.

(** A decimal literal of binary64 type denotes the nearest binary64 value,
    as it does in the language. *)
Set Warnings "-inexact-float".

(** ** The JavaScript built-ins the engine calls *)

Module JS.

Open Scope Z_scope.

(** [a < b] on numbers held as rationals. *)
Definition ltb (a b : Q) : bool := negb (Qle_bool b a).
(** [a > b] on numbers held as rationals. *)
Definition gtb (a b : Q) : bool := ltb b a.

(** [a < b] and [a > b] on binary64 numbers. *)
Definition fltb (a b : float) : bool := PrimFloat.ltb a b.
Definition fgtb (a b : float) : bool := PrimFloat.ltb b a.

(** [arr.length] as a number.  The length of an array is below 2^32, so
    the conversion is exact. *)
Definition lengthOf {A} (arr : list A) : float :=
  PrimFloat.of_uint63 (Uint63.of_Z (Z.of_nat (List.length arr))).
(** [x || d] on numbers: zero is the only falsy rational. *)
Definition or_default (x d : Q) : Q := if Qeq_bool x 0 then d else x.

(** *** Strings *)

(** The code units below 256 that have a lower-case counterpart: A to Z
    and, in the Latin-1 range, U+00C0 to U+00D6 and U+00D8 to U+00DE. *)
Definition is_upper (c : ascii) : bool :=
  (((65 <=? nat_of_ascii c) && (nat_of_ascii c <=? 90))
   || ((192 <=? nat_of_ascii c) && (nat_of_ascii c <=? 214))
   || ((216 <=? nat_of_ascii c) && (nat_of_ascii c <=? 222)))%nat.

(** The counterpart is 32 code units up. *)
Definition lower_char (c : ascii) : ascii :=
  if is_upper c then ascii_of_nat (nat_of_ascii c + 32) else c.

(** [String.prototype.toLowerCase]. *)
Fixpoint toLowerCase (s : string) : string :=
  match s with
  | EmptyString => EmptyString
  | String c s' => String (lower_char c) (toLowerCase s')
  end.

(** The white space and line terminators of the language below code unit
    256: TAB, LF, VT, FF, CR, SPACE and NO-BREAK SPACE (U+00A0).  It is the
    class that [trim] removes and that [\s] matches. *)
Definition is_space (c : ascii) : bool :=
  (((9 <=? nat_of_ascii c) && (nat_of_ascii c <=? 13))
   || (nat_of_ascii c =? 32) || (nat_of_ascii c =? 160))%nat.

Fixpoint trimStart (s : string) : string :=
  match s with
  | EmptyString => EmptyString
  | String c s' => if is_space c then trimStart s' else s
  end.

(** Drops the trailing whitespace: a character is kept when it is not a
    space or something is kept after it. *)
Fixpoint trimEnd (s : string) : string :=
  match s with
  | EmptyString => EmptyString
  | String c s' =>
      match trimEnd s' with
      | EmptyString => if is_space c then EmptyString else String c EmptyString
      | t => String c t
      end
  end.

(** [String.prototype.trim]. *)
Definition trim (s : string) : string := trimEnd (trimStart s).

(** [t] is found at the very start of [s]. *)
Fixpoint startsWith (s t : string) {struct t} : bool :=
  match t with
  | EmptyString => true
  | String a t' =>
      match s with
      | EmptyString => false
      | String b s' => Ascii.eqb a b && startsWith s' t'
      end
  end.

(** [s.includes(t)]: [t] occurs in [s] at some position. *)
Fixpoint includes (s t : string) : bool :=
  startsWith s t
  || match s with
     | EmptyString => false
     | String _ s' => includes s' t
     end.

(** [s.replace(/\s+/g, "-")]: every maximal run of whitespace becomes one
    dash.  [in_run] says that the previous character was whitespace. *)
Fixpoint replace_ws_from (in_run : bool) (s : string) : string :=
  match s with
  | EmptyString => EmptyString
  | String c s' =>
      if is_space c
      then if in_run then replace_ws_from true s'
           else String "-"%char (replace_ws_from true s')
      else String c (replace_ws_from false s')
  end.

Definition replace_ws (s : string) : string := replace_ws_from false s.

(** The property names of [Object.prototype], which every object made by
    an object literal or by [JSON.parse] inherits. *)
Definition objectPrototypeKeys : list string :=
  ["constructor"; "__defineGetter__"; "__defineSetter__"; "hasOwnProperty";
   "__lookupGetter__"; "__lookupSetter__"; "isPrototypeOf";
   "propertyIsEnumerable"; "toString"; "valueOf"; "__proto__";
   "toLocaleString"]%string.

(** A non-empty string is truthy. *)
Definition truthy (s : string) : bool :=
  match s with EmptyString => false | _ => true end.

(** *** Arrays *)

(** [arr.push(x)] on the array passed in. *)
Definition push {A} (x : A) (arr : list A) : list A := arr ++ [x].

(** [arr.indexOf(x)], [-1] when absent. *)
Fixpoint indexOf_from {A} (eqb : A -> A -> bool) (x : A) (arr : list A)
         (i : Z) : Z :=
  match arr with
  | [] => -1
  | y :: arr' => if eqb y x then i else indexOf_from eqb x arr' (i + 1)
  end.

Definition indexOf {A} (eqb : A -> A -> bool) (arr : list A) (x : A) : Z :=
  indexOf_from eqb x arr 0.

(** [arr.slice(start, end)] for integer arguments: a negative index counts
    from the end, and both are brought back into [0 .. length]. *)
Definition slice {A} (arr : list A) (start end_ : Z) : list A :=
  let len := Z.of_nat (List.length arr) in
  let k := if start <? 0 then Z.max (len + start) 0 else Z.min start len in
  let final := if end_ <? 0 then Z.max (len + end_) 0 else Z.min end_ len in
  firstn (Z.to_nat (final - k)) (skipn (Z.to_nat k) arr).

(** [arr.sort(cmp)].  The sort of the language is stable; for a comparator
    that is a consistent ordering the result is the one stable insertion
    produces.  [le a b] stands for [cmp(a, b) <= 0]. *)
Fixpoint insert {A} (le : A -> A -> bool) (x : A) (sorted : list A)
  : list A :=
  match sorted with
  | [] => [x]
  | y :: rest => if le x y then x :: y :: rest else y :: insert le x rest
  end.

Fixpoint sort_le {A} (le : A -> A -> bool) (arr : list A) : list A :=
  match arr with
  | [] => []
  | x :: rest => insert le x (sort_le le rest)
  end.

Definition sortZ {A} (cmp : A -> A -> Z) (arr : list A) : list A :=
  sort_le (fun a b => cmp a b <=? 0) arr.

Definition sortQ {A} (cmp : A -> A -> Q) (arr : list A) : list A :=
  sort_le (fun a b => Qle_bool (cmp a b) 0) arr.

(** A number as [Math.min] and [Math.max] return it: with no argument they
    return the infinities. *)
Inductive Num : Type :=
| Fin (q : Q)
| PosInfinity
| NegInfinity.

(** [Math.min(...xs)]. *)
Definition Math_min (xs : list Q) : Num :=
  match xs with
  | [] => PosInfinity
  | x :: rest => Fin (fold_left Qmin rest x)
  end.

(** [Math.max(...xs)]. *)
Definition Math_max (xs : list Q) : Num :=
  match xs with
  | [] => NegInfinity
  | x :: rest => Fin (fold_left Qmax rest x)
  end.

(** [a <= b] on such numbers. *)
Definition Num_le (a b : Num) : Prop :=
  match a, b with
  | NegInfinity, _ => True
  | _, PosInfinity => True
  | Fin x, Fin y => (x <= y)%Q
  | _, _ => False
  end.

(** [Math.max(min, Math.min(max, value))]. *)
Definition clamp (value min max : Z) : Z := Z.max min (Z.min max value).

End JS.

(** ** The hardware catalog ([src/data/hardware-db.ts]) *)

Module HardwareDb.

Open Scope Z_scope.
Open Scope string_scope.

Inductive HardwareTier : Type :=
| very_high | high | mid | low | very_low.

Record HardwareEntry : Type := mkEntry {
  name : string;
  tier : HardwareTier;
  gaming_score : Q;
  release_year : Q;
  msrp : Q;
  current_price_approx : Q
}.

(** The own properties of a [Record<string, HardwareEntry>], in the order
    of [Object.entries]. *)
Definition Database : Type := list (string * HardwareEntry).

Definition cpuDatabase : Database := [
  ("amd ryzen 9 9950x3d",
   mkEntry "AMD Ryzen 9 9950X3D" very_high 97 2025 699 699);
  ("amd ryzen 9 9900x3d",
   mkEntry "AMD Ryzen 9 9900X3D" very_high 96 2025 599 599);
  ("amd ryzen 7 9850x3d",
   mkEntry "AMD Ryzen 7 9850X3D" very_high 99 2026 499 499);
  ("amd ryzen 7 9800x3d",
   mkEntry "AMD Ryzen 7 9800X3D" very_high 98 2024 479 449);
  ("amd ryzen 9 9950x",
   mkEntry "AMD Ryzen 9 9950X" very_high 97 2024 649 549);
  ("amd ryzen 9 9900x",
   mkEntry "AMD Ryzen 9 9900X" very_high 94 2024 499 399);
  ("amd ryzen 7 9700x",
   mkEntry "AMD Ryzen 7 9700X" high 90 2024 359 299);
  ("amd ryzen 5 9600x",
   mkEntry "AMD Ryzen 5 9600X" high 86 2024 279 229);
  ("amd ryzen 9 7950x",
   mkEntry "AMD Ryzen 9 7950X" very_high 93 2022 699 449);
  ("amd ryzen 9 7900x",
   mkEntry "AMD Ryzen 9 7900X" very_high 91 2022 549 349);
  ("amd ryzen 7 7800x3d",
   mkEntry "AMD Ryzen 7 7800X3D" very_high 96 2023 449 339);
  ("amd ryzen 7 7700x",
   mkEntry "AMD Ryzen 7 7700X" high 87 2022 399 249);
  ("amd ryzen 5 7600x",
   mkEntry "AMD Ryzen 5 7600X" high 84 2022 299 199);
  ("amd ryzen 5 7600",
   mkEntry "AMD Ryzen 5 7600" high 82 2023 229 179);
  ("amd ryzen 7 5700x3d",
   mkEntry "AMD Ryzen 7 5700X3D" high 83 2024 249 189);
  ("amd ryzen 7 5700x",
   mkEntry "AMD Ryzen 7 5700X" high 75 2022 299 149);
  ("amd ryzen 9 5950x",
   mkEntry "AMD Ryzen 9 5950X" high 82 2020 799 349);
  ("amd ryzen 9 5900x",
   mkEntry "AMD Ryzen 9 5900X" high 81 2020 549 249);
  ("amd ryzen 7 5800x",
   mkEntry "AMD Ryzen 7 5800X" high 78 2020 449 169);
  ("amd ryzen 7 5800x3d",
   mkEntry "AMD Ryzen 7 5800X3D" high 85 2022 449 249);
  ("amd ryzen 5 5600x",
   mkEntry "AMD Ryzen 5 5600X" mid 72 2020 299 119);
  ("intel core ultra 9 285k",
   mkEntry "Intel Core Ultra 9 285K" very_high 90 2024 589 449);
  ("intel core ultra 7 265k",
   mkEntry "Intel Core Ultra 7 265K" high 86 2024 394 249);
  ("intel core ultra 5 245k",
   mkEntry "Intel Core Ultra 5 245K" high 82 2024 309 209);
  ("intel core i9-14900k",
   mkEntry "Intel Core i9-14900K" very_high 95 2023 589 439);
  ("intel core i7-14700k",
   mkEntry "Intel Core i7-14700K" very_high 92 2023 419 329);
  ("intel core i5-14600k",
   mkEntry "Intel Core i5-14600K" high 87 2023 319 249);
  ("intel core i5-14400f",
   mkEntry "Intel Core i5-14400F" mid 75 2024 199 159);
  ("intel core i9-13900k",
   mkEntry "Intel Core i9-13900K" very_high 93 2022 589 379);
  ("intel core i7-13700k",
   mkEntry "Intel Core i7-13700K" high 89 2022 419 289);
  ("intel core i5-13600k",
   mkEntry "Intel Core i5-13600K" high 85 2022 319 219);
  ("intel core i5-13400f",
   mkEntry "Intel Core i5-13400F" mid 72 2023 199 149);
  ("intel core i9-12900k",
   mkEntry "Intel Core i9-12900K" high 84 2021 589 269);
  ("intel core i7-12700k",
   mkEntry "Intel Core i7-12700K" high 82 2021 409 219);
  ("intel core i5-12600k",
   mkEntry "Intel Core i5-12600K" mid 76 2021 289 169);
  ("intel core i5-12400f",
   mkEntry "Intel Core i5-12400F" mid 68 2022 179 109);
  ("intel core i3-14100f",
   mkEntry "Intel Core i3-14100F" low 60 2024 110 89);
  ("amd ryzen 5 5500",
   mkEntry "AMD Ryzen 5 5500" low 58 2022 159 89);
  ("intel core i3-12100f",
   mkEntry "Intel Core i3-12100F" low 55 2022 109 79);
  ("amd ryzen 5 3600",
   mkEntry "AMD Ryzen 5 3600" low 52 2019 199 79)
].

Definition gpuDatabase : Database := [
  ("nvidia geforce rtx 5090",
   mkEntry "NVIDIA GeForce RTX 5090" very_high 100 2025 1999 2199);
  ("nvidia geforce rtx 5080",
   mkEntry "NVIDIA GeForce RTX 5080" very_high 90 2025 999 1099);
  ("nvidia geforce rtx 5070 ti",
   mkEntry "NVIDIA GeForce RTX 5070 Ti" very_high 84 2025 749 849);
  ("nvidia geforce rtx 5070",
   mkEntry "NVIDIA GeForce RTX 5070" high 78 2025 549 629);
  ("nvidia geforce rtx 5060 ti",
   mkEntry "NVIDIA GeForce RTX 5060 Ti" high 70 2025 429 429);
  ("nvidia geforce rtx 5060",
   mkEntry "NVIDIA GeForce RTX 5060" mid 58 2025 299 299);
  ("nvidia geforce rtx 4090",
   mkEntry "NVIDIA GeForce RTX 4090" very_high 96 2022 1599 1799);
  ("nvidia geforce rtx 4080 super",
   mkEntry "NVIDIA GeForce RTX 4080 SUPER" very_high 86 2024 999 949);
  ("nvidia geforce rtx 4080",
   mkEntry "NVIDIA GeForce RTX 4080" very_high 84 2022 1199 899);
  ("nvidia geforce rtx 4070 ti super",
   mkEntry "NVIDIA GeForce RTX 4070 Ti SUPER" high 80 2024 799 749);
  ("nvidia geforce rtx 4070 ti",
   mkEntry "NVIDIA GeForce RTX 4070 Ti" high 76 2023 799 649);
  ("nvidia geforce rtx 4070 super",
   mkEntry "NVIDIA GeForce RTX 4070 SUPER" high 73 2024 599 569);
  ("nvidia geforce rtx 4070",
   mkEntry "NVIDIA GeForce RTX 4070" high 68 2023 599 499);
  ("nvidia geforce rtx 4060 ti",
   mkEntry "NVIDIA GeForce RTX 4060 Ti" mid 58 2023 399 369);
  ("nvidia geforce rtx 4060",
   mkEntry "NVIDIA GeForce RTX 4060" mid 50 2023 299 279);
  ("nvidia geforce rtx 3090 ti",
   mkEntry "NVIDIA GeForce RTX 3090 Ti" high 75 2022 1999 899);
  ("nvidia geforce rtx 3090",
   mkEntry "NVIDIA GeForce RTX 3090" high 72 2020 1499 799);
  ("nvidia geforce rtx 3080 ti",
   mkEntry "NVIDIA GeForce RTX 3080 Ti" high 70 2021 1199 549);
  ("nvidia geforce rtx 3080",
   mkEntry "NVIDIA GeForce RTX 3080" high 67 2020 699 499);
  ("nvidia geforce rtx 3070 ti",
   mkEntry "NVIDIA GeForce RTX 3070 Ti" mid 62 2021 599 369);
  ("nvidia geforce rtx 3070",
   mkEntry "NVIDIA GeForce RTX 3070" mid 58 2020 499 329);
  ("nvidia geforce rtx 3060 ti",
   mkEntry "NVIDIA GeForce RTX 3060 Ti" mid 52 2020 399 269);
  ("nvidia geforce rtx 3060",
   mkEntry "NVIDIA GeForce RTX 3060" mid 44 2021 329 229);
  ("nvidia geforce gtx 1660 super",
   mkEntry "NVIDIA GeForce GTX 1660 SUPER" low 30 2019 229 139);
  ("nvidia geforce gtx 1650",
   mkEntry "NVIDIA GeForce GTX 1650" very_low 20 2019 149 99);
  ("intel arc b580",
   mkEntry "Intel Arc B580" mid 46 2024 249 249);
  ("intel arc b570",
   mkEntry "Intel Arc B570" mid 42 2025 219 219);
  ("intel arc a770",
   mkEntry "Intel Arc A770" mid 42 2022 349 219);
  ("amd radeon rx 9070 xt",
   mkEntry "AMD Radeon RX 9070 XT" high 76 2025 549 579);
  ("amd radeon rx 9070",
   mkEntry "AMD Radeon RX 9070" high 68 2025 449 479);
  ("amd radeon rx 9060 xt",
   mkEntry "AMD Radeon RX 9060 XT" mid 55 2025 349 349);
  ("amd radeon rx 7900 xtx",
   mkEntry "AMD Radeon RX 7900 XTX" very_high 85 2022 999 849);
  ("amd radeon rx 7900 xt",
   mkEntry "AMD Radeon RX 7900 XT" high 78 2022 899 699);
  ("amd radeon rx 7800 xt",
   mkEntry "AMD Radeon RX 7800 XT" high 65 2023 499 429);
  ("amd radeon rx 7700 xt",
   mkEntry "AMD Radeon RX 7700 XT" mid 58 2023 449 379);
  ("amd radeon rx 7600",
   mkEntry "AMD Radeon RX 7600" mid 45 2023 269 239);
  ("amd radeon rx 6950 xt",
   mkEntry "AMD Radeon RX 6950 XT" high 70 2022 1099 499);
  ("amd radeon rx 6800 xt",
   mkEntry "AMD Radeon RX 6800 XT" high 65 2020 649 389);
  ("amd radeon rx 6700 xt",
   mkEntry "AMD Radeon RX 6700 XT" mid 48 2021 479 249);
  ("amd radeon rx 6600",
   mkEntry "AMD Radeon RX 6600" low 35 2021 329 169)
].

Definition tier_eqb (a b : HardwareTier) : bool :=
  match a, b with
  | very_high, very_high | high, high | mid, mid
  | low, low | very_low, very_low => true
  | _, _ => false
  end.

Definition TIER_ORDER : list HardwareTier :=
  [very_low; low; mid; high; very_high].

(** What [database[key]] and the lookups yield when the result is truthy:
    an own property of the catalog, which is an entry, or a member that the
    catalog object inherits from [Object.prototype] under the name [key]
    (a function, or for [__proto__] the prototype itself).  Such a member
    is truthy and has no [tier]. *)
Inductive Member : Type :=
| Own (entry : HardwareEntry)
| Inherited (key : string).

(** [m.tier]: undefined on an inherited member. *)
Definition tierOf (m : Member) : option HardwareTier :=
  match m with
  | Own entry => Some (tier entry)
  | Inherited _ => None
  end.

(** [a === b] on a tier or undefined. *)
Definition tierOpt_eqb (a b : option HardwareTier) : bool :=
  match a, b with
  | Some x, Some y => tier_eqb x y
  | None, None => true
  | _, _ => false
  end.

(** A numeric index for a tier (0 = very_low, 4 = very_high); [-1] for
    undefined, which [TIER_ORDER] does not hold. *)
Definition tierIndex (t : option HardwareTier) : Z :=
  JS.indexOf tierOpt_eqb (map Some TIER_ORDER) t.

(** The own property [key] of the catalog. *)
Fixpoint getOwn (database : Database) (key : string)
  : option HardwareEntry :=
  match database with
  | [] => None
  | (k, e) :: rest => if String.eqb k key then Some e else getOwn rest key
  end.

(** [database[key]] when it is truthy: the own property [key], or else the
    member of [Object.prototype] of that name. *)
Definition get (database : Database) (key : string) : option Member :=
  match getOwn database key with
  | Some e => Some (Own e)
  | None =>
      if existsb (String.eqb key) JS.objectPrototypeKeys
      then Some (Inherited key)
      else None
  end.

(** The [for ... of Object.entries(database)] loop of the lookup: the
    first entry whose key is contained in the input or contains it. *)
Fixpoint substringMatch (entries : Database) (key : string)
  : option Member :=
  match entries with
  | [] => None
  | (dbKey, entry) :: rest =>
      if JS.includes key dbKey || JS.includes dbKey key
      then Some (Own entry)
      else substringMatch rest key
  end.

(** The body shared by [lookupCPU] and [lookupGPU]. *)
Definition lookup (database : Database) (modelName : string)
  : option Member :=
  let key := JS.trim (JS.toLowerCase modelName) in
  match get database key with
  | Some m => Some m
  | None => substringMatch database key
  end.

Definition lookupCPU (modelName : string) : option Member :=
  lookup cpuDatabase modelName.

Definition lookupGPU (modelName : string) : option Member :=
  lookup gpuDatabase modelName.

(** The value of an entry in the comparator of [getUpgrades]. *)
Definition valueRatio (e : HardwareEntry) : Q :=
  (gaming_score e / JS.or_default (current_price_approx e) 1)%Q.

(** Entries of a higher tier than [current], best value first. *)
Definition getUpgrades (current : Member) (database : Database)
           (maxResults : Z) : list HardwareEntry :=
  let currentTier := tierIndex (tierOf current) in
  JS.slice
    (JS.sortQ (fun a b => (valueRatio b - valueRatio a)%Q)
       (filter (fun entry =>
                  (currentTier <? tierIndex (Some (tier entry)))%Z)
          (map snd database)))
    0 maxResults.

End HardwareDb.


(** ** The scan and the result ([src/lib/types.ts]) *)

Module Types.

Record CPUInfo : Type := {
  cpu_model_name : string;
  architecture : string;
  physical_cores : Q;
  logical_cores : Q;
  base_clock_ghz : Q;
  max_boost_clock_ghz : float;
  current_clock_ghz : float;
  cache_l1 : option Q;
  cache_l2 : option Q;
  cache_l3 : option Q;
  cpu_current_temp_c : option Q;
  usage_per_core : list float;
  power_draw_w : option Q
}.

Record GPUInfo : Type := {
  gpu_model_name : string;
  vram_total_gb : float;
  vram_used_gb : float;
  gpu_clock_mhz : Q;
  memory_clock_mhz : Q;
  gpu_current_temp_c : option Q;
  fan_speed_pct : option Q;
  driver_version : string;
  gpu_utilization_pct : Q;
  pcie_generation : option Q;
  pcie_link_width : option Q
}.

Inductive ChannelMode : Type := single | dual | quad | unknown.

Record RAMInfo : Type := {
  total_gb : Q;
  speed_mhz : Q;
  num_sticks : Q;
  num_slots : Q;
  channel_mode : ChannelMode;
  form_factor : string;
  timings : option string;
  current_used_gb : Q;
  usage_percent : Q
}.

Inductive StorageType : Type := NVMe_SSD | SATA_SSD | HDD | Unknown.

Record StorageInfo : Type := {
  model : string;
  type : StorageType;
  capacity_gb : float;
  used_gb : float;
  free_gb : Q;
  interface : string;
  health_status : option string;
  is_boot_drive : bool
}.

Record MotherboardInfo : Type := {
  mb_model : string;
  chipset : option string;
  bios_version : string;
  bios_date : option string
}.

Record OSInfo : Type := {
  windows_version : string;
  build_number : string;
  is_up_to_date : option bool;
  power_plan : string;
  game_mode : option bool;
  hw_accelerated_gpu_scheduling : option bool;
  virtual_memory_gb : option Q
}.

Record NetworkInfo : Type := {
  connection_type : string;
  speed_mbps : option Q;
  latency_ms : option Q
}.

Record BIOSSettings : Type := {
  xmp_enabled : option bool;
  resizable_bar : option bool;
  tpm_status : option bool;
  virtualization : option bool;
  secure_boot : option bool
}.

Record SystemScan : Type := {
  scan_id : string;
  timestamp : string;
  scan_duration_seconds : Q;
  cpu : CPUInfo;
  gpu : GPUInfo;
  ram : RAMInfo;
  storage : list StorageInfo;
  motherboard : MotherboardInfo;
  os : OSInfo;
  network : NetworkInfo;
  bios_settings : BIOSSettings
}.

Inductive Severity : Type := critical | warning | info | good.

Module Category.
Inductive t : Type := cpu | gpu | ram | storage | thermal | settings.
End Category.

Inductive Difficulty : Type := Easy | Medium | Hard.

Record Bottleneck : Type := {
  id : string;
  category : Category.t;
  severity : Severity;
  difficulty : Difficulty;
  estimated_cost : string
}.

Inductive RecTier : Type := free | cheap | upgrade.

(** The cost text of a recommendation: a fixed string, or the template
    [`$${lo} - $${hi}`] with the two numbers it shows. *)
Inductive CostText : Type :=
| CostLit (s : string)
| CostRange (lo hi : JS.Num).

Record Recommendation : Type := {
  rec_id : string;
  rec_tier : RecTier;
  rec_estimated_cost : CostText;
  priority : Z
}.

Record Breakdown : Type := {
  b_cpu : Z;
  b_gpu : Z;
  b_ram : Z;
  b_storage : Z;
  b_settings : Z
}.

Record PerformanceScore : Type := {
  total : Z;
  grade : string;
  grade_description : string;
  breakdown : Breakdown
}.

Record AnalysisResult : Type := {
  score : PerformanceScore;
  bottlenecks : list Bottleneck;
  recommendations : list Recommendation
}.

End Types.

(** ** The analysis engine ([src/lib/analysis.ts]) *)

Module Analysis.

Import HardwareDb Types.

Open Scope string_scope.
Open Scope Z_scope.

(** [x !== null && x > v]. *)
Definition notNull_gtb (x : option Q) (v : Q) : bool :=
  match x with
  | Some t => JS.gtb t v
  | None => false
  end.

(** [x === b] for a nullable boolean. *)
Definition strictEq (x : option bool) (b : bool) : bool :=
  match x with
  | Some v => Bool.eqb v b
  | None => false
  end.

(** [x === null]. *)
Definition isNull {A} (x : option A) : bool :=
  match x with
  | Some _ => false
  | None => true
  end.

(** [x ?? d]. *)
Definition nullish {A} (x : option A) (d : A) : A :=
  match x with
  | Some v => v
  | None => d
  end.

(** The sum is taken left to right from 0, in binary64 arithmetic. *)
Definition average (nums : list float) : float :=
  if (Z.of_nat (List.length nums) =? 0)%Z then 0%float
  else (fold_left PrimFloat.add nums 0 / JS.lengthOf nums)%float.

Definition clamp (value min max : Z) : Z := JS.clamp value min max.

Definition mkBottleneck (i : string) (c : Category.t) (s : Severity)
           (d : Difficulty) (cost : string) : Bottleneck :=
  {| id := i; category := c; severity := s; difficulty := d;
     estimated_cost := cost |}.

(** *** CPU findings *)

Definition detectCPUBottlenecks (scan : SystemScan)
           (bottlenecks : list Bottleneck)
           (cpuEntry gpuEntry : option Member) : list Bottleneck :=
  let avgCpuUsage := average (usage_per_core (cpu scan)) in
  let gpuUtil := gpu_utilization_pct (gpu scan) in
  (* High CPU usage + low GPU usage = CPU-bound *)
  let bottlenecks :=
    if JS.fgtb avgCpuUsage 90 && JS.ltb gpuUtil 60 then
      JS.push (mkBottleneck "cpu-high-usage" Category.cpu critical
                 Medium "$0 - $400") bottlenecks
    else if JS.fgtb avgCpuUsage 80 && JS.ltb gpuUtil 70 then
      JS.push (mkBottleneck "cpu-moderate-usage" Category.cpu warning
                 Easy "$0") bottlenecks
    else bottlenecks in
  (* Tier mismatch: CPU much weaker than GPU *)
  let bottlenecks :=
    match cpuEntry, gpuEntry with
    | Some c, Some g =>
        let cpuTier := tierIndex (tierOf c) in
        let gpuTier := tierIndex (tierOf g) in
        if 2 <=? gpuTier - cpuTier then
          JS.push (mkBottleneck "cpu-gpu-tier-mismatch" Category.cpu warning
                     Hard "$200 - $500+") bottlenecks
        else bottlenecks
    | _, _ => bottlenecks
    end in
  (* CPU not boosting to expected clocks *)
  if JS.fgtb (current_clock_ghz (cpu scan)) 0
     && JS.fgtb (max_boost_clock_ghz (cpu scan)) 0
     && JS.fltb (current_clock_ghz (cpu scan))
               (max_boost_clock_ghz (cpu scan) * 0.85)
     && JS.fgtb avgCpuUsage 50
  then
    JS.push (mkBottleneck "cpu-not-boosting" Category.cpu warning
               Easy "$0") bottlenecks
  else bottlenecks.

(** *** GPU findings *)

Definition detectGPUBottlenecks (scan : SystemScan)
           (bottlenecks : list Bottleneck)
           (cpuEntry gpuEntry : option Member) : list Bottleneck :=
  let avgCpuUsage := average (usage_per_core (cpu scan)) in
  let gpuUtil := gpu_utilization_pct (gpu scan) in
  (* GPU pegged while CPU is relaxed *)
  let bottlenecks :=
    if JS.gtb gpuUtil 95 && JS.fltb avgCpuUsage 60 then
      JS.push (mkBottleneck "gpu-limited" Category.gpu info
                 Easy "$0 - $800+") bottlenecks
    else bottlenecks in
  (* VRAM nearly full *)
  let bottlenecks :=
    if JS.fgtb (vram_total_gb (gpu scan)) 0
       && JS.fgtb (vram_used_gb (gpu scan) / vram_total_gb (gpu scan)) 0.9
    then
      JS.push (mkBottleneck "gpu-vram-full" Category.gpu warning
                 Easy "$0") bottlenecks
    else bottlenecks in
  (* Tier mismatch: GPU much weaker than CPU *)
  match cpuEntry, gpuEntry with
  | Some c, Some g =>
      let cpuTier := tierIndex (tierOf c) in
      let gpuTier := tierIndex (tierOf g) in
      if 2 <=? cpuTier - gpuTier then
        JS.push (mkBottleneck "gpu-cpu-tier-mismatch" Category.gpu warning
                   Hard "$300 - $800+") bottlenecks
      else bottlenecks
  | _, _ => bottlenecks
  end.

(** *** RAM findings *)

Definition channel_eqb (a b : ChannelMode) : bool :=
  match a, b with
  | single, single | dual, dual | quad, quad | unknown, unknown => true
  | _, _ => false
  end.

Definition detectRAMBottlenecks (scan : SystemScan)
           (bottlenecks : list Bottleneck) : list Bottleneck :=
  (* Single-channel RAM *)
  let bottlenecks :=
    if channel_eqb (channel_mode (ram scan)) single then
      JS.push (mkBottleneck "ram-single-channel" Category.ram critical
                 Medium "$25 - $60") bottlenecks
    else bottlenecks in
  (* Low total RAM *)
  let bottlenecks :=
    if JS.ltb (total_gb (ram scan)) 16 then
      JS.push (mkBottleneck "ram-low-capacity" Category.ram warning
                 Medium "$30 - $80") bottlenecks
    else bottlenecks in
  (* High RAM usage *)
  let bottlenecks :=
    if JS.gtb (usage_percent (ram scan)) 85 then
      JS.push (mkBottleneck "ram-high-usage" Category.ram warning
                 Easy "$0 - $60") bottlenecks
    else bottlenecks in
  (* Slow RAM speed (likely XMP off) *)
  let isDDR4 := JS.includes (JS.toLowerCase (form_factor (ram scan))) "ddr4" in
  let isDDR5 := JS.includes (JS.toLowerCase (form_factor (ram scan))) "ddr5" in
  let bottlenecks :=
    if isDDR4 && JS.ltb (speed_mhz (ram scan)) 3000 then
      JS.push (mkBottleneck "ram-slow-speed" Category.ram critical
                 Easy "$0") bottlenecks
    else bottlenecks in
  if isDDR5 && JS.ltb (speed_mhz (ram scan)) 4800 then
    JS.push (mkBottleneck "ram-slow-speed-ddr5" Category.ram critical
               Easy "$0") bottlenecks
  else bottlenecks.

(** *** Storage findings *)

Definition storageType_eqb (a b : StorageType) : bool :=
  match a, b with
  | NVMe_SSD, NVMe_SSD | SATA_SSD, SATA_SSD | HDD, HDD
  | Unknown, Unknown => true
  | _, _ => false
  end.

(** [status && !["good", "ok", "healthy"].includes(status.toLowerCase())]. *)
Definition unhealthy (status : option string) : bool :=
  match status with
  | Some h =>
      JS.truthy h
      && negb (existsb (String.eqb (JS.toLowerCase h))
                 ["good"; "ok"; "healthy"])
  | None => false
  end.

(** The loop over all drives that reports the unhealthy ones. *)
Fixpoint checkDriveHealth (drives : list StorageInfo)
         (bottlenecks : list Bottleneck) : list Bottleneck :=
  match drives with
  | [] => bottlenecks
  | drive :: rest =>
      let bottlenecks :=
        if unhealthy (health_status drive) then
          JS.push (mkBottleneck
                     ("storage-health-"
                        ++ JS.toLowerCase (JS.replace_ws (model drive)))%string
                     Category.storage critical Medium "$40 - $150")
                  bottlenecks
        else bottlenecks in
      checkDriveHealth rest bottlenecks
  end.

Definition detectStorageBottlenecks (scan : SystemScan)
           (bottlenecks : list Bottleneck) : list Bottleneck :=
  let bootDrive := find is_boot_drive (storage scan) in
  (* Boot drive is HDD *)
  let bottlenecks :=
    match bootDrive with
    | Some d =>
        if storageType_eqb (type d) HDD then
          JS.push (mkBottleneck "storage-hdd-boot" Category.storage critical
                     Medium "$25 - $70") bottlenecks
        else bottlenecks
    | None => bottlenecks
    end in
  (* Boot drive running low on space *)
  let bottlenecks :=
    match bootDrive with
    | Some d =>
        if JS.fgtb (capacity_gb d) 0 then
          let usagePct := (used_gb d / capacity_gb d)%float in
          if JS.fgtb usagePct 0.9 then
            JS.push (mkBottleneck "storage-boot-almost-full"
                       Category.storage warning Easy "$0 - $80") bottlenecks
          else if JS.fgtb usagePct 0.8 then
            JS.push (mkBottleneck "storage-boot-getting-full"
                       Category.storage info Easy "$0") bottlenecks
          else bottlenecks
        else bottlenecks
    | None => bottlenecks
    end in
  (* No NVMe drive at all *)
  let hasNVMe :=
    existsb (fun d => storageType_eqb (type d) NVMe_SSD) (storage scan) in
  let bottlenecks :=
    if negb hasNVMe then
      JS.push (mkBottleneck "storage-no-nvme" Category.storage info
                 Medium "$40 - $100") bottlenecks
    else bottlenecks in
  (* Check for unhealthy drives *)
  checkDriveHealth (storage scan) bottlenecks.

(** *** Thermal findings *)

Definition detectThermalBottlenecks (scan : SystemScan)
           (bottlenecks : list Bottleneck) : list Bottleneck :=
  let cpuTemp := cpu_current_temp_c (cpu scan) in
  let gpuTemp := gpu_current_temp_c (gpu scan) in
  let bottlenecks :=
    match cpuTemp with
    | Some t =>
        if JS.gtb t 85 then
          JS.push (mkBottleneck "thermal-cpu-critical" Category.thermal
                     critical Medium "$5 - $80") bottlenecks
        else if JS.gtb t 75 then
          JS.push (mkBottleneck "thermal-cpu-warm" Category.thermal
                     info Easy "$0 - $20") bottlenecks
        else bottlenecks
    | None => bottlenecks
    end in
  match gpuTemp with
  | Some t =>
      if JS.gtb t 85 then
        JS.push (mkBottleneck "thermal-gpu-hot" Category.thermal
                   warning Medium "$0 - $15") bottlenecks
      else if JS.gtb t 80 then
        JS.push (mkBottleneck "thermal-gpu-warm" Category.thermal
                   info Easy "$0 - $20") bottlenecks
      else bottlenecks
  | None => bottlenecks
  end.

(** *** Settings findings *)

Definition detectSettingsBottlenecks (scan : SystemScan)
           (bottlenecks : list Bottleneck) : list Bottleneck :=
  (* Power plan *)
  let powerPlan := JS.toLowerCase (power_plan (os scan)) in
  let bottlenecks :=
    if negb (JS.includes powerPlan "high performance")
       && negb (JS.includes powerPlan "ultimate")
    then
      JS.push (mkBottleneck "settings-power-plan" Category.settings warning
                 Easy "$0") bottlenecks
    else bottlenecks in
  (* XMP / DOCP *)
  let bottlenecks :=
    if strictEq (xmp_enabled (bios_settings scan)) false then
      JS.push (mkBottleneck "settings-xmp-off" Category.settings critical
                 Easy "$0") bottlenecks
    else bottlenecks in
  (* Resizable BAR *)
  let bottlenecks :=
    if strictEq (resizable_bar (bios_settings scan)) false then
      JS.push (mkBottleneck "settings-rebar-off" Category.settings info
                 Easy "$0") bottlenecks
    else bottlenecks in
  (* GPU scheduling *)
  let bottlenecks :=
    if strictEq (hw_accelerated_gpu_scheduling (os scan)) false then
      JS.push (mkBottleneck "settings-gpu-scheduling" Category.settings info
                 Easy "$0") bottlenecks
    else bottlenecks in
  (* Game Mode *)
  if strictEq (game_mode (os scan)) false then
    JS.push (mkBottleneck "settings-game-mode-off" Category.settings info
               Easy "$0") bottlenecks
  else bottlenecks.

(** *** Recommendations

    The builder is stated over any pair of catalogs; [cpuDatabase] and
    [gpuDatabase] below stand for the two tables the module imports. *)

Section Engine.

Variables cpuDatabase gpuDatabase : Database.

(** The array being filled and the running [priority] counter. *)
Record RecState : Type := {
  recs : list Recommendation;
  next_priority : Z
}.

(** [recommendations.push({ ..., priority: priority++ })]. *)
Definition pushRec (mk : Z -> Recommendation) (st : RecState) : RecState :=
  {| recs := JS.push (mk (next_priority st)) (recs st);
     next_priority := next_priority st + 1 |}.

Definition mkRec (i : string) (t : RecTier) (cost : CostText) (p : Z)
  : Recommendation :=
  {| rec_id := i; rec_tier := t; rec_estimated_cost := cost;
     priority := p |}.

Definition severity_eqb (a b : Severity) : bool :=
  match a, b with
  | critical, critical | warning, warning | info, info
  | good, good => true
  | _, _ => false
  end.

(** The price span [`$${Math.min(...)} - $${Math.max(...)}`]. *)
Definition priceSpan (upgrades : list HardwareEntry) : CostText :=
  CostRange (JS.Math_min (map current_price_approx upgrades))
            (JS.Math_max (map current_price_approx upgrades)).

Definition buildRecommendations (scan : SystemScan)
           (bottlenecks : list Bottleneck)
           (recommendations : list Recommendation)
           (cpuEntry gpuEntry : option Member)
  : list Recommendation :=
  let st := {| recs := recommendations; next_priority := 1 |} in
  let hasCritical := fun i : string =>
    existsb (fun b => String.eqb (id b) i
                      && severity_eqb (severity b) critical) bottlenecks in
  let has := fun i : string =>
    existsb (fun b => String.eqb (id b) i) bottlenecks in
  (* Free fixes *)
  let st :=
    if has "settings-xmp-off" || hasCritical "ram-slow-speed"
       || hasCritical "ram-slow-speed-ddr5"
    then pushRec (mkRec "rec-enable-xmp" free (CostLit "$0")) st
    else st in
  let st :=
    if has "settings-power-plan"
    then pushRec (mkRec "rec-power-plan" free (CostLit "$0")) st
    else st in
  let st :=
    if has "settings-rebar-off"
    then pushRec (mkRec "rec-enable-rebar" free (CostLit "$0")) st
    else st in
  let st :=
    if has "settings-gpu-scheduling"
    then pushRec (mkRec "rec-gpu-scheduling" free (CostLit "$0")) st
    else st in
  let st :=
    if has "cpu-not-boosting"
    then pushRec (mkRec "rec-check-boost" free (CostLit "$0")) st
    else st in
  (* Cheap fixes *)
  let st :=
    if has "thermal-cpu-critical"
    then pushRec (mkRec "rec-cpu-cooling" cheap (CostLit "$5 - $45")) st
    else st in
  let st :=
    if has "ram-single-channel"
    then pushRec (mkRec "rec-second-ram-stick" cheap
                    (CostLit "$25 - $60")) st
    else st in
  let st :=
    if has "ram-low-capacity"
    then pushRec (mkRec "rec-more-ram" cheap (CostLit "$35 - $50")) st
    else st in
  let st :=
    if has "storage-hdd-boot"
    then pushRec (mkRec "rec-ssd-boot" cheap (CostLit "$25 - $60")) st
    else st in
  (* Upgrade recommendations *)
  let st :=
    match cpuEntry with
    | Some c =>
        if has "cpu-high-usage" || has "cpu-gpu-tier-mismatch" then
          let upgrades := getUpgrades c cpuDatabase 2 in
          if 0 <? Z.of_nat (List.length upgrades) then
            pushRec (mkRec "rec-cpu-upgrade" upgrade (priceSpan upgrades))
                    st
          else st
        else st
    | None => st
    end in
  let st :=
    match gpuEntry with
    | Some g =>
        if has "gpu-limited" || has "gpu-cpu-tier-mismatch" then
          let upgrades := getUpgrades g gpuDatabase 2 in
          if 0 <? Z.of_nat (List.length upgrades) then
            pushRec (mkRec "rec-gpu-upgrade" upgrade (priceSpan upgrades))
                    st
          else st
        else st
    | None => st
    end in
  recs st.

(** *** Score *)

(** [tierScores[t]].  The table has the five tiers; an undefined [t] reads
    the key "undefined", which the table does not have. *)
Definition tierScores (t : option HardwareTier) : option Z :=
  match t with
  | Some very_high => Some 22
  | Some high => Some 18
  | Some mid => Some 14
  | Some low => Some 10
  | Some very_low => Some 6
  | None => None
  end.

Definition getGrade (total : Z) : string * string :=
  if 90 <=? total then
    ("A", "Your system is optimized. Nice work.")
  else if 80 <=? total then
    ("A-", "Great setup. A few tweaks could squeeze out more performance.")
  else if 70 <=? total then
    ("B", "Good, but you're leaving performance on the table.")
  else if 60 <=? total then
    ("C", "Several bottlenecks detected. Easy fixes available.")
  else
    ("D", "Significant issues found. Major free performance gains possible.").

Definition calculateScore (scan : SystemScan)
           (bottlenecks : list Bottleneck)
           (cpuEntry gpuEntry : option Member) : PerformanceScore :=
  let cpuScore := 25 in
  let gpuScore := 25 in
  let ramScore := 20 in
  let storageScore := 15 in
  let settingsScore := 15 in
  (* CPU score (/25): base from tier *)
  let cpuScore :=
    match cpuEntry with
    | Some e => nullish (tierScores (tierOf e)) 14
    | None => cpuScore
    end in
  (* Thermal penalty *)
  let cpuScore :=
    if notNull_gtb (cpu_current_temp_c (cpu scan)) 85 then cpuScore - 5
    else if notNull_gtb (cpu_current_temp_c (cpu scan)) 75
         then cpuScore - 2
         else cpuScore in
  (* Boost clock penalty *)
  let cpuScore :=
    if JS.fgtb (current_clock_ghz (cpu scan)) 0
       && JS.fgtb (max_boost_clock_ghz (cpu scan)) 0
       && JS.fltb (current_clock_ghz (cpu scan))
                 (max_boost_clock_ghz (cpu scan) * 0.85)
    then cpuScore - 3
    else cpuScore in
  let cpuScore := clamp cpuScore 0 25 in
  (* GPU score (/25) *)
  let gpuScore :=
    match gpuEntry with
    | Some e => nullish (tierScores (tierOf e)) 14
    | None => gpuScore
    end in
  (* Thermal penalty *)
  let gpuScore :=
    if notNull_gtb (gpu_current_temp_c (gpu scan)) 85 then gpuScore - 4
    else if notNull_gtb (gpu_current_temp_c (gpu scan)) 80
         then gpuScore - 2
         else gpuScore in
  (* VRAM pressure *)
  let gpuScore :=
    if JS.fgtb (vram_total_gb (gpu scan)) 0
       && JS.fgtb (vram_used_gb (gpu scan) / vram_total_gb (gpu scan)) 0.9
    then gpuScore - 3
    else gpuScore in
  let gpuScore := clamp gpuScore 0 25 in
  (* RAM score (/20): start with full marks and deduct *)
  let ramScore := 20 in
  let isDDR4 :=
    JS.includes (JS.toLowerCase (form_factor (ram scan))) "ddr4" in
  let isDDR5 :=
    JS.includes (JS.toLowerCase (form_factor (ram scan))) "ddr5" in
  let ramScore :=
    if isDDR4 && JS.ltb (speed_mhz (ram scan)) 3000 then ramScore - 8
    else if isDDR4 && JS.ltb (speed_mhz (ram scan)) 3200
         then ramScore - 3
         else ramScore in
  let ramScore :=
    if isDDR5 && JS.ltb (speed_mhz (ram scan)) 4800 then ramScore - 8
    else if isDDR5 && JS.ltb (speed_mhz (ram scan)) 5600
         then ramScore - 3
         else ramScore in
  (* Single channel *)
  let ramScore :=
    if channel_eqb (channel_mode (ram scan)) single then ramScore - 10
    else ramScore in
  (* Capacity *)
  let ramScore :=
    if JS.ltb (total_gb (ram scan)) 16 then ramScore - 5
    else if JS.ltb (total_gb (ram scan)) 32 then ramScore - 1
         else ramScore in
  (* High usage *)
  let ramScore :=
    if JS.gtb (usage_percent (ram scan)) 85 then ramScore - 3
    else ramScore in
  let ramScore := clamp ramScore 0 20 in
  (* Storage score (/15) *)
  let bootDrive := find is_boot_drive (storage scan) in
  let storageScore :=
    match bootDrive with
    | Some d =>
        let storageScore :=
          if storageType_eqb (type d) NVMe_SSD then 15
          else if storageType_eqb (type d) SATA_SSD then 10
          else if storageType_eqb (type d) HDD then 5
          else 8 in
        (* Free space penalty *)
        let storageScore :=
          if JS.fgtb (capacity_gb d) 0 then
            let usagePct := (used_gb d / capacity_gb d)%float in
            if JS.fgtb usagePct 0.9 then storageScore - 3
            else if JS.fgtb usagePct 0.8 then storageScore - 1
            else storageScore
          else storageScore in
        (* Health penalty *)
        if unhealthy (health_status d) then storageScore - 5
        else storageScore
    | None => storageScore
    end in
  let storageScore := clamp storageScore 0 15 in
  (* Settings score (/15) *)
  let settingsScore := 0 in
  (* Power plan (3 pts) *)
  let plan := JS.toLowerCase (power_plan (os scan)) in
  let settingsScore :=
    if JS.includes plan "ultimate" then settingsScore + 3
    else if JS.includes plan "high performance" then settingsScore + 3
    else if JS.includes plan "balanced" then settingsScore + 1
    else settingsScore in
  (* XMP (5 pts) *)
  let settingsScore :=
    if strictEq (xmp_enabled (bios_settings scan)) true
    then settingsScore + 5
    else if isNull (xmp_enabled (bios_settings scan))
         then settingsScore + 2
         else settingsScore in
  (* GPU drivers (2 pts) *)
  let settingsScore :=
    if JS.truthy (driver_version (gpu scan))
       && (0 <? Z.of_nat (String.length (driver_version (gpu scan))))
    then settingsScore + 2
    else settingsScore in
  (* Resizable BAR (2 pts) *)
  let settingsScore :=
    if strictEq (resizable_bar (bios_settings scan)) true
    then settingsScore + 2
    else settingsScore in
  (* Game Mode (1 pt) *)
  let settingsScore :=
    if strictEq (game_mode (os scan)) true then settingsScore + 1
    else settingsScore in
  (* HW-accelerated GPU scheduling (2 pts) *)
  let settingsScore :=
    if strictEq (hw_accelerated_gpu_scheduling (os scan)) true
    then settingsScore + 2
    else settingsScore in
  let settingsScore := clamp settingsScore 0 15 in
  (* Total and grade *)
  let total :=
    cpuScore + gpuScore + ramScore + storageScore + settingsScore in
  let graded := getGrade total in
  {| total := total;
     grade := fst graded;
     grade_description := snd graded;
     breakdown := {| b_cpu := cpuScore; b_gpu := gpuScore;
                     b_ram := ramScore; b_storage := storageScore;
                     b_settings := settingsScore |} |}.

(** *** Main entry point *)

Definition severityOrder (s : Severity) : Z :=
  match s with
  | critical => 0
  | warning => 1
  | info => 2
  | good => 3
  end.

Definition tierOrder (t : RecTier) : Z :=
  match t with
  | free => 0
  | cheap => 1
  | upgrade => 2
  end.

Definition compareSeverity (a b : Bottleneck) : Z :=
  severityOrder (severity a) - severityOrder (severity b).

Definition compareRecommendation (a b : Recommendation) : Z :=
  let tierDiff := tierOrder (rec_tier a) - tierOrder (rec_tier b) in
  if negb (tierDiff =? 0) then tierDiff
  else priority a - priority b.

(** The findings in detection order, before the sort. *)
Definition detectAll (scan : SystemScan)
           (cpuEntry gpuEntry : option Member) : list Bottleneck :=
  let bottlenecks := [] in
  let bottlenecks :=
    detectCPUBottlenecks scan bottlenecks cpuEntry gpuEntry in
  let bottlenecks :=
    detectGPUBottlenecks scan bottlenecks cpuEntry gpuEntry in
  let bottlenecks := detectRAMBottlenecks scan bottlenecks in
  let bottlenecks := detectStorageBottlenecks scan bottlenecks in
  let bottlenecks := detectThermalBottlenecks scan bottlenecks in
  detectSettingsBottlenecks scan bottlenecks.

Definition analyzeScan (scan : SystemScan) : AnalysisResult :=
  let recommendations := [] in
  let cpuEntry := lookup cpuDatabase (cpu_model_name (cpu scan)) in
  let gpuEntry := lookup gpuDatabase (gpu_model_name (gpu scan)) in
  (* Run all detection rules *)
  let bottlenecks := detectAll scan cpuEntry gpuEntry in
  (* Build recommendations from the bottlenecks we found *)
  let recommendations :=
    buildRecommendations scan bottlenecks recommendations
                         cpuEntry gpuEntry in
  (* Sort: critical first, then warning, info, good *)
  let bottlenecks := JS.sortZ compareSeverity bottlenecks in
  (* Sort recommendations: by tier, then by priority *)
  let recommendations :=
    JS.sortZ compareRecommendation recommendations in
  let score := calculateScore scan bottlenecks cpuEntry gpuEntry in
  {| score := score;
     bottlenecks := bottlenecks;
     recommendations := recommendations |}.

End Engine.

(** The engine over the two catalogs that ship with it. *)
Definition analyze (scan : SystemScan) : AnalysisResult :=
  analyzeScan HardwareDb.cpuDatabase HardwareDb.gpuDatabase scan.

End Analysis.

(** ** The demo scan ([sampleScan]) *)

Module SampleData.

Import Types.
Open Scope string_scope.
Open Scope Q_scope.

Definition sampleScan : SystemScan := {|
  scan_id := "demo-001";
  timestamp := "2026-02-12T14:30:00Z";
  scan_duration_seconds := 4.2;
  cpu := {|
    cpu_model_name := "AMD Ryzen 7 5800X";
    architecture := "Zen 3";
    physical_cores := 8;
    logical_cores := 16;
    base_clock_ghz := 3.8;
    max_boost_clock_ghz := 4.7;
    current_clock_ghz := 4.45;
    cache_l1 := Some 512;
    cache_l2 := Some 4096;
    cache_l3 := Some 32768;
    cpu_current_temp_c := Some 62;
    usage_per_core :=
      [45; 52; 38; 61; 55; 42; 48; 50; 30; 35; 28; 40; 33; 29; 31; 36]%float;
    power_draw_w := Some 95
  |};
  gpu := {|
    gpu_model_name := "NVIDIA GeForce RTX 4070 Ti";
    vram_total_gb := 12;
    vram_used_gb := 7.8;
    gpu_clock_mhz := 2310;
    memory_clock_mhz := 10504;
    gpu_current_temp_c := Some 68;
    fan_speed_pct := Some 55;
    driver_version := "566.14";
    gpu_utilization_pct := 88;
    pcie_generation := Some 4;
    pcie_link_width := Some 16
  |};
  ram := {|
    total_gb := 32;
    speed_mhz := 2133;
    num_sticks := 2;
    num_slots := 4;
    channel_mode := dual;
    form_factor := "DIMM DDR4";
    timings := Some "15-15-15-36";
    current_used_gb := 14.2;
    usage_percent := 44
  |};
  storage := [
    {| model := "Samsung 980 Pro 1TB";
       type := NVMe_SSD;
       capacity_gb := 953;
       used_gb := 612;
       free_gb := 341;
       interface := "PCIe 4.0 x4";
       health_status := Some "Good";
       is_boot_drive := true |};
    {| model := "Seagate Barracuda 2TB";
       type := HDD;
       capacity_gb := 1863;
       used_gb := 1240;
       free_gb := 623;
       interface := "SATA III";
       health_status := Some "Good";
       is_boot_drive := false |}
  ];
  motherboard := {|
    mb_model := "MSI MAG B550 TOMAHAWK";
    chipset := Some "AMD B550";
    bios_version := "7C91v1A";
    bios_date := Some "2024-03-15"
  |};
  os := {|
    windows_version := "Windows 11 23H2";
    build_number := "22631.4037";
    is_up_to_date := Some true;
    power_plan := "Balanced";
    game_mode := Some true;
    hw_accelerated_gpu_scheduling := Some false;
    virtual_memory_gb := Some 16
  |};
  network := {|
    connection_type := "Ethernet";
    speed_mbps := Some 940;
    latency_ms := Some 8
  |};
  bios_settings := {|
    xmp_enabled := Some false;
    resizable_bar := Some false;
    tpm_status := Some true;
    virtualization := Some true;
    secure_boot := Some true
  |}
|}.

End SampleData.


(** ** The vocabulary of the specification

    The named parts of a subsystem score (base, deductions, points) and the
    relations the statements below are written with.  Each is related to the
    code by a lemma. *)

Module Spec.

Import HardwareDb Types Analysis.

Open Scope string_scope.
Open Scope Z_scope.

(** *** Parts of the CPU and GPU scores *)

(** The base of a CPU or GPU score: the tier table for a catalog entry,
    [unknown] when the lookup found nothing. *)
Definition tierBase (unknown : Z) (entry : option Member) : Z :=
  match entry with
  | Some e => nullish (tierScores (tierOf e)) 14
  | None => unknown
  end.

Definition cpuThermalDeduction (scan : SystemScan) : Z :=
  match cpu_current_temp_c (cpu scan) with
  | Some t => if JS.gtb t 85 then 5 else if JS.gtb t 75 then 2 else 0
  | None => 0
  end.

(** The boost-clock shortfall as the scorer tests it. *)
Definition boostShortfall (scan : SystemScan) : bool :=
  JS.fgtb (current_clock_ghz (cpu scan)) 0
  && JS.fgtb (max_boost_clock_ghz (cpu scan)) 0
  && JS.fltb (current_clock_ghz (cpu scan))
            (max_boost_clock_ghz (cpu scan) * 0.85).

Definition cpuBoostDeduction (scan : SystemScan) : Z :=
  if boostShortfall scan then 3 else 0.

(** The CPU score that starts from [base]. *)
Definition cpuScoreFrom (base : Z) (scan : SystemScan) : Z :=
  clamp (base - cpuThermalDeduction scan - cpuBoostDeduction scan) 0 25.

Definition gpuThermalDeduction (scan : SystemScan) : Z :=
  match gpu_current_temp_c (gpu scan) with
  | Some t => if JS.gtb t 85 then 4 else if JS.gtb t 80 then 2 else 0
  | None => 0
  end.

(** The total VRAM is positive and the used amount divided by it is above
    0.9. *)
Definition vramPressure (scan : SystemScan) : bool :=
  JS.fgtb (vram_total_gb (gpu scan)) 0
  && JS.fgtb (vram_used_gb (gpu scan) / vram_total_gb (gpu scan)) 0.9.

Definition gpuVramDeduction (scan : SystemScan) : Z :=
  if vramPressure scan then 3 else 0.

(** The GPU score that starts from [base]. *)
Definition gpuScoreFrom (base : Z) (scan : SystemScan) : Z :=
  clamp (base - gpuThermalDeduction scan - gpuVramDeduction scan) 0 25.

(** *** Parts of the RAM score *)

Definition isDDR4 (scan : SystemScan) : bool :=
  JS.includes (JS.toLowerCase (form_factor (ram scan))) "ddr4".

Definition isDDR5 (scan : SystemScan) : bool :=
  JS.includes (JS.toLowerCase (form_factor (ram scan))) "ddr5".

Definition ramSpeedDeductionDDR4 (scan : SystemScan) : Z :=
  if isDDR4 scan && JS.ltb (speed_mhz (ram scan)) 3000 then 8
  else if isDDR4 scan && JS.ltb (speed_mhz (ram scan)) 3200 then 3
  else 0.

Definition ramSpeedDeductionDDR5 (scan : SystemScan) : Z :=
  if isDDR5 scan && JS.ltb (speed_mhz (ram scan)) 4800 then 8
  else if isDDR5 scan && JS.ltb (speed_mhz (ram scan)) 5600 then 3
  else 0.

Definition ramChannelDeduction (scan : SystemScan) : Z :=
  if channel_eqb (channel_mode (ram scan)) single then 10 else 0.

Definition ramCapacityDeduction (scan : SystemScan) : Z :=
  if JS.ltb (total_gb (ram scan)) 16 then 5
  else if JS.ltb (total_gb (ram scan)) 32 then 1
  else 0.

Definition ramUsageDeduction (scan : SystemScan) : Z :=
  if JS.gtb (usage_percent (ram scan)) 85 then 3 else 0.

(** *** Parts of the storage score *)

Definition storageBase (t : StorageType) : Z :=
  match t with
  | NVMe_SSD => 15
  | SATA_SSD => 10
  | HDD => 5
  | Unknown => 8
  end.

Definition storageFullnessDeduction (d : StorageInfo) : Z :=
  if JS.fgtb (capacity_gb d) 0 then
    if JS.fgtb (used_gb d / capacity_gb d) 0.9 then 3
    else if JS.fgtb (used_gb d / capacity_gb d) 0.8 then 1
    else 0
  else 0.

Definition storageHealthDeduction (d : StorageInfo) : Z :=
  if unhealthy (health_status d) then 5 else 0.

(** The storage score as a function of the boot drive alone. *)
Definition storageScoreOf (bootDrive : option StorageInfo) : Z :=
  match bootDrive with
  | Some d =>
      clamp (storageBase (type d) - storageFullnessDeduction d
             - storageHealthDeduction d) 0 15
  | None => 15
  end.

(** *** Parts of the storage findings *)

(** The findings that depend on the boot drive, as a function of that drive
    alone. *)
Definition bootFindings (bootDrive : option StorageInfo) : list Bottleneck :=
  match bootDrive with
  | Some d =>
      ((if storageType_eqb (type d) HDD
        then [mkBottleneck "storage-hdd-boot" Category.storage critical
                Medium "$25 - $70"]
        else [])
       ++
       (if JS.fgtb (capacity_gb d) 0 then
          if JS.fgtb (used_gb d / capacity_gb d) 0.9 then
            [mkBottleneck "storage-boot-almost-full" Category.storage warning
               Easy "$0 - $80"]
          else if JS.fgtb (used_gb d / capacity_gb d) 0.8 then
            [mkBottleneck "storage-boot-getting-full" Category.storage info
               Easy "$0"]
          else []
        else []))%list
  | None => []
  end.

Definition nvmeFindings (drives : list StorageInfo) : list Bottleneck :=
  if existsb (fun d => storageType_eqb (type d) NVMe_SSD) drives then []
  else [mkBottleneck "storage-no-nvme" Category.storage info
          Medium "$40 - $100"].

(** The finding reported for an unhealthy drive. *)
Definition healthFinding (drive : StorageInfo) : Bottleneck :=
  mkBottleneck
    ("storage-health-" ++ JS.toLowerCase (JS.replace_ws (model drive)))%string
    Category.storage critical Medium "$40 - $150".

(** *** Parts of the settings score *)

Definition powerPlanPoints (scan : SystemScan) : Z :=
  let plan := JS.toLowerCase (power_plan (os scan)) in
  if JS.includes plan "ultimate" || JS.includes plan "high performance"
  then 3
  else if JS.includes plan "balanced" then 1 else 0.

(** +5 when explicitly true, +2 when unknown, +0 when explicitly false. *)
Definition xmpPoints (xmp : option bool) : Z :=
  match xmp with
  | Some true => 5
  | None => 2
  | Some false => 0
  end.

Definition driverPoints (scan : SystemScan) : Z :=
  if JS.truthy (driver_version (gpu scan)) then 2 else 0.

Definition flagPoints (flag : option bool) (points : Z) : Z :=
  match flag with
  | Some true => points
  | _ => 0
  end.

(** The settings points other than the XMP ones. *)
Definition otherSettingsPoints (scan : SystemScan) : Z :=
  powerPlanPoints scan + driverPoints scan
  + flagPoints (resizable_bar (bios_settings scan)) 2
  + flagPoints (game_mode (os scan)) 1
  + flagPoints (hw_accelerated_gpu_scheduling (os scan)) 2.

(** *** The catalog lookup, in the words of the specification *)



(** The white space that trimming removes, among the code units below
    256: TAB, LF, VT, FF, CR, SPACE and NO-BREAK SPACE. *)
Definition whiteSpace : list ascii :=
  map ascii_of_nat [9; 10; 11; 12; 13; 32; 160]%nat.

Definition isWhite (c : ascii) : bool := existsb (Ascii.eqb c) whiteSpace.

(** The code units below 256 that lower-casing changes: the 26 letters from
    A, the 23 from U+00C0 and the 7 from U+00D8. *)
Definition upperCase : list nat := (seq 65 26 ++ seq 192 23 ++ seq 216 7)%list.

(** The lower-case counterpart of a code unit: 32 places up for the ones of
    [upperCase], the code unit itself otherwise. *)
Definition lowerCaseOf (c : ascii) : ascii :=
  if existsb (Nat.eqb (nat_of_ascii c)) upperCase
  then ascii_of_nat (nat_of_ascii c + 32)
  else c.

(** A string with every code unit replaced by its lower-case
    counterpart. *)
Fixpoint lowerCased (s : string) : string :=
  match s with
  | EmptyString => EmptyString
  | String c s' => String (lowerCaseOf c) (lowerCased s')
  end.

(** Only whitespace. *)
Fixpoint allSpaces (s : string) : bool :=
  match s with
  | EmptyString => true
  | String c s' => isWhite c && allSpaces s'
  end.






(** Lower-cased, then trimmed. *)
Definition normalize (modelName : string) : string :=
  JS.trim (JS.toLowerCase modelName).





(** *** Upgrade candidates, in the words of the specification *)

(** [gaming_score / max(current_price, 1)]. *)
Definition specValueRatio (e : HardwareEntry) : Q :=
  (gaming_score e / Qmax (current_price_approx e) 1)%Q.

(** [a < b] as the program evaluates it on two numbers: the comparison of
    binary64 values. *)
Definition below (a b : float) : Prop := PrimFloat.ltb a b = true.

(** [e] is of a strictly higher tier than [current]; a member without a
    tier has the index -1, below every tier. *)
Definition higherTier (current : Member) (e : HardwareEntry) : Prop :=
  tierIndex (tierOf current) < tierIndex (Some (tier e)).


(** *** The price span of an upgrade recommendation *)

(** The cost of the recommendation is the fixed text of a free or cheap fix
    that is not an upgrade recommendation, or a span of two finite prices
    with the lower one first. *)
Definition spanInOrder (r : Recommendation) : Prop :=
  match rec_estimated_cost r with
  | CostRange lo hi =>
      exists a b, lo = JS.Fin a /\ hi = JS.Fin b /\ (a <= b)%Q
  | CostLit _ =>
      rec_tier r <> upgrade
      /\ rec_id r <> "rec-cpu-upgrade" /\ rec_id r <> "rec-gpu-upgrade"
  end.

(** Every recommendation pushed so far has its span in order. *)
Definition allInOrder (st : RecState) : Prop := Forall spanInOrder (recs st).

(** *** Rules in declaration order *)

(** [l] is [ids] with some elements left out. *)
Inductive Subseq {A : Type} : list A -> list A -> Prop :=
| Subseq_nil : forall ids, Subseq [] ids
| Subseq_take : forall x l ids, Subseq l ids -> Subseq (x :: l) (x :: ids)
| Subseq_skip : forall x l ids, Subseq l ids -> Subseq l (x :: ids).

Definition cpuRuleIds : list string :=
  ["cpu-high-usage"; "cpu-moderate-usage"; "cpu-gpu-tier-mismatch";
   "cpu-not-boosting"].

Definition gpuRuleIds : list string :=
  ["gpu-limited"; "gpu-vram-full"; "gpu-cpu-tier-mismatch"].

Definition ramRuleIds : list string :=
  ["ram-single-channel"; "ram-low-capacity"; "ram-high-usage";
   "ram-slow-speed"; "ram-slow-speed-ddr5"].

(** The storage rules with a fixed identifier; the drive-health findings
    follow them. *)
Definition storageRuleIds : list string :=
  ["storage-hdd-boot"; "storage-boot-almost-full";
   "storage-boot-getting-full"; "storage-no-nvme"].

Definition thermalRuleIds : list string :=
  ["thermal-cpu-critical"; "thermal-cpu-warm"; "thermal-gpu-hot";
   "thermal-gpu-warm"].

Definition settingsRuleIds : list string :=
  ["settings-power-plan"; "settings-xmp-off"; "settings-rebar-off";
   "settings-gpu-scheduling"; "settings-game-mode-off"].

(** *** Findings of a result *)

(** A finding with identifier [i] is part of the list. *)
Definition emitted (i : string) (findings : list Bottleneck) : Prop :=
  exists b, In b findings /\ id b = i.

(** The test [bottlenecks.some((b) => b.id === i)]. *)
Definition emittedb (i : string) (findings : list Bottleneck) : bool :=
  existsb (fun b => String.eqb (id b) i) findings.

(** The severity order of the specification, critical < warning < info <
    good: [a] is the same as [b] or comes before it. *)
Definition severityAtMost (a b : Severity) : Prop :=
  match a, b with
  | critical, _ => True
  | warning, critical => False
  | warning, _ => True
  | info, critical | info, warning => False
  | info, _ => True
  | good, good => True
  | good, _ => False
  end.

Definition severityLe (a b : Bottleneck) : Prop :=
  severityAtMost (severity a) (severity b).

(** The findings of one severity, in the order of the list. *)
Definition ofSeverity (s : Severity) (findings : list Bottleneck)
  : list Bottleneck :=
  filter (fun b => severity_eqb (severity b) s) findings.

(** The tier order of the specification, free < cheap < upgrade: [a]
    comes strictly before [b]. *)
Definition tierBefore (a b : RecTier) : Prop :=
  match a, b with
  | free, cheap | free, upgrade | cheap, upgrade => True
  | _, _ => False
  end.

(** Tier first, then priority. *)
Definition recommendationLe (a b : Recommendation) : Prop :=
  tierBefore (rec_tier a) (rec_tier b)
  \/ (rec_tier a = rec_tier b /\ priority a <= priority b).

End Spec.

(** ** Scans used as concrete inputs *)

Module Scenarios.

Import HardwareDb Types SampleData.
Open Scope string_scope.
Open Scope Q_scope.

Definition setCpu (c : CPUInfo) (scan : SystemScan) : SystemScan :=
  {| scan_id := scan_id scan; timestamp := timestamp scan;
     scan_duration_seconds := scan_duration_seconds scan;
     cpu := c; gpu := gpu scan; ram := ram scan; storage := storage scan;
     motherboard := motherboard scan; os := os scan;
     network := network scan; bios_settings := bios_settings scan |}.

Definition setGpu (g : GPUInfo) (scan : SystemScan) : SystemScan :=
  {| scan_id := scan_id scan; timestamp := timestamp scan;
     scan_duration_seconds := scan_duration_seconds scan;
     cpu := cpu scan; gpu := g; ram := ram scan; storage := storage scan;
     motherboard := motherboard scan; os := os scan;
     network := network scan; bios_settings := bios_settings scan |}.

Definition setRam (r : RAMInfo) (scan : SystemScan) : SystemScan :=
  {| scan_id := scan_id scan; timestamp := timestamp scan;
     scan_duration_seconds := scan_duration_seconds scan;
     cpu := cpu scan; gpu := gpu scan; ram := r; storage := storage scan;
     motherboard := motherboard scan; os := os scan;
     network := network scan; bios_settings := bios_settings scan |}.

Definition setStorage (s : list StorageInfo) (scan : SystemScan)
  : SystemScan :=
  {| scan_id := scan_id scan; timestamp := timestamp scan;
     scan_duration_seconds := scan_duration_seconds scan;
     cpu := cpu scan; gpu := gpu scan; ram := ram scan; storage := s;
     motherboard := motherboard scan; os := os scan;
     network := network scan; bios_settings := bios_settings scan |}.

Definition setXmp (x : option bool) (scan : SystemScan) : SystemScan :=
  {| scan_id := scan_id scan; timestamp := timestamp scan;
     scan_duration_seconds := scan_duration_seconds scan;
     cpu := cpu scan; gpu := gpu scan; ram := ram scan;
     storage := storage scan;
     motherboard := motherboard scan; os := os scan;
     network := network scan;
     bios_settings :=
       {| xmp_enabled := x;
          resizable_bar := resizable_bar (bios_settings scan);
          tpm_status := tpm_status (bios_settings scan);
          virtualization := virtualization (bios_settings scan);
          secure_boot := secure_boot (bios_settings scan) |} |}.



End Scenarios.

Module RamScenario.

Import Types SampleData Scenarios.
Open Scope string_scope.
Open Scope Q_scope.

(** The demo machine with one stick of DDR4 at the JEDEC speed. *)
Definition singleChannelScan : SystemScan :=
  setRam
    {| total_gb := 16;
       speed_mhz := 2133;
       num_sticks := 1;
       num_slots := 4;
       channel_mode := single;
       form_factor := "DIMM DDR4";
       timings := None;
       current_used_gb := 6.4;
       usage_percent := 40 |}
    sampleScan.

Definition singleChannelFinding : Bottleneck :=
  Analysis.mkBottleneck "ram-single-channel" Category.ram critical
    Medium "$25 - $60".

Definition slowSpeedFinding : Bottleneck :=
  Analysis.mkBottleneck "ram-slow-speed" Category.ram critical Easy "$0".

End RamScenario.

Module UpgradeScenario.

Import HardwareDb.
Open Scope string_scope.
Open Scope Q_scope.







End UpgradeScenario.

Module CpuBoundScenario.

Import Types SampleData Scenarios.
Open Scope string_scope.
Open Scope Q_scope.

(** The demo machine with all cores busy and the graphics card waiting. *)
Definition cpuBoundScan : SystemScan :=
  setCpu
    {| cpu_model_name := "AMD Ryzen 7 5800X";
       architecture := "Zen 3";
       physical_cores := 8;
       logical_cores := 16;
       base_clock_ghz := 3.8;
       max_boost_clock_ghz := 4.7;
       current_clock_ghz := 4.45;
       cache_l1 := Some 512;
       cache_l2 := Some 4096;
       cache_l3 := Some 32768;
       cpu_current_temp_c := Some 62;
       usage_per_core := [97; 95; 98; 96; 94; 99; 95; 96]%float;
       power_draw_w := Some 140 |}
    (setGpu
       {| gpu_model_name := "NVIDIA GeForce RTX 4070 Ti";
          vram_total_gb := 12;
          vram_used_gb := 7.8;
          gpu_clock_mhz := 2310;
          memory_clock_mhz := 10504;
          gpu_current_temp_c := Some 68;
          fan_speed_pct := Some 55;
          driver_version := "566.14";
          gpu_utilization_pct := 41;
          pcie_generation := Some 4;
          pcie_link_width := Some 16 |}
       sampleScan).

End CpuBoundScenario.

Module TwoBootDrivesScenario.

Import Types SampleData Scenarios.
Open Scope string_scope.
Open Scope Q_scope.

Definition firstBoot : StorageInfo :=
  {| model := "Samsung 980 Pro 1TB";
     type := NVMe_SSD;
     capacity_gb := 953;
     used_gb := 612;
     free_gb := 341;
     interface := "PCIe 4.0 x4";
     health_status := Some "Good";
     is_boot_drive := true |}.

(** A failing, nearly full hard drive that also carries the boot flag. *)
Definition secondBoot : StorageInfo :=
  {| model := "Seagate Barracuda 2TB";
     type := HDD;
     capacity_gb := 1863;
     used_gb := 1800;
     free_gb := 63;
     interface := "SATA III";
     health_status := Some "Caution";
     is_boot_drive := true |}.

Definition twoBootDrivesScan : SystemScan :=
  setStorage [firstBoot; secondBoot] sampleScan.

End TwoBootDrivesScenario.

(** ** Vocabulary of the further properties *)

Module More.

Import HardwareDb Types Analysis Spec.
Open Scope string_scope.
Open Scope Z_scope.

(** The identifier is the one of a drive-health finding. *)
Definition isHealthId (b : Bottleneck) : bool :=
  JS.startsWith (id b) "storage-health-".

(** The identifiers of all rules with a fixed identifier, evaluator by
    evaluator. *)
Definition fixedRuleIds : list string :=
  (cpuRuleIds ++ gpuRuleIds ++ ramRuleIds ++ storageRuleIds
   ++ thermalRuleIds ++ settingsRuleIds)%list.

(** The part of a drive-health identifier that comes from the drive. *)
Definition sanitizedModel (d : StorageInfo) : string :=
  JS.toLowerCase (JS.replace_ws (model d)).

(** *** The recommendation builder as a table of rules *)

(** What a rule pushes, but for the priority. *)
Definition RecData : Type := (string * RecTier * CostText)%type.

(** The rules of the builder in the order of the source, each with its
    guard. *)
Definition builderSteps (cpuDb gpuDb : Database)
           (bottlenecks : list Bottleneck)
           (cpuEntry gpuEntry : option Member)
  : list (bool * RecData) :=
  let has := fun i : string =>
    existsb (fun b => String.eqb (id b) i) bottlenecks in
  let hasCritical := fun i : string =>
    existsb (fun b => String.eqb (id b) i
                      && severity_eqb (severity b) critical) bottlenecks in
  [ (has "settings-xmp-off" || hasCritical "ram-slow-speed"
     || hasCritical "ram-slow-speed-ddr5",
     ("rec-enable-xmp", free, CostLit "$0"));
    (has "settings-power-plan", ("rec-power-plan", free, CostLit "$0"));
    (has "settings-rebar-off", ("rec-enable-rebar", free, CostLit "$0"));
    (has "settings-gpu-scheduling",
     ("rec-gpu-scheduling", free, CostLit "$0"));
    (has "cpu-not-boosting", ("rec-check-boost", free, CostLit "$0"));
    (has "thermal-cpu-critical",
     ("rec-cpu-cooling", cheap, CostLit "$5 - $45"));
    (has "ram-single-channel",
     ("rec-second-ram-stick", cheap, CostLit "$25 - $60"));
    (has "ram-low-capacity", ("rec-more-ram", cheap, CostLit "$35 - $50"));
    (has "storage-hdd-boot", ("rec-ssd-boot", cheap, CostLit "$25 - $60"));
    (match cpuEntry with
     | Some c =>
         (has "cpu-high-usage" || has "cpu-gpu-tier-mismatch")
         && (0 <? Z.of_nat (List.length (getUpgrades c cpuDb 2)))
     | None => false
     end,
     ("rec-cpu-upgrade", upgrade,
      match cpuEntry with
      | Some c => priceSpan (getUpgrades c cpuDb 2)
      | None => priceSpan []
      end));
    (match gpuEntry with
     | Some g =>
         (has "gpu-limited" || has "gpu-cpu-tier-mismatch")
         && (0 <? Z.of_nat (List.length (getUpgrades g gpuDb 2)))
     | None => false
     end,
     ("rec-gpu-upgrade", upgrade,
      match gpuEntry with
      | Some g => priceSpan (getUpgrades g gpuDb 2)
      | None => priceSpan []
      end)) ].

(** The rules whose guard holds. *)
Definition chosen (steps : list (bool * RecData)) : list RecData :=
  map snd (filter fst steps).

(** The recommendations pushed for a list of rules, the first one with
    priority [p]. *)
Fixpoint numbered (p : Z) (l : list RecData) : list Recommendation :=
  match l with
  | [] => []
  | (i, t, cost) :: rest => mkRec i t cost p :: numbered (p + 1) rest
  end.

(** The state of the builder after the rules [steps]. *)
Definition shape (steps : list (bool * RecData)) (st : RecState) : Prop :=
  recs st = numbered 1 (chosen steps)
  /\ next_priority st = 1 + Z.of_nat (List.length (chosen steps)).

Definition recRuleIds : list string :=
  ["rec-enable-xmp"; "rec-power-plan"; "rec-enable-rebar";
   "rec-gpu-scheduling"; "rec-check-boost"; "rec-cpu-cooling";
   "rec-second-ram-stick"; "rec-more-ram"; "rec-ssd-boot";
   "rec-cpu-upgrade"; "rec-gpu-upgrade"].

(** The test [bottlenecks.some((b) => b.id === i && b.severity ===
    "critical")] of the builder. *)
Definition hasCriticalb (i : string) (findings : list Bottleneck) : bool :=
  existsb (fun b => String.eqb (id b) i
                    && severity_eqb (severity b) critical) findings.

(** The guard of the rule that pushes the recommendation [i]. *)
Definition guardOf (i : string) (steps : list (bool * RecData)) : bool :=
  existsb (fun s => fst s && String.eqb (fst (fst (snd s))) i) steps.

(** A recommendation with identifier [i] is part of the list. *)
Definition recommended (i : string) (l : list Recommendation) : Prop :=
  exists r, In r l /\ rec_id r = i.

End More.

(** ** The dashboard *)

Module Dashboard.

Import Types Analysis.

Open Scope string_scope.
Open Scope Z_scope.

(** [getScoreColor] of [components/ScoreGauge.tsx]. *)
Definition getScoreColor (score : Z) : string :=
  if 80 <=? score then "var(--green)"
  else if 60 <=? score then "var(--amber)"
  else "var(--red)".

(** [tempStatus] of [components/SystemOverview.tsx]; its result is one of
    the literals "good", "warning" and "critical", or undefined. *)
Definition tempStatus (temp : option Q) : option Severity :=
  match temp with
  | None => None
  | Some t =>
      if JS.ltb t 70 then Some good
      else if JS.ltb t 85 then Some warning
      else Some critical
  end.

(** The drive of the storage card of [SystemOverview]:
    [scan.storage.find((s) => s.is_boot_drive) ?? scan.storage[0]]. *)
Definition bootDrive (scan : SystemScan) : option StorageInfo :=
  match find is_boot_drive (storage scan) with
  | Some d => Some d
  | None => nth_error (storage scan) 0
  end.

Definition recTier_eqb (a b : RecTier) : bool :=
  match a, b with
  | free, free | cheap, cheap | upgrade, upgrade => true
  | _, _ => false
  end.

(** The sections of [RecommendationList], top to bottom. *)
Definition tiers : list RecTier := [free; cheap; upgrade].

(** [grouped] of [RecommendationList]: per section the recommendations of
    its tier, sorted by priority. *)
Definition grouped (recommendations : list Recommendation)
  : list (RecTier * list Recommendation) :=
  map (fun tier =>
         (tier,
          JS.sortZ (fun a b => priority a - priority b)
            (filter (fun r => recTier_eqb (rec_tier r) tier)
               recommendations)))
      tiers.

End Dashboard.

(** ** The scan endpoint and the uploader
    ([src/app/api/scan/route.ts], [src/components/ScanUploader.tsx]) *)

Module Api.

Open Scope string_scope.
Open Scope Z_scope.

(** A value as [JSON.parse] builds it, and [undefined].  An object is the
    list of its own properties in the order [Object.entries] enumerates
    them, each key once; an array is the list of its elements. *)
#[local] Unset Elimination Schemes.

Inductive Value : Type :=
| VUndefined
| VNull
| VBool (b : bool)
| VNum (n : Q)
| VStr (s : string)
| VArr (items : list Value)
| VObj (props : list (string * Value)).

#[local] Set Elimination Schemes.

(** [typeof v === "object"]: true of [null], of arrays and of objects. *)
Definition typeofObject (v : Value) : bool :=
  match v with
  | VNull | VArr _ | VObj _ => true
  | _ => false
  end.

Definition typeofString (v : Value) : bool :=
  match v with VStr _ => true | _ => false end.

Definition typeofNumber (v : Value) : bool :=
  match v with VNum _ => true | _ => false end.

Definition isNull (v : Value) : bool :=
  match v with VNull => true | _ => false end.

Definition isArray (v : Value) : bool :=
  match v with VArr _ => true | _ => false end.

(** The key of the element [i] of an array: its decimal numeral. *)
Definition indexKey (i : nat) : string :=
  NilEmpty.string_of_uint (Nat.to_uint i).

(** [key] is the index of an element of [items]. *)
Definition isIndexOf (key : string) (items : list Value) : bool :=
  existsb (fun i => String.eqb key (indexKey i))
          (seq 0 (List.length items)).

(** The property names of [Object.prototype]. *)
Definition objectPrototypeKeys : list string := JS.objectPrototypeKeys.

(** The property names of [Array.prototype]. *)
Definition arrayPrototypeKeys : list string :=
  ["constructor"; "at"; "concat"; "copyWithin"; "fill"; "find"; "findIndex";
   "findLast"; "findLastIndex"; "lastIndexOf"; "pop"; "push"; "reverse";
   "shift"; "unshift"; "slice"; "sort"; "splice"; "includes"; "indexOf";
   "join"; "keys"; "entries"; "values"; "forEach"; "filter"; "flat";
   "flatMap"; "map"; "every"; "some"; "reduce"; "reduceRight";
   "toLocaleString"; "toString"; "toReversed"; "toSorted"; "toSpliced";
   "with"].

Definition inb (key : string) (keys : list string) : bool :=
  existsb (String.eqb key) keys.

(** [key] is an own property of [v]. *)
Definition ownKey (key : string) (v : Value) : bool :=
  match v with
  | VObj props => existsb (fun kv => String.eqb (fst kv) key) props
  | VArr items => isIndexOf key items || String.eqb key "length"
  | _ => false
  end.

(** [key] is a property of a prototype of [v]: an object made by
    [JSON.parse] has [Object.prototype] as its prototype, an array
    [Array.prototype] and then [Object.prototype]. *)
Definition inheritedKey (key : string) (v : Value) : bool :=
  match v with
  | VObj _ => inb key objectPrototypeKeys
  | VArr _ => inb key arrayPrototypeKeys || inb key objectPrototypeKeys
  | _ => false
  end.

(** [key in v] for an object or an array [v]: the own properties and the
    ones of the prototype chain. *)
Definition hasProperty (key : string) (v : Value) : bool :=
  ownKey key v || inheritedKey key v.

(** [v[key]] for a key that no prototype defines: the own property, or
    [undefined].  The keys read below (the section names, [model_name] and
    [total_gb]) are of that kind. *)
Definition get (v : Value) (key : string) : Value :=
  match v with
  | VObj props =>
      match find (fun kv => String.eqb (fst kv) key) props with
      | Some kv => snd kv
      | None => VUndefined
      end
  | VArr items =>
      if String.eqb key "length"
      then VNum (inject_Z (Z.of_nat (List.length items)))
      else
        match find (fun i => String.eqb key (indexKey i))
                   (seq 0 (List.length items)) with
        | Some i => nth i items VUndefined
        | None => VUndefined
        end
  | _ => VUndefined
  end.

(** [v.length] of an array. *)
Definition arrayLength (v : Value) : Z :=
  match v with
  | VArr items => Z.of_nat (List.length items)
  | _ => 0
  end.

(** The double quote of the messages. *)
Definition dq : string := String "034"%char EmptyString.

Definition requiredSections : list string :=
  ["cpu"; "gpu"; "ram"; "storage"; "motherboard"; "os"].

(** The body of the loop over [requiredSections]. *)
Definition checkSection (scan : Value) (errors : list string)
           (section : string) : list string :=
  if negb (hasProperty section scan) then
    JS.push ("Missing required field: " ++ dq ++ section ++ dq ++ ".") errors
  else if String.eqb section "storage" then
    if negb (isArray (get scan section)) then
      JS.push (dq ++ "storage" ++ dq ++ " must be an array.") errors
    else if arrayLength (get scan section) =? 0 then
      JS.push (dq ++ "storage" ++ dq ++ " must contain at least one drive.")
              errors
    else errors
  else if negb (typeofObject (get scan section)) || isNull (get scan section)
  then JS.push (dq ++ section ++ dq ++ " must be a JSON object.") errors
  else errors.

(** [validateScanShape] of the endpoint. *)
Definition validateScanShape (data : Value) : list string :=
  let errors := [] in
  if negb (typeofObject data) || isNull data then
    JS.push "Request body must be a JSON object." errors
  else
    let scan := data in
    (* Required top-level sections *)
    let errors := fold_left (checkSection scan) requiredSections errors in
    (* Validate CPU has a model name *)
    let errors :=
      if typeofObject (get scan "cpu") && negb (isNull (get scan "cpu"))
         && negb (typeofString (get (get scan "cpu") "model_name"))
      then JS.push (dq ++ "cpu.model_name" ++ dq
                    ++ " is required and must be a string.") errors
      else errors in
    (* Validate GPU has a model name *)
    let errors :=
      if typeofObject (get scan "gpu") && negb (isNull (get scan "gpu"))
         && negb (typeofString (get (get scan "gpu") "model_name"))
      then JS.push (dq ++ "gpu.model_name" ++ dq
                    ++ " is required and must be a string.") errors
      else errors in
    (* Validate RAM has total_gb *)
    let errors :=
      if typeofObject (get scan "ram") && negb (isNull (get scan "ram"))
         && negb (typeofNumber (get (get scan "ram") "total_gb"))
      then JS.push (dq ++ "ram.total_gb" ++ dq
                    ++ " is required and must be a number.") errors
      else errors in
    (* Reject prototype-pollution keys *)
    let errors :=
      if hasProperty "__proto__" scan || hasProperty "constructor" scan
         || hasProperty "prototype" scan
      then JS.push "Request contains disallowed keys." errors
      else errors in
    errors.

(** [validateScan] of the uploader. *)
Definition validateScan (data : Value) : bool :=
  if negb (typeofObject data) || isNull data then false
  else
    let obj := data in
    typeofObject (get obj "cpu") && negb (isNull (get obj "cpu"))
    && typeofObject (get obj "gpu") && negb (isNull (get obj "gpu"))
    && typeofObject (get obj "ram") && negb (isNull (get obj "ram")).

(** [s.replace(/[<>]/g, "")]: every angle bracket is removed. *)
Fixpoint stripAngles (s : string) : string :=
  match s with
  | EmptyString => EmptyString
  | String c rest =>
      if Ascii.eqb c "<"%char || Ascii.eqb c ">"%char then stripAngles rest
      else String c (stripAngles rest)
  end.

Definition isPollutionKey (key : string) : bool :=
  String.eqb key "__proto__" || String.eqb key "constructor"
  || String.eqb key "prototype".

(** [sanitizeObject(obj, depth)].  The loop over [Object.entries(obj)]
    skips the three keys and assigns every other one to a fresh object, so
    the result has the remaining keys in the same order. *)
Fixpoint sanitizeObject (obj : Value) (depth : Z) : Value :=
  if 10 <? depth then VUndefined
  else
    match obj with
    | VStr s => VStr (stripAngles s)
    | VNum _ | VBool _ | VNull => obj
    | VArr items =>
        VArr (map (fun item => sanitizeObject item (depth + 1)) items)
    | VObj props =>
        VObj ((fix entries (l : list (string * Value))
                 : list (string * Value) :=
                 match l with
                 | [] => []
                 | (key, value) :: rest =>
                     if isPollutionKey key then entries rest
                     else (key, sanitizeObject value (depth + 1))
                          :: entries rest
                 end) props)
    | VUndefined => VUndefined
    end.

(** The loop of [sanitizeObject] over the entries of an object. *)
Fixpoint sanitizeEntries (l : list (string * Value)) (depth : Z)
  : list (string * Value) :=
  match l with
  | [] => []
  | (key, value) :: rest =>
      if isPollutionKey key then sanitizeEntries rest depth
      else (key, sanitizeObject value (depth + 1))
           :: sanitizeEntries rest depth
  end.

(** No string value holds an angle bracket and no object has one of the
    three keys, at any depth. *)
Fixpoint clean (v : Value) : bool :=
  match v with
  | VStr s => negb (JS.includes s "<") && negb (JS.includes s ">")
  | VArr items => forallb clean items
  | VObj props =>
      (fix entries (l : list (string * Value)) : bool :=
         match l with
         | [] => true
         | (key, value) :: rest =>
             negb (isPollutionKey key) && clean value && entries rest
         end) props
  | _ => true
  end.

(** How deep the values of [v] are nested: 0 for a scalar and for an empty
    array or object, otherwise one more than the deepest element. *)
Fixpoint height (v : Value) : Z :=
  match v with
  | VArr items =>
      fold_right (fun item h => Z.max (1 + height item) h) 0 items
  | VObj props =>
      (fix entries (l : list (string * Value)) : Z :=
         match l with
         | [] => 0
         | (_, value) :: rest => Z.max (1 + height value) (entries rest)
         end) props
  | _ => 0
  end.

(** The value holds no [undefined]: it is a JSON value. *)
Fixpoint defined (v : Value) : bool :=
  match v with
  | VUndefined => false
  | VArr items => forallb defined items
  | VObj props =>
      (fix entries (l : list (string * Value)) : bool :=
         match l with
         | [] => true
         | (_, value) :: rest => defined value && entries rest
         end) props
  | _ => true
  end.

(** Induction over a value and the values it holds. *)
Section ValueInduction.

Variable P : Value -> Prop.
Hypothesis Hundefined : P VUndefined.
Hypothesis Hnull : P VNull.
Hypothesis Hbool : forall b, P (VBool b).
Hypothesis Hnum : forall n, P (VNum n).
Hypothesis Hstr : forall s, P (VStr s).
Hypothesis Harr : forall items, Forall P items -> P (VArr items).
Hypothesis Hobj :
  forall props, Forall (fun kv => P (snd kv)) props -> P (VObj props).

Fixpoint Value_ind (v : Value) : P v :=
  match v with
  | VUndefined => Hundefined
  | VNull => Hnull
  | VBool b => Hbool b
  | VNum n => Hnum n
  | VStr s => Hstr s
  | VArr items =>
      Harr ((fix all (l : list Value) : Forall P l :=
               match l with
               | [] => Forall_nil P
               | x :: rest => Forall_cons x (Value_ind x) (all rest)
               end) items)
  | VObj props =>
      Hobj ((fix all (l : list (string * Value))
               : Forall (fun kv => P (snd kv)) l :=
               match l with
               | [] => Forall_nil _
               | kv :: rest =>
                   Forall_cons kv (Value_ind (snd kv)) (all rest)
               end) props)
  end.

End ValueInduction.

End Api.

(** * Properties *)

Import HardwareDb Types Analysis Spec.

Local Open Scope Z_scope.

(** ** The scorer, part by part *)

Lemma clamp_bounds (v lo hi : Z) :
  lo <= hi -> lo <= clamp v lo hi <= hi.
Proof. unfold clamp, JS.clamp. lia. Qed.

Ltac split_ifs :=
  repeat match goal with
    | |- context [if ?c then _ else _] => destruct c
    | |- context [match ?x with Some _ => _ | None => _ end] => destruct x
    end.

Lemma cpu_score_parts scan bs ce ge :
  b_cpu (breakdown (calculateScore scan bs ce ge))
  = cpuScoreFrom (tierBase 25 ce) scan.
Proof.
  unfold calculateScore, cpuScoreFrom, cpuThermalDeduction, cpuBoostDeduction,
    boostShortfall, notNull_gtb; cbn [b_cpu breakdown].
  destruct ce, (cpu_current_temp_c (cpu scan)) as [t|]; cbn [tierBase];
    split_ifs; f_equal; lia.
Qed.

Lemma gpu_score_parts scan bs ce ge :
  b_gpu (breakdown (calculateScore scan bs ce ge))
  = gpuScoreFrom (tierBase 25 ge) scan.
Proof.
  unfold calculateScore, gpuScoreFrom, gpuThermalDeduction, gpuVramDeduction,
    vramPressure, notNull_gtb; cbn [b_gpu breakdown].
  destruct ge, (gpu_current_temp_c (gpu scan)) as [t|]; cbn [tierBase];
    split_ifs; f_equal; lia.
Qed.

Lemma ram_score_parts scan bs ce ge :
  b_ram (breakdown (calculateScore scan bs ce ge))
  = clamp (20 - ramSpeedDeductionDDR4 scan - ramSpeedDeductionDDR5 scan
           - ramChannelDeduction scan - ramCapacityDeduction scan
           - ramUsageDeduction scan) 0 20.
Proof.
  unfold calculateScore, ramSpeedDeductionDDR4, ramSpeedDeductionDDR5,
    ramChannelDeduction, ramCapacityDeduction, ramUsageDeduction,
    isDDR4, isDDR5; cbn [b_ram breakdown].
  split_ifs; f_equal; lia.
Qed.

Lemma storage_score_parts scan bs ce ge :
  b_storage (breakdown (calculateScore scan bs ce ge))
  = storageScoreOf (find is_boot_drive (storage scan)).
Proof.
  unfold calculateScore, storageScoreOf, storageFullnessDeduction,
    storageHealthDeduction, storageBase; cbn [b_storage breakdown].
  destruct (find is_boot_drive (storage scan)) as [d|]; [|reflexivity].
  destruct (type d); cbn [storageType_eqb]; split_ifs; f_equal; lia.
Qed.

Lemma settings_score_parts scan bs ce ge :
  b_settings (breakdown (calculateScore scan bs ce ge))
  = otherSettingsPoints scan + xmpPoints (xmp_enabled (bios_settings scan)).
Proof.
  unfold calculateScore, otherSettingsPoints, powerPlanPoints, driverPoints,
    flagPoints, xmpPoints, strictEq, isNull; cbn [b_settings breakdown].
  destruct (driver_version (gpu scan)) as [|c s]; cbn [JS.truthy String.length];
    [cbn [andb]|replace (0 <? Z.of_nat (S (String.length s))) with true
                  by (symmetry; apply Z.ltb_lt; lia); cbn [andb]];
    destruct (xmp_enabled (bios_settings scan)) as [[|]|];
    destruct (resizable_bar (bios_settings scan)) as [[|]|];
    destruct (game_mode (os scan)) as [[|]|];
    destruct (hw_accelerated_gpu_scheduling (os scan)) as [[|]|];
    cbn [Bool.eqb];
    destruct (JS.includes (JS.toLowerCase (power_plan (os scan))) "ultimate");
    destruct (JS.includes (JS.toLowerCase (power_plan (os scan)))
                "high performance");
    destruct (JS.includes (JS.toLowerCase (power_plan (os scan))) "balanced");
    cbn [orb]; reflexivity.
Qed.

Lemma total_is_sum scan bs ce ge :
  let s := calculateScore scan bs ce ge in
  total s = b_cpu (breakdown s) + b_gpu (breakdown s) + b_ram (breakdown s)
            + b_storage (breakdown s) + b_settings (breakdown s).
Proof. reflexivity. Qed.

Lemma xmpPoints_range xmp : 0 <= xmpPoints xmp <= 5.
Proof. destruct xmp as [[|]|]; cbn; lia. Qed.

Lemma otherSettingsPoints_range scan : 0 <= otherSettingsPoints scan <= 10.
Proof.
  unfold otherSettingsPoints, powerPlanPoints, driverPoints, flagPoints.
  destruct (resizable_bar (bios_settings scan)) as [[|]|];
    destruct (game_mode (os scan)) as [[|]|];
    destruct (hw_accelerated_gpu_scheduling (os scan)) as [[|]|];
    split_ifs; lia.
Qed.

Lemma storageScoreOf_range bootDrive : 0 <= storageScoreOf bootDrive <= 15.
Proof.
  destruct bootDrive as [d|]; cbn [storageScoreOf];
    [apply clamp_bounds|]; lia.
Qed.

(** C2. For every scan, each value of the breakdown lies in its declared
    range (cpu and gpu in 0..25, ram in 0..20, storage and settings in
    0..15), the total is the sum of the five values, and the total is
    between 0 and 100. *)
Theorem C2_breakdown_ranges_and_total cpuDb gpuDb scan :
  let s := score (analyzeScan cpuDb gpuDb scan) in
  let b := breakdown s in
  0 <= b_cpu b <= 25
  /\ 0 <= b_gpu b <= 25
  /\ 0 <= b_ram b <= 20
  /\ 0 <= b_storage b <= 15
  /\ 0 <= b_settings b <= 15
  /\ total s = b_cpu b + b_gpu b + b_ram b + b_storage b + b_settings b
  /\ 0 <= total s <= 100.
Proof.
  intros s b. subst b s. cbn [score analyzeScan].
  rewrite total_is_sum.
  rewrite cpu_score_parts, gpu_score_parts, ram_score_parts,
    storage_score_parts, settings_score_parts.
  unfold cpuScoreFrom, gpuScoreFrom.
  match goal with
  | |- context [clamp ?v 0 25 + clamp ?w 0 25 + clamp ?r 0 20] =>
      pose proof (@clamp_bounds v 0 25 ltac:(lia));
      pose proof (@clamp_bounds w 0 25 ltac:(lia));
      pose proof (@clamp_bounds r 0 20 ltac:(lia))
  end.
  pose proof (storageScoreOf_range (find is_boot_drive (storage scan))).
  pose proof (xmpPoints_range (xmp_enabled (bios_settings scan))).
  pose proof (otherSettingsPoints_range scan).
  lia.
Qed.

(** ** The sort *)

Section Sort.

Variable A : Type.
Variable le : A -> A -> bool.

Lemma insert_perm x l : Permutation (JS.insert le x l) (x :: l).
Proof.
  induction l as [|y l IH]; cbn; [reflexivity|].
  destruct (le x y); [reflexivity|].
  rewrite IH. apply perm_swap.
Qed.

Lemma sort_le_perm l : Permutation (JS.sort_le le l) l.
Proof.
  induction l as [|x l IH]; cbn; [constructor|].
  rewrite insert_perm. now constructor.
Qed.

Lemma sort_le_In x l : In x (JS.sort_le le l) <-> In x l.
Proof.
  split; apply Permutation_in;
    [apply sort_le_perm | symmetry; apply sort_le_perm].
Qed.

(** Inserting into a list leaves the elements that satisfy [p] in their
    order, provided [x] goes in front of the ones it ties with. *)
Lemma filter_insert (p : A -> bool) x l :
  (forall y, p x = true -> p y = true -> le x y = true) ->
  filter p (JS.insert le x l) = filter p (x :: l).
Proof.
  intros tie. induction l as [|y l IH]; [reflexivity|].
  cbn [JS.insert]. destruct (le x y) eqn:Hxy; [reflexivity|].
  cbn [filter] in *. rewrite IH.
  destruct (p x) eqn:Hx, (p y) eqn:Hy; try reflexivity.
  rewrite (tie y eq_refl Hy) in Hxy. discriminate.
Qed.

Lemma filter_sort_le (p : A -> bool) l :
  (forall x y, p x = true -> p y = true -> le x y = true) ->
  filter p (JS.sort_le le l) = filter p l.
Proof.
  intros tie. induction l as [|x l IH]; [reflexivity|].
  cbn [JS.sort_le]. rewrite filter_insert by (apply tie).
  cbn [filter]. now rewrite IH.
Qed.

Hypothesis le_total : forall x y, le x y = true \/ le y x = true.
Hypothesis le_trans :
  forall x y z, le x y = true -> le y z = true -> le x z = true.

Lemma insert_sorted x l :
  StronglySorted (fun a b => le a b = true) l ->
  StronglySorted (fun a b => le a b = true) (JS.insert le x l).
Proof.
  induction 1 as [|y l Hs IH Hy]; cbn.
  - repeat constructor.
  - destruct (le x y) eqn:Hxy.
    + constructor; [now constructor|].
      constructor; [exact Hxy|].
      eapply Forall_impl; [|exact Hy]. intros z Hz. eauto.
    + constructor; [exact IH|].
      eapply Permutation_Forall; [symmetry; apply insert_perm|].
      constructor; [|exact Hy].
      destruct (le_total x y) as [H|H]; congruence.
Qed.

Lemma sort_le_sorted l :
  StronglySorted (fun a b => le a b = true) (JS.sort_le le l).
Proof.
  induction l as [|x l IH]; cbn; [constructor|].
  now apply insert_sorted.
Qed.

End Sort.

Lemma StronglySorted_impl A (R S : A -> A -> Prop) l :
  (forall a b, R a b -> S a b) -> StronglySorted R l -> StronglySorted S l.
Proof.
  intros HRS. induction 1 as [|x l Hs IH Hx]; constructor; auto.
  eapply Forall_impl; [|exact Hx]. auto.
Qed.


(** ** The evaluators append to the list they are given *)

Ltac push_norm :=
  unfold JS.push; repeat rewrite <- app_assoc; cbn [app];
  rewrite ?app_nil_r; reflexivity.

Lemma detectCPU_app scan bs ce ge :
  detectCPUBottlenecks scan bs ce ge
  = (bs ++ detectCPUBottlenecks scan [] ce ge)%list.
Proof.
  unfold detectCPUBottlenecks. destruct ce, ge; split_ifs; push_norm.
Qed.

Lemma detectGPU_app scan bs ce ge :
  detectGPUBottlenecks scan bs ce ge
  = (bs ++ detectGPUBottlenecks scan [] ce ge)%list.
Proof.
  unfold detectGPUBottlenecks. destruct ce, ge; split_ifs; push_norm.
Qed.

Lemma detectRAM_app scan bs :
  detectRAMBottlenecks scan bs = (bs ++ detectRAMBottlenecks scan [])%list.
Proof. unfold detectRAMBottlenecks. split_ifs; push_norm. Qed.

Lemma checkDriveHealth_app drives bs :
  checkDriveHealth drives bs = (bs ++ checkDriveHealth drives [])%list.
Proof.
  revert bs. induction drives as [|d drives IH]; intros bs; cbn.
  - now rewrite app_nil_r.
  - destruct (unhealthy (health_status d)).
    + rewrite IH, (IH [_]). push_norm.
    + apply IH.
Qed.

Lemma detectStorage_app scan bs :
  detectStorageBottlenecks scan bs
  = (bs ++ detectStorageBottlenecks scan [])%list.
Proof.
  unfold detectStorageBottlenecks.
  destruct (find is_boot_drive (storage scan)); split_ifs;
    rewrite checkDriveHealth_app;
    try (rewrite (checkDriveHealth_app _ (JS.push _ _)));
    push_norm.
Qed.

Lemma detectThermal_app scan bs :
  detectThermalBottlenecks scan bs
  = (bs ++ detectThermalBottlenecks scan [])%list.
Proof.
  unfold detectThermalBottlenecks.
  destruct (cpu_current_temp_c (cpu scan)), (gpu_current_temp_c (gpu scan));
    split_ifs; push_norm.
Qed.

Lemma detectSettings_app scan bs :
  detectSettingsBottlenecks scan bs
  = (bs ++ detectSettingsBottlenecks scan [])%list.
Proof. unfold detectSettingsBottlenecks. split_ifs; push_norm. Qed.

(** The findings before the sort: the six evaluators in sequence. *)
Lemma detectAll_app scan ce ge :
  detectAll scan ce ge
  = (detectCPUBottlenecks scan [] ce ge
     ++ detectGPUBottlenecks scan [] ce ge
     ++ detectRAMBottlenecks scan []
     ++ detectStorageBottlenecks scan []
     ++ detectThermalBottlenecks scan []
     ++ detectSettingsBottlenecks scan [])%list.
Proof.
  unfold detectAll.
  rewrite detectSettings_app, detectThermal_app, detectStorage_app,
    detectRAM_app, detectGPU_app.
  now rewrite <- !app_assoc.
Qed.

(** ** Order of the two lists of a result *)

(** The rank tables of the code realise the two orders of the
    specification. *)
Lemma severityAtMost_order a b :
  severityAtMost a b <-> severityOrder a <= severityOrder b.
Proof. destruct a, b; cbn; split; intros H; try lia; try exact I. Qed.

Lemma tierBefore_order a b : tierBefore a b <-> tierOrder a < tierOrder b.
Proof. destruct a, b; cbn; split; intros H; try lia; try exact I. Qed.

Lemma tierOrder_inj a b : a = b <-> tierOrder a = tierOrder b.
Proof. destruct a, b; cbn; split; intros H; try lia; congruence. Qed.

Lemma recommendationLe_order a b :
  recommendationLe a b
  <-> tierOrder (rec_tier a) < tierOrder (rec_tier b)
      \/ (tierOrder (rec_tier a) = tierOrder (rec_tier b)
          /\ priority a <= priority b).
Proof.
  unfold recommendationLe. now rewrite tierBefore_order, tierOrder_inj.
Qed.

Lemma compareSeverity_sorted l :
  StronglySorted severityLe (JS.sortZ compareSeverity l).
Proof.
  unfold JS.sortZ.
  eapply StronglySorted_impl; [|apply sort_le_sorted].
  - intros a b H. apply Z.leb_le in H. unfold compareSeverity in H.
    unfold severityLe. apply severityAtMost_order. lia.
  - intros x y. rewrite !Z.leb_le. unfold compareSeverity. lia.
  - intros x y z. rewrite !Z.leb_le. unfold compareSeverity. lia.
Qed.

Lemma compareSeverity_stable s l :
  ofSeverity s (JS.sortZ compareSeverity l) = ofSeverity s l.
Proof.
  unfold ofSeverity, JS.sortZ. apply filter_sort_le.
  intros x y Hx Hy. apply Z.leb_le. unfold compareSeverity.
  destruct (severity x), (severity y), s; cbn in *; congruence || lia.
Qed.

Lemma compareRecommendation_le a b :
  compareRecommendation a b <= 0 <-> recommendationLe a b.
Proof.
  rewrite recommendationLe_order. unfold compareRecommendation.
  destruct (Z.eqb_spec (tierOrder (rec_tier a) - tierOrder (rec_tier b)) 0);
    cbn [negb]; lia.
Qed.

Lemma compareRecommendation_sorted l :
  StronglySorted recommendationLe (JS.sortZ compareRecommendation l).
Proof.
  unfold JS.sortZ.
  eapply StronglySorted_impl; [|apply sort_le_sorted].
  - intros a b H. apply Z.leb_le in H. now apply compareRecommendation_le.
  - intros x y. rewrite !Z.leb_le, !compareRecommendation_le.
    rewrite !recommendationLe_order. lia.
  - intros x y z. rewrite !Z.leb_le, !compareRecommendation_le.
    rewrite !recommendationLe_order. lia.
Qed.


(** ** Strings *)

Local Open Scope string_scope.
Local Open Scope Z_scope.

Lemma startsWith_spec s t :
  JS.startsWith s t = true <-> exists b, s = t ++ b.
Proof.
  revert s. induction t as [|c t IH]; intros s; cbn.
  - split; [intros _; now exists s|reflexivity].
  - destruct s as [|c' s]; [split; [discriminate|intros [b Hb]; discriminate]|].
    rewrite andb_true_iff, Ascii.eqb_eq, IH. split.
    + intros [-> [b ->]]. now exists b.
    + intros [b Hb]. injection Hb as -> ->. split; [reflexivity|now exists b].
Qed.

(** [includes] is the substring test. *)
Lemma includes_spec s t :
  JS.includes s t = true <-> exists a b, s = a ++ t ++ b.
Proof.
  induction s as [|c s IH]; cbn [JS.includes].
  - rewrite orb_false_r, startsWith_spec. split.
    + intros [b Hb]. now exists EmptyString, b.
    + intros [a [b Hab]]. destruct a; [now exists b|discriminate].
  - rewrite orb_true_iff, startsWith_spec, IH. split.
    + intros [[b Hb]|[a [b Hab]]].
      * now exists EmptyString, b.
      * exists (String c a), b. cbn. now rewrite Hab.
    + intros [a [b Hab]]. destruct a as [|c' a]; cbn in Hab.
      * left. now exists b.
      * right. exists a, b. congruence.
Qed.

Lemma toLowerCase_app a b :
  JS.toLowerCase (a ++ b) = JS.toLowerCase a ++ JS.toLowerCase b.
Proof. induction a as [|c a IH]; cbn; [reflexivity|now rewrite IH]. Qed.

Lemma includes_toLowerCase s t :
  JS.includes s t = true ->
  JS.includes (JS.toLowerCase s) (JS.toLowerCase t) = true.
Proof.
  rewrite !includes_spec. intros [a [b ->]].
  exists (JS.toLowerCase a), (JS.toLowerCase b).
  now rewrite !toLowerCase_app.
Qed.

(** ** Which findings a result holds *)

Lemma emitted_iff_b i l : emitted i l <-> emittedb i l = true.
Proof.
  unfold emitted, emittedb. rewrite existsb_exists.
  split; intros [b [Hin Hid]]; exists b; split; auto;
    now apply String.eqb_eq.
Qed.

Lemma emittedb_app i l1 l2 :
  emittedb i (l1 ++ l2)%list = emittedb i l1 || emittedb i l2.
Proof. apply existsb_app. Qed.

Lemma emitted_sort i cmp l : emitted i (JS.sortZ cmp l) <-> emitted i l.
Proof.
  unfold emitted, JS.sortZ.
  split; intros [b [Hin Hid]]; exists b; split; auto;
    now apply sort_le_In in Hin || apply sort_le_In.
Qed.

Lemma emitted_analyze i cpuDb gpuDb scan :
  emitted i (bottlenecks (analyzeScan cpuDb gpuDb scan))
  <-> emittedb i
        (detectAll scan (lookup cpuDb (cpu_model_name (cpu scan)))
           (lookup gpuDb (gpu_model_name (gpu scan)))) = true.
Proof.
  cbn [analyzeScan bottlenecks]. now rewrite emitted_sort, emitted_iff_b.
Qed.

Lemma emittedb_detectAll i scan ce ge :
  emittedb i (detectAll scan ce ge)
  = emittedb i (detectCPUBottlenecks scan [] ce ge)
    || emittedb i (detectGPUBottlenecks scan [] ce ge)
    || emittedb i (detectRAMBottlenecks scan [])
    || emittedb i (detectStorageBottlenecks scan [])
    || emittedb i (detectThermalBottlenecks scan [])
    || emittedb i (detectSettingsBottlenecks scan []).
Proof.
  rewrite detectAll_app, !emittedb_app. now rewrite !orb_assoc.
Qed.

(** ** The storage evaluator, part by part *)

Lemma checkDriveHealth_map drives :
  checkDriveHealth drives []
  = map healthFinding (filter (fun d => unhealthy (health_status d)) drives).
Proof.
  induction drives as [|d drives IH]; [reflexivity|].
  cbn [checkDriveHealth filter].
  destruct (unhealthy (health_status d)); [|exact IH].
  rewrite checkDriveHealth_app, IH. reflexivity.
Qed.

(** The storage findings: those of the boot drive, then the missing-NVMe
    one, then one finding per unhealthy drive, over all drives. *)
Lemma detectStorage_parts scan :
  detectStorageBottlenecks scan []
  = (bootFindings (find is_boot_drive (storage scan))
     ++ nvmeFindings (storage scan)
     ++ map healthFinding
          (filter (fun d => unhealthy (health_status d)) (storage scan)))%list.
Proof.
  unfold detectStorageBottlenecks, bootFindings, nvmeFindings.
  rewrite <- checkDriveHealth_map.
  destruct (find is_boot_drive (storage scan)) as [d|];
    destruct (existsb _ (storage scan)); cbn [negb]; split_ifs;
    try (rewrite checkDriveHealth_app); push_norm.
Qed.

(** The identifiers of the drive-health findings all start with
    [storage-health-]; [i] is not one of them when the comparison of the
    two prefixes already fails. *)
Lemma healthFinding_other i drives :
  (forall x, String.eqb ("storage-health-" ++ x) i = false) ->
  emittedb i (map healthFinding drives) = false.
Proof.
  intros Hi. induction drives as [|d drives IH]; [reflexivity|].
  cbn [map emittedb existsb]. unfold healthFinding at 1, mkBottleneck.
  cbn [id]. rewrite Hi. exact IH.
Qed.

(** A finding of the storage evaluator whose identifier is not a
    drive-health one comes from the boot drive or from the NVMe check. *)
Lemma emittedb_detectStorage i scan :
  (forall x, String.eqb ("storage-health-" ++ x) i = false) ->
  emittedb i (detectStorageBottlenecks scan [])
  = emittedb i (bootFindings (find is_boot_drive (storage scan))
                ++ nvmeFindings (storage scan))%list.
Proof.
  intros Hi. rewrite detectStorage_parts, app_assoc, emittedb_app.
  rewrite healthFinding_other by exact Hi. now rewrite orb_false_r.
Qed.

(** ** Every evaluator emits its rules in declaration order *)

Lemma Subseq_In A (l ids : list A) :
  Subseq l ids -> forall x, In x l -> In x ids.
Proof.
  induction 1 as [ids|y l ids Hs IH|y l ids Hs IH]; cbn; intros x;
    intuition.
Qed.

Lemma emittedb_outside i ids l :
  Subseq (map id l) ids -> ~ In i ids -> emittedb i l = false.
Proof.
  intros Hs Hi. destruct (emittedb i l) eqn:E; [|reflexivity].
  apply emitted_iff_b in E. destruct E as [b [Hb <-]].
  exfalso. apply Hi. eapply Subseq_In; [exact Hs|]. now apply in_map.
Qed.

Ltac subseq_cases := split_ifs; cbn; repeat constructor.

Lemma detectCPU_order scan ce ge :
  Subseq (map id (detectCPUBottlenecks scan [] ce ge)) cpuRuleIds.
Proof. unfold detectCPUBottlenecks. destruct ce, ge; subseq_cases. Qed.

Lemma detectGPU_order scan ce ge :
  Subseq (map id (detectGPUBottlenecks scan [] ce ge)) gpuRuleIds.
Proof. unfold detectGPUBottlenecks. destruct ce, ge; subseq_cases. Qed.

Lemma detectRAM_order scan :
  Subseq (map id (detectRAMBottlenecks scan [])) ramRuleIds.
Proof. unfold detectRAMBottlenecks. subseq_cases. Qed.

Lemma detectStorage_order scan :
  Subseq (map id (bootFindings (find is_boot_drive (storage scan))
                  ++ nvmeFindings (storage scan))%list) storageRuleIds.
Proof.
  unfold bootFindings, nvmeFindings.
  destruct (find is_boot_drive (storage scan)); subseq_cases.
Qed.

Lemma detectThermal_order scan :
  Subseq (map id (detectThermalBottlenecks scan [])) thermalRuleIds.
Proof.
  unfold detectThermalBottlenecks.
  destruct (cpu_current_temp_c (cpu scan)), (gpu_current_temp_c (gpu scan));
    subseq_cases.
Qed.

Lemma detectSettings_order scan :
  Subseq (map id (detectSettingsBottlenecks scan [])) settingsRuleIds.
Proof. unfold detectSettingsBottlenecks. subseq_cases. Qed.

(** Rewrite to [false] what the evaluators that do not own an identifier
    contribute to the test for it. *)
Ltac drop_outside :=
  rewrite ?emittedb_detectStorage by reflexivity;
  repeat match goal with
    | |- context [emittedb ?i (detectCPUBottlenecks ?s [] ?ce ?ge)] =>
        rewrite (@emittedb_outside i _ _ (detectCPU_order s ce ge))
          by (cbn; intuition discriminate)
    | |- context [emittedb ?i (detectGPUBottlenecks ?s [] ?ce ?ge)] =>
        rewrite (@emittedb_outside i _ _ (detectGPU_order s ce ge))
          by (cbn; intuition discriminate)
    | |- context [emittedb ?i (detectRAMBottlenecks ?s [])] =>
        rewrite (@emittedb_outside i _ _ (detectRAM_order s))
          by (cbn; intuition discriminate)
    | |- context [emittedb ?i (bootFindings (find _ (storage ?s)) ++ _)%list] =>
        rewrite (@emittedb_outside i _ _ (detectStorage_order s))
          by (cbn; intuition discriminate)
    | |- context [emittedb ?i (detectThermalBottlenecks ?s [])] =>
        rewrite (@emittedb_outside i _ _ (detectThermal_order s))
          by (cbn; intuition discriminate)
    | |- context [emittedb ?i (detectSettingsBottlenecks ?s [])] =>
        rewrite (@emittedb_outside i _ _ (detectSettings_order s))
          by (cbn; intuition discriminate)
    end;
  cbn [orb]; rewrite ?orb_false_r.

(** ** Zero denominators *)

(** A binary64 zero, of either sign, is not above zero. *)
Lemma gtb_zero x : PrimFloat.eqb x 0 = true -> JS.fgtb x 0 = false.
Proof.
  unfold JS.fgtb. rewrite FloatAxioms.eqb_spec, FloatAxioms.ltb_spec.
  change (Prim2SF 0) with (S754_zero false).
  destruct (Prim2SF x) as [s|s| |s m e]; cbn; try discriminate;
    try reflexivity; destruct s; cbn; try discriminate; reflexivity.
Qed.

Lemma vram_full_iff cpuDb gpuDb scan :
  emitted "gpu-vram-full" (bottlenecks (analyzeScan cpuDb gpuDb scan))
  <-> vramPressure scan = true.
Proof.
  rewrite emitted_analyze, emittedb_detectAll. drop_outside.
  generalize (lookup cpuDb (cpu_model_name (cpu scan))) as ce.
  generalize (lookup gpuDb (gpu_model_name (gpu scan))) as ge.
  intros ge ce. unfold detectGPUBottlenecks. fold (vramPressure scan).
  destruct (vramPressure scan), ce, ge; split_ifs; cbn; intuition.
Qed.

Lemma boot_finding_iff cpuDb gpuDb scan i :
  In i ["storage-hdd-boot"; "storage-boot-almost-full";
        "storage-boot-getting-full"] ->
  emitted i (bottlenecks (analyzeScan cpuDb gpuDb scan))
  <-> emittedb i (bootFindings (find is_boot_drive (storage scan))) = true.
Proof.
  intros [<- | [<- | [<- | []]]]; rewrite emitted_analyze, emittedb_detectAll;
    drop_outside; rewrite emittedb_app;
    (replace (emittedb _ (nvmeFindings (storage scan))) with false
      by (unfold nvmeFindings; now destruct (existsb _ (storage scan))));
    now rewrite orb_false_r.
Qed.

(** C7. For every scan with vram_total_gb = 0 the engine returns a result
    without the finding gpu-vram-full and the GPU score carries no VRAM
    deduction; for every scan whose boot drive has capacity_gb = 0 the
    result has neither storage-boot-almost-full nor
    storage-boot-getting-full and the storage score carries no fullness
    deduction. *)
Theorem C7_zero_denominators_skip_the_check cpuDb gpuDb scan :
  let r := analyzeScan cpuDb gpuDb scan in
  let gpuEntry := lookup gpuDb (gpu_model_name (gpu scan)) in
  (PrimFloat.eqb (vram_total_gb (gpu scan)) 0 = true ->
   ~ emitted "gpu-vram-full" (bottlenecks r)
   /\ gpuVramDeduction scan = 0
   /\ b_gpu (breakdown (score r))
      = clamp (tierBase 25 gpuEntry - gpuThermalDeduction scan) 0 25)
  /\ (forall d,
        find is_boot_drive (storage scan) = Some d ->
        PrimFloat.eqb (capacity_gb d) 0 = true ->
        ~ emitted "storage-boot-almost-full" (bottlenecks r)
        /\ ~ emitted "storage-boot-getting-full" (bottlenecks r)
        /\ storageFullnessDeduction d = 0
        /\ b_storage (breakdown (score r))
           = clamp (storageBase (type d) - storageHealthDeduction d) 0 15).
Proof.
  cbn zeta. split.
  - intros Hzero. apply gtb_zero in Hzero.
    assert (Hp : vramPressure scan = false)
      by (unfold vramPressure; now rewrite Hzero).
    assert (Hd : gpuVramDeduction scan = 0)
      by (unfold gpuVramDeduction; now rewrite Hp).
    split; [|split; [exact Hd|]].
    + rewrite vram_full_iff, Hp. discriminate.
    + cbn [score analyzeScan]. rewrite gpu_score_parts.
      unfold gpuScoreFrom. rewrite Hd. f_equal. lia.
  - intros d Hfind Hzero. apply gtb_zero in Hzero.
    assert (Hd : storageFullnessDeduction d = 0)
      by (unfold storageFullnessDeduction; now rewrite Hzero).
    rewrite !boot_finding_iff by (cbn; auto). rewrite Hfind.
    unfold bootFindings. rewrite Hzero, app_nil_r.
    repeat split.
    + destruct (storageType_eqb (type d) HDD); discriminate.
    + destruct (storageType_eqb (type d) HDD); discriminate.
    + exact Hd.
    + cbn [score analyzeScan]. rewrite storage_score_parts, Hfind.
      cbn [storageScoreOf]. rewrite Hd. f_equal. lia.
Qed.

Lemma C7_zero_denominators_skip_the_check_witness :
  let zeroVram :=
    Scenarios.setGpu
      {| gpu_model_name := "NVIDIA GeForce RTX 4070 Ti";
         vram_total_gb := 0; vram_used_gb := 0;
         gpu_clock_mhz := 2310; memory_clock_mhz := 10504;
         gpu_current_temp_c := None; fan_speed_pct := None;
         driver_version := "566.14"; gpu_utilization_pct := 88;
         pcie_generation := None; pcie_link_width := None |}
      SampleData.sampleScan in
  let emptyDrive :=
    {| model := "Generic Flash Disk"; type := Unknown;
       capacity_gb := 0; used_gb := 0; free_gb := 0;
       interface := "USB"; health_status := None;
       is_boot_drive := true |} in
  let zeroCapacity := Scenarios.setStorage [emptyDrive] SampleData.sampleScan in
  ~ emitted "gpu-vram-full" (bottlenecks (analyze zeroVram))
  /\ b_gpu (breakdown (score (analyze zeroVram))) = 18
  /\ ~ emitted "storage-boot-almost-full" (bottlenecks (analyze zeroCapacity))
  /\ ~ emitted "storage-boot-getting-full" (bottlenecks (analyze zeroCapacity))
  /\ b_storage (breakdown (score (analyze zeroCapacity))) = 8.
Proof.
  intros zeroVram emptyDrive zeroCapacity.
  destruct (C7_zero_denominators_skip_the_check cpuDatabase gpuDatabase
              zeroVram) as [Hv _].
  destruct (C7_zero_denominators_skip_the_check cpuDatabase gpuDatabase
              zeroCapacity) as [_ Hc].
  destruct (Hv ltac:(reflexivity)) as [H1 [_ H2]].
  destruct (Hc emptyDrive ltac:(reflexivity) ltac:(reflexivity))
    as [H3 [H4 [_ H5]]].
  split; [exact H1|].
  split; [etransitivity; [exact H2|]; vm_compute; reflexivity|].
  split; [exact H3|].
  split; [exact H4|].
  etransitivity; [exact H5|]. vm_compute. reflexivity.
Defined.

(** ** Where a finding of the result comes from *)

Lemma finding_source cpuDb gpuDb scan b :
  let ce := lookup cpuDb (cpu_model_name (cpu scan)) in
  let ge := lookup gpuDb (gpu_model_name (gpu scan)) in
  In b (bottlenecks (analyzeScan cpuDb gpuDb scan))
  <-> In b (detectCPUBottlenecks scan [] ce ge)
      \/ In b (detectGPUBottlenecks scan [] ce ge)
      \/ In b (detectRAMBottlenecks scan [])
      \/ In b (bootFindings (find is_boot_drive (storage scan))
               ++ nvmeFindings (storage scan))%list
      \/ In b (map healthFinding
                 (filter (fun d => unhealthy (health_status d))
                    (storage scan)))
      \/ In b (detectThermalBottlenecks scan [])
      \/ In b (detectSettingsBottlenecks scan []).
Proof.
  cbn zeta. cbn [analyzeScan bottlenecks]. unfold JS.sortZ.
  rewrite sort_le_In, detectAll_app, detectStorage_parts.
  rewrite !in_app_iff. tauto.
Qed.

Lemma healthFinding_id b drives :
  In b (map healthFinding drives) ->
  exists x, id b = "storage-health-" ++ x.
Proof.
  rewrite in_map_iff. intros [d [<- _]]. cbn. eauto.
Qed.

(** A finding of the result whose identifier is one of the settings rules
    was pushed by the settings evaluator. *)
Lemma settings_finding_source cpuDb gpuDb scan b :
  In (id b) settingsRuleIds ->
  In b (bottlenecks (analyzeScan cpuDb gpuDb scan)) ->
  In b (detectSettingsBottlenecks scan []).
Proof.
  intros Hid Hin. apply finding_source in Hin.
  destruct Hin as [H|[H|[H|[H|[H|[H|H]]]]]]; [.. | exact H]; exfalso.
  - apply (in_map id), (Subseq_In (detectCPU_order _ _ _)) in H.
    cbn in Hid, H. intuition congruence.
  - apply (in_map id), (Subseq_In (detectGPU_order _ _ _)) in H.
    cbn in Hid, H. intuition congruence.
  - apply (in_map id), (Subseq_In (detectRAM_order _)) in H.
    cbn in Hid, H. intuition congruence.
  - apply (in_map id), (Subseq_In (detectStorage_order _)) in H.
    cbn in Hid, H. intuition congruence.
  - apply healthFinding_id in H. destruct H as [x Hx].
    cbn in Hid. rewrite Hx in Hid. cbn in Hid. intuition discriminate.
  - apply (in_map id), (Subseq_In (detectThermal_order _)) in H.
    cbn in Hid, H. intuition congruence.
Qed.

(** ** XMP *)

Lemma xmp_off_iff cpuDb gpuDb scan :
  emitted "settings-xmp-off" (bottlenecks (analyzeScan cpuDb gpuDb scan))
  <-> xmp_enabled (bios_settings scan) = Some false.
Proof.
  rewrite emitted_analyze, emittedb_detectAll. drop_outside.
  unfold detectSettingsBottlenecks.
  destruct (xmp_enabled (bios_settings scan)) as [[|]|]; cbn [strictEq Bool.eqb];
    split_ifs; cbn; intuition discriminate.
Qed.

Lemma otherSettingsPoints_setXmp x scan :
  otherSettingsPoints (Scenarios.setXmp x scan) = otherSettingsPoints scan.
Proof. reflexivity. Qed.

(** C8. For every scan, the finding settings-xmp-off is emitted exactly
    when xmp_enabled is explicitly false (never when it is null), it is a
    critical finding, and the settings score receives +5 when xmp_enabled is
    explicitly true, +2 when it is null and +0 when it is explicitly false:
    the score is those points added to what the other settings earn, and
    changing xmp_enabled alone changes the score by exactly that much. *)
Theorem C8_xmp_finding_and_points cpuDb gpuDb scan :
  let r := analyzeScan cpuDb gpuDb scan in
  let settingsOf := fun s =>
    b_settings (breakdown (score (analyzeScan cpuDb gpuDb s))) in
  (emitted "settings-xmp-off" (bottlenecks r)
   <-> xmp_enabled (bios_settings scan) = Some false)
  /\ (forall b, In b (bottlenecks r) -> id b = "settings-xmp-off" ->
                severity b = critical /\ category b = Category.settings)
  /\ settingsOf scan
     = otherSettingsPoints scan + xmpPoints (xmp_enabled (bios_settings scan))
  /\ (forall x,
        settingsOf (Scenarios.setXmp x scan)
        = settingsOf (Scenarios.setXmp (Some false) scan) + xmpPoints x)
  /\ xmpPoints (Some true) = 5 /\ xmpPoints None = 2
  /\ xmpPoints (Some false) = 0.
Proof.
  cbn zeta. split; [apply xmp_off_iff|].
  split.
  - intros b Hin Hid.
    apply settings_finding_source in Hin;
      [|rewrite Hid; cbn; tauto].
    unfold detectSettingsBottlenecks in Hin.
    destruct (strictEq (xmp_enabled (bios_settings scan)) false);
      revert Hin; split_ifs; cbn; intros Hin;
      repeat match goal with
        | H : _ \/ _ |- _ => destruct H
        | H : False |- _ => destruct H
        end;
      subst b; cbn in Hid |- *; (discriminate || auto).
  - cbn [score analyzeScan]. rewrite !settings_score_parts.
    split; [reflexivity|].
    split; [|now cbn].
    intros x. rewrite !settings_score_parts, !otherSettingsPoints_setXmp.
    cbn. lia.
Qed.

(** ** Single-channel DDR4 at the JEDEC speed *)

Lemma ltb_eq_l x y c : (x == y)%Q -> JS.ltb x c = JS.ltb y c.
Proof. intros H. unfold JS.ltb. now rewrite H. Qed.

Lemma gtb_eq_l x y c : (x == y)%Q -> JS.gtb x c = JS.gtb y c.
Proof. intros H. unfold JS.gtb, JS.ltb. now rewrite H. Qed.

(** C4, as stated, fails: on the scenario of section 8 the capacity
    deduction is not zero.  16 GB is below 32 GB, the scorer deducts 1 for
    it, and the RAM score is 1 = 20 - 8 - 10 - 1, not 20 - 10 - 8. *)
Lemma C4_capacity_deduction_is_not_zero :
  let scan := RamScenario.singleChannelScan in
  let r := analyze scan in
  ramCapacityDeduction scan = 1
  /\ b_ram (breakdown (score r)) = 1
  /\ ~ (In RamScenario.singleChannelFinding (bottlenecks r)
        /\ In RamScenario.slowSpeedFinding (bottlenecks r)
        /\ b_ram (breakdown (score r)) <= 2
        /\ ramCapacityDeduction scan = 0
        /\ ramUsageDeduction scan = 0).
Proof.
  cbn zeta. split; [reflexivity|]. split; [reflexivity|].
  intros [_ [_ [_ [H _]]]]. vm_compute in H. discriminate.
Qed.

(** C4, amended. For every scan whose RAM section has channel_mode single,
    a form factor containing DDR4, speed 2133, total 16 GB and usage 40%,
    the result contains the critical findings ram-single-channel and
    ram-slow-speed; no usage deduction applies, the capacity deduction is 1
    (16 GB is below 32 GB); the RAM score is at most 1, hence at most 2, and
    it is exactly 1 unless the form factor also names DDR5. *)
Theorem C4_single_channel_ddr4 cpuDb gpuDb scan :
  channel_mode (ram scan) = single ->
  JS.includes (form_factor (ram scan)) "DDR4" = true ->
  (speed_mhz (ram scan) == 2133)%Q ->
  (total_gb (ram scan) == 16)%Q ->
  (usage_percent (ram scan) == 40)%Q ->
  let r := analyzeScan cpuDb gpuDb scan in
  In RamScenario.singleChannelFinding (bottlenecks r)
  /\ In RamScenario.slowSpeedFinding (bottlenecks r)
  /\ ramUsageDeduction scan = 0
  /\ ramCapacityDeduction scan = 1
  /\ b_ram (breakdown (score r)) <= 1
  /\ (isDDR5 scan = false -> b_ram (breakdown (score r)) = 1).
Proof.
  intros Hch Hff Hspeed Htotal Husage r. subst r.
  apply includes_toLowerCase in Hff. cbn [JS.toLowerCase] in Hff.
  change (JS.includes (JS.toLowerCase (form_factor (ram scan))) "ddr4" = true)
    in Hff.
  assert (Hfind :
    In RamScenario.singleChannelFinding (detectRAMBottlenecks scan [])
    /\ In RamScenario.slowSpeedFinding (detectRAMBottlenecks scan [])).
  { unfold detectRAMBottlenecks.
    rewrite Hch, Hff, (ltb_eq_l _ Htotal), (gtb_eq_l _ Husage),
      !(ltb_eq_l _ Hspeed).
    destruct (JS.includes _ "ddr5"); cbn; tauto. }
  assert (Hu : ramUsageDeduction scan = 0)
    by (unfold ramUsageDeduction; now rewrite (gtb_eq_l _ Husage)).
  assert (Hc : ramCapacityDeduction scan = 1)
    by (unfold ramCapacityDeduction; now rewrite !(ltb_eq_l _ Htotal)).
  assert (H4 : ramSpeedDeductionDDR4 scan = 8)
    by (unfold ramSpeedDeductionDDR4, isDDR4;
        now rewrite Hff, !(ltb_eq_l _ Hspeed)).
  assert (Hs : ramChannelDeduction scan = 10)
    by (unfold ramChannelDeduction; now rewrite Hch).
  assert (H5 : ramSpeedDeductionDDR5 scan
               = if isDDR5 scan then 8 else 0)
    by (unfold ramSpeedDeductionDDR5;
        rewrite !(ltb_eq_l _ Hspeed); now destruct (isDDR5 scan)).
  split; [apply finding_source; tauto|].
  split; [apply finding_source; tauto|].
  split; [exact Hu|]. split; [exact Hc|].
  cbn [score analyzeScan]. rewrite ram_score_parts, Hu, Hc, H4, Hs, H5.
  split; [destruct (isDDR5 scan); cbn; lia|].
  intros ->. reflexivity.
Qed.

Lemma C4_single_channel_ddr4_witness :
  let scan := RamScenario.singleChannelScan in
  let r := analyze scan in
  In RamScenario.singleChannelFinding (bottlenecks r)
  /\ In RamScenario.slowSpeedFinding (bottlenecks r)
  /\ b_ram (breakdown (score r)) <= 1.
Proof.
  destruct (@C4_single_channel_ddr4 cpuDatabase gpuDatabase
              RamScenario.singleChannelScan
              eq_refl eq_refl ltac:(reflexivity) ltac:(reflexivity)
              ltac:(reflexivity))
    as [H1 [H2 [_ [_ [H3 _]]]]].
  cbn zeta. split; [exact H1|]. split; [exact H2|exact H3].
Defined.

(** ** The catalog lookup *)








(** Decide a statement about every code unit by running through the 256
    of them. *)
Ltac each_code_unit c :=
  destruct c as [[] [] [] [] [] [] [] []]; vm_compute; reflexivity.

(** The built-ins lower-case and trim as the specification describes it. *)
Lemma isWhite_is_space c : isWhite c = JS.is_space c.
Proof. each_code_unit c. Qed.

Lemma lowerCaseOf_lower_char c : lowerCaseOf c = JS.lower_char c.
Proof. each_code_unit c. Qed.

Lemma lowerCased_toLowerCase s : lowerCased s = JS.toLowerCase s.
Proof.
  induction s as [|c s IH]; [reflexivity|].
  cbn [lowerCased JS.toLowerCase]. now rewrite IH, lowerCaseOf_lower_char.
Qed.





















(** ** Hardware that the catalog does not know *)






(** ** Upgrade candidates *)

Lemma slice_0_firstn A (l : list A) n :
  exists k, JS.slice l 0 n = firstn k l
            /\ (0 <= n -> k = Z.to_nat n).
Proof.
  unfold JS.slice. cbn [Z.ltb Z.compare].
  replace (Z.min 0 (Z.of_nat (List.length l))) with 0 by lia.
  cbn [Z.to_nat skipn]. rewrite Z.sub_0_r.
  destruct (Z.ltb_spec n 0) as [Hneg|Hpos].
  - eexists. split; [reflexivity|lia].
  - exists (Z.to_nat n). split; [|reflexivity].
    destruct (Z.min_spec n (Z.of_nat (List.length l))) as [[_ ->]|[Hle ->]];
      [reflexivity|].
    rewrite Nat2Z.id, firstn_all.
    symmetry. apply firstn_all2. lia.
Qed.




(** On a price that is zero or at least 1 the guard of the code and the
    one of the specification agree. *)
Lemma valueRatio_spec e :
  (current_price_approx e == 0 \/ 1 <= current_price_approx e)%Q ->
  (valueRatio e == specValueRatio e)%Q.
Proof.
  unfold valueRatio, specValueRatio, JS.or_default.
  intros [H0|H1].
  - rewrite (proj2 (Qeq_bool_iff _ _) H0), H0.
    rewrite (Q.max_r 0 1) by discriminate. reflexivity.
  - destruct (Qeq_bool (current_price_approx e) 0) eqn:E.
    + apply Qeq_bool_iff in E. lra.
    + rewrite Q.max_l by exact H1. reflexivity.
Qed.




(** ** The price span of an upgrade recommendation *)

Lemma fold_min_le l x : (fold_left Qmin l x <= x)%Q.
Proof.
  revert x. induction l as [|y l IH]; intros x; cbn; [apply Qle_refl|].
  eapply Qle_trans; [apply IH|apply Q.le_min_l].
Qed.

Lemma fold_max_ge l x : (x <= fold_left Qmax l x)%Q.
Proof.
  revert x. induction l as [|y l IH]; intros x; cbn; [apply Qle_refl|].
  eapply Qle_trans; [apply Q.le_max_l|apply IH].
Qed.

(** Over a non-empty list of candidates the span is finite and in order. *)
Lemma priceSpan_in_order upgrades i p :
  (0 <? Z.of_nat (List.length upgrades)) = true ->
  spanInOrder (mkRec i upgrade (priceSpan upgrades) p).
Proof.
  destruct upgrades as [|u us]; [discriminate|]. intros _.
  unfold spanInOrder, priceSpan. cbn.
  do 2 eexists. split; [reflexivity|]. split; [reflexivity|].
  eapply Qle_trans; [apply fold_min_le|apply fold_max_ge].
Qed.

Lemma allInOrder_push mk st :
  spanInOrder (mk (next_priority st)) -> allInOrder st ->
  allInOrder (pushRec mk st).
Proof.
  unfold allInOrder, pushRec, JS.push. cbn [recs]. intros Hr Hst.
  apply Forall_app. split; [exact Hst|]. now constructor.
Qed.

Lemma allInOrder_if (c : bool) mk st :
  (c = true -> spanInOrder (mk (next_priority st))) -> allInOrder st ->
  allInOrder (if c then pushRec mk st else st).
Proof.
  intros Hr Hst. destruct c; [|exact Hst].
  apply allInOrder_push; auto.
Qed.

(** One step of the builder: a guarded [push] of a fixed recommendation,
    or of an upgrade recommendation over a non-empty list of candidates. *)
Ltac builder_step :=
  lazymatch goal with
  | |- allInOrder {| recs := []; next_priority := _ |} => constructor
  | |- allInOrder (if _ then pushRec _ _ else _) =>
      apply allInOrder_if;
      [intros _; cbn; repeat split; discriminate|assumption]
  | |- allInOrder (match ?entry with Some _ => _ | None => _ end) =>
      destruct entry; [|assumption];
      match goal with
      | |- allInOrder (if ?c then _ else _) => destruct c; [|assumption]
      end;
      cbv zeta;
      apply allInOrder_if;
      [intros Hlen; apply priceSpan_in_order; exact Hlen|assumption]
  end.

(** Go through the [let]s of the builder one at a time, keeping only the
    invariant of each intermediate state. *)
Ltac walk_builder :=
  repeat lazymatch goal with
    | |- Forall spanInOrder (let x := ?e in @?B x) =>
        let y := fresh "st" in
        pose (y := e); change (Forall spanInOrder (B y)); cbv beta;
        try (assert (allInOrder y) by (unfold y; builder_step);
             clearbody y)
    end.

Lemma buildRecommendations_in_order cpuDb gpuDb scan bs ce ge :
  Forall spanInOrder (buildRecommendations cpuDb gpuDb scan bs [] ce ge).
Proof.
  cbv beta delta [buildRecommendations]. walk_builder. assumption.
Qed.

(** C9. For every scan and every pair of catalogs, every recommendation of
    the result either shows a price span whose minimum is at most its
    maximum, both of them finite, or shows a fixed text and is then neither
    of tier upgrade nor the CPU or GPU upgrade recommendation: every
    generated upgrade recommendation has a span that is not inverted. *)
Theorem C9_price_span_never_inverts cpuDb gpuDb scan r :
  In r (recommendations (analyzeScan cpuDb gpuDb scan)) ->
  match rec_estimated_cost r with
  | CostRange lo hi =>
      exists a b, lo = JS.Fin a /\ hi = JS.Fin b /\ (a <= b)%Q
  | CostLit _ =>
      rec_tier r <> upgrade
      /\ rec_id r <> "rec-cpu-upgrade" /\ rec_id r <> "rec-gpu-upgrade"
  end.
Proof.
  cbn [analyzeScan recommendations]. unfold JS.sortZ.
  rewrite sort_le_In. intros Hin.
  pose proof (buildRecommendations_in_order cpuDb gpuDb scan
                (detectAll scan (lookup cpuDb (cpu_model_name (cpu scan)))
                   (lookup gpuDb (gpu_model_name (gpu scan))))
                (lookup cpuDb (cpu_model_name (cpu scan)))
                (lookup gpuDb (gpu_model_name (gpu scan)))) as Hall.
  rewrite Forall_forall in Hall. exact (Hall r Hin).
Qed.

Lemma C9_price_span_never_inverts_witness :
  let r :=
    mkRec "rec-cpu-upgrade" upgrade
      (CostRange (JS.Fin 329) (JS.Fin 339)) 5 in
  In r (recommendations (analyze CpuBoundScenario.cpuBoundScan))
  /\ exists a b,
       JS.Fin 329 = JS.Fin a /\ JS.Fin 339 = JS.Fin b /\ (a <= b)%Q.
Proof.
  intros r.
  assert (Hin : In r (recommendations
                        (analyzeScan cpuDatabase gpuDatabase
                           CpuBoundScenario.cpuBoundScan)))
    by (vm_compute; tauto).
  split; [exact Hin|].
  exact (C9_price_span_never_inverts cpuDatabase gpuDatabase
           CpuBoundScenario.cpuBoundScan r Hin).
Defined.

(** ** Several drives with the boot flag *)

Lemma find_first A (p : A -> bool) before x after :
  Forall (fun y => p y = false) before -> p x = true ->
  find p (before ++ x :: after)%list = Some x.
Proof.
  intros Hb Hx. induction Hb as [|y before Hy _ IH]; cbn.
  - now rewrite Hx.
  - now rewrite Hy.
Qed.

Lemma hdd_boot_emittedb d :
  emittedb "storage-hdd-boot" (bootFindings (Some d))
  = storageType_eqb (type d) HDD.
Proof.
  unfold bootFindings.
  destruct (storageType_eqb (type d) HDD); split_ifs; reflexivity.
Qed.

Lemma storageType_eqb_eq a b : storageType_eqb a b = true <-> a = b.
Proof. destruct a, b; cbn; split; congruence. Qed.

(** C10. For every scan whose storage list is [before ++ d :: after], where
    no drive of [before] carries the boot flag and [d] does, whatever
    [after] holds (more boot-flagged drives included): the boot drive the
    engine works with is [d]; the rules that depend on the boot drive
    (HDD boot, fullness) and the storage score with its penalties are those
    of [d] alone, so replacing [after] changes none of them; and the
    drive-health findings still cover every unhealthy drive of the list. *)
Theorem C10_first_boot_drive_decides cpuDb gpuDb scan before d after :
  storage scan = (before ++ d :: after)%list ->
  Forall (fun x => is_boot_drive x = false) before ->
  is_boot_drive d = true ->
  let r := analyzeScan cpuDb gpuDb scan in
  find is_boot_drive (storage scan) = Some d
  /\ b_storage (breakdown (score r)) = storageScoreOf (Some d)
  /\ (forall i,
        In i ["storage-hdd-boot"; "storage-boot-almost-full";
              "storage-boot-getting-full"] ->
        emitted i (bottlenecks r)
        <-> emittedb i (bootFindings (Some d)) = true)
  /\ (emitted "storage-hdd-boot" (bottlenecks r) <-> type d = HDD)
  /\ (forall after',
        let r' :=
          analyzeScan cpuDb gpuDb
            (Scenarios.setStorage (before ++ d :: after')%list scan) in
        b_storage (breakdown (score r')) = b_storage (breakdown (score r))
        /\ forall i,
             In i ["storage-hdd-boot"; "storage-boot-almost-full";
                   "storage-boot-getting-full"] ->
             emitted i (bottlenecks r') <-> emitted i (bottlenecks r))
  /\ (forall drive,
        In drive (storage scan) ->
        unhealthy (health_status drive) = true ->
        In (healthFinding drive) (bottlenecks r)).
Proof.
  intros Hst Hbefore Hd r. subst r.
  assert (Hfind : find is_boot_drive (storage scan) = Some d)
    by (rewrite Hst; now apply find_first).
  assert (Hscore : b_storage (breakdown (score (analyzeScan cpuDb gpuDb scan)))
                   = storageScoreOf (Some d))
    by (cbn [score analyzeScan]; now rewrite storage_score_parts, Hfind).
  assert (Hboot : forall i,
             In i ["storage-hdd-boot"; "storage-boot-almost-full";
                   "storage-boot-getting-full"] ->
             emitted i (bottlenecks (analyzeScan cpuDb gpuDb scan))
             <-> emittedb i (bootFindings (Some d)) = true)
    by (intros i Hi; now rewrite boot_finding_iff, Hfind).
  split; [exact Hfind|]. split; [exact Hscore|]. split; [exact Hboot|].
  split; [|split].
  - rewrite Hboot by (cbn; auto).
    now rewrite hdd_boot_emittedb, storageType_eqb_eq.
  - intros after'. cbn zeta.
    assert (Hfind' : find is_boot_drive
                       (storage (Scenarios.setStorage
                                   (before ++ d :: after')%list scan))
                     = Some d)
      by (cbn [Scenarios.setStorage storage]; now apply find_first).
    split.
    + rewrite Hscore. cbn [score analyzeScan].
      now rewrite storage_score_parts, Hfind'.
    + intros i Hi. rewrite Hboot by exact Hi.
      now rewrite boot_finding_iff, Hfind'.
  - intros drive Hin Hbad. apply finding_source.
    do 4 right. left. apply in_map. apply filter_In. now split.
Qed.

Lemma C10_first_boot_drive_decides_witness :
  let scan := TwoBootDrivesScenario.twoBootDrivesScan in
  let r := analyze scan in
  find is_boot_drive (storage scan) = Some TwoBootDrivesScenario.firstBoot
  /\ b_storage (breakdown (score r)) = 15
  /\ ~ emitted "storage-hdd-boot" (bottlenecks r)
  /\ In (healthFinding TwoBootDrivesScenario.secondBoot) (bottlenecks r).
Proof.
  intros scan r.
  destruct (@C10_first_boot_drive_decides cpuDatabase gpuDatabase scan
              [] TwoBootDrivesScenario.firstBoot
              [TwoBootDrivesScenario.secondBoot]
              eq_refl (Forall_nil _) eq_refl)
    as [Hfind [Hscore [_ [Hhdd [_ Hhealth]]]]].
  split; [exact Hfind|].
  split; [etransitivity; [exact Hscore|]; vm_compute; reflexivity|].
  split.
  - intros H. apply Hhdd in H. discriminate.
  - apply Hhealth; [cbn; tauto|reflexivity].
Defined.

(** ** Order of the findings and of the recommendations *)

(** C3. For every scan, the findings of the result are sorted by severity
    (critical, warning, info, good) and, within one severity, they are in
    detection order: the findings of that severity are those of the CPU,
    GPU, RAM, storage, thermal and settings evaluators, in that sequence and
    in the order each evaluator emits them, which is the order in which its
    rules are declared (for storage: the four fixed rules, then one finding
    per unhealthy drive in the order of the drives).  The recommendations
    are sorted by tier (free, cheap, upgrade) and, within a tier, by
    ascending priority. *)
Theorem C3_findings_and_recommendations_sorted cpuDb gpuDb scan :
  let r := analyzeScan cpuDb gpuDb scan in
  let cpuEntry := lookup cpuDb (cpu_model_name (cpu scan)) in
  let gpuEntry := lookup gpuDb (gpu_model_name (gpu scan)) in
  let cpuFound := detectCPUBottlenecks scan [] cpuEntry gpuEntry in
  let gpuFound := detectGPUBottlenecks scan [] cpuEntry gpuEntry in
  let ramFound := detectRAMBottlenecks scan [] in
  let storageFound := detectStorageBottlenecks scan [] in
  let thermalFound := detectThermalBottlenecks scan [] in
  let settingsFound := detectSettingsBottlenecks scan [] in
  let detected :=
    (cpuFound ++ gpuFound ++ ramFound ++ storageFound ++ thermalFound
     ++ settingsFound)%list in
  StronglySorted severityLe (bottlenecks r)
  /\ (forall s, ofSeverity s (bottlenecks r) = ofSeverity s detected)
  /\ Permutation (bottlenecks r) detected
  /\ Subseq (map id cpuFound) cpuRuleIds
  /\ Subseq (map id gpuFound) gpuRuleIds
  /\ Subseq (map id ramFound) ramRuleIds
  /\ (exists fixed,
        storageFound
        = (fixed
           ++ map healthFinding
                (filter (fun d => unhealthy (health_status d))
                   (storage scan)))%list
        /\ Subseq (map id fixed) storageRuleIds)
  /\ Subseq (map id thermalFound) thermalRuleIds
  /\ Subseq (map id settingsFound) settingsRuleIds
  /\ StronglySorted recommendationLe (recommendations r).
Proof.
  cbn zeta. cbn [analyzeScan bottlenecks recommendations].
  rewrite <- detectAll_app.
  split; [apply compareSeverity_sorted|].
  split; [intros s; apply compareSeverity_stable|].
  split; [apply sort_le_perm|].
  split; [apply detectCPU_order|].
  split; [apply detectGPU_order|].
  split; [apply detectRAM_order|].
  split.
  - eexists. split; [|apply detectStorage_order].
    now rewrite detectStorage_parts, app_assoc.
  - split; [apply detectThermal_order|].
    split; [apply detectSettings_order|apply compareRecommendation_sorted].
Qed.

(** * Further properties of the engine *)

Import More.

(** ** Comparisons *)

Lemma ltb_lt a b : JS.ltb a b = true <-> (a < b)%Q.
Proof.
  unfold JS.ltb. rewrite negb_true_iff. split.
  - intros H. apply Qnot_le_lt. intros Hle.
    apply Qle_bool_iff in Hle. congruence.
  - intros H. destruct (Qle_bool b a) eqn:E; [|reflexivity].
    apply Qle_bool_iff in E. now apply Qle_not_lt in E.
Qed.

Lemma gtb_lt a b : JS.gtb a b = true <-> (b < a)%Q.
Proof. unfold JS.gtb. apply ltb_lt. Qed.

Lemma ltb_ge a b : JS.ltb a b = false <-> (b <= a)%Q.
Proof.
  unfold JS.ltb. rewrite negb_false_iff. apply Qle_bool_iff.
Qed.

Lemma gtb_le a b : JS.gtb a b = false <-> (a <= b)%Q.
Proof. unfold JS.gtb. apply ltb_ge. Qed.

(** ** The average of the per-core usage *)


(** ** What the CPU and GPU evaluators report *)

(** Reduce a statement on the findings of a result to the evaluator that
    owns the identifier, for entries whatever the lookups returned. *)
Ltac to_owner cpuDb gpuDb scan :=
  rewrite emitted_analyze, emittedb_detectAll; drop_outside;
  generalize (lookup cpuDb (cpu_model_name (cpu scan)));
  generalize (lookup gpuDb (gpu_model_name (gpu scan)));
  intros ge ce.

Lemma fgtb_below a b : JS.fgtb a b = true <-> below b a.
Proof. reflexivity. Qed.

Lemma fltb_below a b : JS.fltb a b = true <-> below a b.
Proof. reflexivity. Qed.

Lemma cpu_high_usage_iff cpuDb gpuDb scan :
  emitted "cpu-high-usage" (bottlenecks (analyzeScan cpuDb gpuDb scan))
  <-> below 90 (average (usage_per_core (cpu scan)))
      /\ (gpu_utilization_pct (gpu scan) < 60)%Q.
Proof.
  to_owner cpuDb gpuDb scan.
  replace (emittedb "cpu-high-usage" (detectCPUBottlenecks scan [] ce ge))
    with (JS.fgtb (average (usage_per_core (cpu scan))) 90
          && JS.ltb (gpu_utilization_pct (gpu scan)) 60)
    by (unfold detectCPUBottlenecks; destruct ce, ge; split_ifs;
        reflexivity).
  now rewrite andb_true_iff, fgtb_below, ltb_lt.
Qed.

Lemma cpu_moderate_usage_iff cpuDb gpuDb scan :
  emitted "cpu-moderate-usage" (bottlenecks (analyzeScan cpuDb gpuDb scan))
  <-> below 80 (average (usage_per_core (cpu scan)))
      /\ (gpu_utilization_pct (gpu scan) < 70)%Q
      /\ ~ (below 90 (average (usage_per_core (cpu scan)))
            /\ (gpu_utilization_pct (gpu scan) < 60)%Q).
Proof.
  to_owner cpuDb gpuDb scan.
  replace (emittedb "cpu-moderate-usage"
             (detectCPUBottlenecks scan [] ce ge))
    with (JS.fgtb (average (usage_per_core (cpu scan))) 80
          && JS.ltb (gpu_utilization_pct (gpu scan)) 70
          && negb (JS.fgtb (average (usage_per_core (cpu scan))) 90
                   && JS.ltb (gpu_utilization_pct (gpu scan)) 60))
    by (unfold detectCPUBottlenecks;
        destruct (JS.fgtb (average (usage_per_core (cpu scan))) 90),
          (JS.ltb (gpu_utilization_pct (gpu scan)) 60),
          (JS.fgtb (average (usage_per_core (cpu scan))) 80),
          (JS.ltb (gpu_utilization_pct (gpu scan)) 70);
        destruct ce, ge; split_ifs; reflexivity).
  rewrite !andb_true_iff, negb_true_iff, <- not_true_iff_false,
    andb_true_iff, !fgtb_below, !ltb_lt.
  tauto.
Qed.

Lemma gpu_limited_iff cpuDb gpuDb scan :
  emitted "gpu-limited" (bottlenecks (analyzeScan cpuDb gpuDb scan))
  <-> (95 < gpu_utilization_pct (gpu scan))%Q
      /\ below (average (usage_per_core (cpu scan))) 60.
Proof.
  to_owner cpuDb gpuDb scan.
  replace (emittedb "gpu-limited" (detectGPUBottlenecks scan [] ce ge))
    with (JS.gtb (gpu_utilization_pct (gpu scan)) 95
          && JS.fltb (average (usage_per_core (cpu scan))) 60)
    by (unfold detectGPUBottlenecks; destruct ce, ge; split_ifs;
        reflexivity).
  now rewrite andb_true_iff, gtb_lt, fltb_below.
Qed.

(** X2. The load findings of a result, with the average core usage as the
    program computes it in binary64 arithmetic and compares it: cpu-high-usage
    is reported exactly when the average is above 90 and the GPU utilization
    below 60; cpu-moderate-usage exactly when the average is above 80, the
    GPU below 70 and the first condition fails; gpu-limited exactly when the
    GPU is above 95 and the average below 60.  The two CPU findings never
    come together, and gpu-limited never comes with either of them. *)
Theorem X2_load_findings cpuDb gpuDb scan :
  let found := bottlenecks (analyzeScan cpuDb gpuDb scan) in
  let avg := average (usage_per_core (cpu scan)) in
  let util := gpu_utilization_pct (gpu scan) in
  (emitted "cpu-high-usage" found <-> below 90 avg /\ (util < 60)%Q)
  /\ (emitted "cpu-moderate-usage" found
      <-> below 80 avg /\ (util < 70)%Q
          /\ ~ (below 90 avg /\ (util < 60)%Q))
  /\ (emitted "gpu-limited" found <-> (95 < util)%Q /\ below avg 60)
  /\ ~ (emitted "cpu-high-usage" found
        /\ emitted "cpu-moderate-usage" found)
  /\ (emitted "gpu-limited" found ->
      ~ emitted "cpu-high-usage" found
      /\ ~ emitted "cpu-moderate-usage" found).
Proof.
  cbn zeta.
  rewrite cpu_high_usage_iff, cpu_moderate_usage_iff, gpu_limited_iff.
  split; [reflexivity|]. split; [reflexivity|]. split; [reflexivity|].
  split; [tauto|].
  intros [H _]. split; intros H'; decompose [and] H'; lra.
Qed.

(** ** Tiers *)

Lemma tier_mismatch_cpu_iff cpuDb gpuDb scan :
  emitted "cpu-gpu-tier-mismatch"
    (bottlenecks (analyzeScan cpuDb gpuDb scan))
  <-> exists c g,
        lookup cpuDb (cpu_model_name (cpu scan)) = Some c
        /\ lookup gpuDb (gpu_model_name (gpu scan)) = Some g
        /\ tierIndex (tierOf c) + 2 <= tierIndex (tierOf g).
Proof.
  to_owner cpuDb gpuDb scan. unfold detectCPUBottlenecks.
  destruct ce as [c|], ge as [g|];
    try (split; [split_ifs; cbn; discriminate
                |intros [? [? [? [? _]]]]; discriminate]).
  destruct (Z.leb_spec 2 (tierIndex (tierOf g) - tierIndex (tierOf c))).
  - split; [intros _; exists c, g; repeat split; lia|].
    intros _. split_ifs; reflexivity.
  - split; [split_ifs; cbn; discriminate|].
    intros [c' [g' [[= <-] [[= <-] Hle]]]]. lia.
Qed.

Lemma tier_mismatch_gpu_iff cpuDb gpuDb scan :
  emitted "gpu-cpu-tier-mismatch"
    (bottlenecks (analyzeScan cpuDb gpuDb scan))
  <-> exists c g,
        lookup cpuDb (cpu_model_name (cpu scan)) = Some c
        /\ lookup gpuDb (gpu_model_name (gpu scan)) = Some g
        /\ tierIndex (tierOf g) + 2 <= tierIndex (tierOf c).
Proof.
  to_owner cpuDb gpuDb scan. unfold detectGPUBottlenecks.
  destruct ce as [c|], ge as [g|];
    try (split; [split_ifs; cbn; discriminate
                |intros [? [? [? [? _]]]]; discriminate]).
  destruct (Z.leb_spec 2 (tierIndex (tierOf c) - tierIndex (tierOf g))).
  - split; [intros _; exists c, g; repeat split; lia|].
    intros _. split_ifs; reflexivity.
  - split; [split_ifs; cbn; discriminate|].
    intros [c' [g' [[= <-] [[= <-] Hle]]]]. lia.
Qed.

(** X3. The five tiers have the ranks 0 to 4 in the order very_low, low,
    mid, high, very_high, and a member without a tier (one inherited from
    Object.prototype) has the rank -1.  A tier-mismatch finding is reported
    exactly when both lookups returned a member and the ranks differ by 2 or
    more (cpu-gpu-tier-mismatch when the GPU is ahead, gpu-cpu-tier-mismatch
    when the CPU is); the two never come together and neither is reported
    when a lookup found nothing.  An inherited member on the CPU side next
    to a catalogued GPU of tier low or better therefore gives
    cpu-gpu-tier-mismatch. *)
Theorem X3_tier_mismatch_findings cpuDb gpuDb scan :
  let found := bottlenecks (analyzeScan cpuDb gpuDb scan) in
  let cpuEntry := lookup cpuDb (cpu_model_name (cpu scan)) in
  let gpuEntry := lookup gpuDb (gpu_model_name (gpu scan)) in
  (forall t, tierIndex (Some t)
             = match t with
               | very_low => 0 | low => 1 | mid => 2
               | high => 3 | very_high => 4
               end)
  /\ tierIndex None = -1
  /\ (forall e, tierOf (Own e) = Some (tier e))
  /\ (forall k, tierOf (Inherited k) = None)
  /\ (emitted "cpu-gpu-tier-mismatch" found
      <-> exists c g, cpuEntry = Some c /\ gpuEntry = Some g
                      /\ tierIndex (tierOf c) + 2 <= tierIndex (tierOf g))
  /\ (emitted "gpu-cpu-tier-mismatch" found
      <-> exists c g, cpuEntry = Some c /\ gpuEntry = Some g
                      /\ tierIndex (tierOf g) + 2 <= tierIndex (tierOf c))
  /\ ~ (emitted "cpu-gpu-tier-mismatch" found
        /\ emitted "gpu-cpu-tier-mismatch" found)
  /\ (cpuEntry = None \/ gpuEntry = None ->
      ~ emitted "cpu-gpu-tier-mismatch" found
      /\ ~ emitted "gpu-cpu-tier-mismatch" found)
  /\ (forall k g, cpuEntry = Some (Inherited k) -> gpuEntry = Some (Own g) ->
      tier g <> very_low -> emitted "cpu-gpu-tier-mismatch" found).
Proof.
  cbn zeta. rewrite tier_mismatch_cpu_iff, tier_mismatch_gpu_iff.
  split; [intros []; reflexivity|].
  split; [reflexivity|]. split; [reflexivity|]. split; [reflexivity|].
  split; [reflexivity|]. split; [reflexivity|]. split; [|split].
  - intros [[c [g [Hc [Hg H1]]]] [c' [g' [Hc' [Hg' H2]]]]].
    rewrite Hc in Hc'. rewrite Hg in Hg'.
    injection Hc' as <-. injection Hg' as <-. lia.
  - intros [H|H]; rewrite H; split; intros [c [g [Hc [Hg _]]]];
      discriminate.
  - intros k g Hc Hg Ht. apply tier_mismatch_cpu_iff.
    exists (Inherited k), (Own g).
    split; [exact Hc|]. split; [exact Hg|].
    cbn [tierOf]. destruct (tier g); try congruence; vm_compute;
      discriminate.
Qed.

(** ** The evaluators and the scorer on the same condition *)

Lemma not_boosting_iff cpuDb gpuDb scan :
  emitted "cpu-not-boosting" (bottlenecks (analyzeScan cpuDb gpuDb scan))
  <-> boostShortfall scan = true
      /\ below 50 (average (usage_per_core (cpu scan))).
Proof.
  to_owner cpuDb gpuDb scan.
  replace (emittedb "cpu-not-boosting" (detectCPUBottlenecks scan [] ce ge))
    with (boostShortfall scan
          && JS.fgtb (average (usage_per_core (cpu scan))) 50)
    by (unfold detectCPUBottlenecks, boostShortfall; destruct ce, ge;
        split_ifs; reflexivity).
  now rewrite andb_true_iff, fgtb_below.
Qed.

Lemma boostShortfall_iff scan :
  boostShortfall scan = true
  <-> below 0 (current_clock_ghz (cpu scan))
      /\ below 0 (max_boost_clock_ghz (cpu scan))
      /\ below (current_clock_ghz (cpu scan))
               (max_boost_clock_ghz (cpu scan) * 0.85)%float.
Proof.
  unfold boostShortfall. rewrite !andb_true_iff, !fgtb_below, fltb_below.
  tauto.
Qed.

(** X4. The finding cpu-not-boosting is reported exactly when both clocks
    are positive, the current clock is below the boost clock times 0.85
    (the product rounded to binary64) and the average core usage is above
    50.  The scorer takes its 3 points for the clock condition alone:
    whenever the finding is reported the deduction applies, and the
    deduction also applies, without the finding, on a machine whose average
    usage is not above 50. *)
Theorem X4_boost_finding_and_deduction cpuDb gpuDb scan :
  let r := analyzeScan cpuDb gpuDb scan in
  let avg := average (usage_per_core (cpu scan)) in
  let short :=
    below 0 (current_clock_ghz (cpu scan))
    /\ below 0 (max_boost_clock_ghz (cpu scan))
    /\ below (current_clock_ghz (cpu scan))
             (max_boost_clock_ghz (cpu scan) * 0.85)%float in
  (emitted "cpu-not-boosting" (bottlenecks r) <-> short /\ below 50 avg)
  /\ (cpuBoostDeduction scan = 3 <-> short)
  /\ (cpuBoostDeduction scan = 0 <-> ~ short)
  /\ b_cpu (breakdown (score r))
     = clamp (tierBase 25 (lookup cpuDb (cpu_model_name (cpu scan)))
              - cpuThermalDeduction scan - cpuBoostDeduction scan) 0 25
  /\ (emitted "cpu-not-boosting" (bottlenecks r) ->
      cpuBoostDeduction scan = 3)
  /\ (short -> ~ below 50 avg ->
      cpuBoostDeduction scan = 3
      /\ ~ emitted "cpu-not-boosting" (bottlenecks r)).
Proof.
  cbn zeta. rewrite not_boosting_iff, <- boostShortfall_iff.
  unfold cpuBoostDeduction.
  split; [reflexivity|].
  split; [destruct (boostShortfall scan); intuition discriminate|].
  split; [destruct (boostShortfall scan); intuition discriminate|].
  split; [cbn [score analyzeScan]; now rewrite cpu_score_parts|].
  split; [intros [-> _]; reflexivity|].
  intros -> Hle. split; [reflexivity|]. intros [_ H]. contradiction.
Qed.

Lemma thermal_cpu_critical_iff cpuDb gpuDb scan :
  emitted "thermal-cpu-critical"
    (bottlenecks (analyzeScan cpuDb gpuDb scan))
  <-> cpuThermalDeduction scan = 5.
Proof.
  to_owner cpuDb gpuDb scan. clear ce ge.
  unfold detectThermalBottlenecks, cpuThermalDeduction.
  destruct (cpu_current_temp_c (cpu scan)),
    (gpu_current_temp_c (gpu scan)); split_ifs; cbn;
    intuition discriminate.
Qed.

Lemma thermal_cpu_warm_iff cpuDb gpuDb scan :
  emitted "thermal-cpu-warm" (bottlenecks (analyzeScan cpuDb gpuDb scan))
  <-> cpuThermalDeduction scan = 2.
Proof.
  to_owner cpuDb gpuDb scan. clear ce ge.
  unfold detectThermalBottlenecks, cpuThermalDeduction.
  destruct (cpu_current_temp_c (cpu scan)),
    (gpu_current_temp_c (gpu scan)); split_ifs; cbn;
    intuition discriminate.
Qed.

Lemma thermal_gpu_hot_iff cpuDb gpuDb scan :
  emitted "thermal-gpu-hot" (bottlenecks (analyzeScan cpuDb gpuDb scan))
  <-> gpuThermalDeduction scan = 4.
Proof.
  to_owner cpuDb gpuDb scan. clear ce ge.
  unfold detectThermalBottlenecks, gpuThermalDeduction.
  destruct (cpu_current_temp_c (cpu scan)),
    (gpu_current_temp_c (gpu scan)); split_ifs; cbn;
    intuition discriminate.
Qed.

Lemma thermal_gpu_warm_iff cpuDb gpuDb scan :
  emitted "thermal-gpu-warm" (bottlenecks (analyzeScan cpuDb gpuDb scan))
  <-> gpuThermalDeduction scan = 2.
Proof.
  to_owner cpuDb gpuDb scan. clear ce ge.
  unfold detectThermalBottlenecks, gpuThermalDeduction.
  destruct (cpu_current_temp_c (cpu scan)),
    (gpu_current_temp_c (gpu scan)); split_ifs; cbn;
    intuition discriminate.
Qed.

Lemma cpuThermalDeduction_cases scan :
  (cpuThermalDeduction scan = 5
   <-> exists t, cpu_current_temp_c (cpu scan) = Some t /\ (85 < t)%Q)
  /\ (cpuThermalDeduction scan = 2
      <-> exists t, cpu_current_temp_c (cpu scan) = Some t
                    /\ (75 < t /\ t <= 85)%Q)
  /\ (cpu_current_temp_c (cpu scan) = None -> cpuThermalDeduction scan = 0).
Proof.
  unfold cpuThermalDeduction.
  destruct (cpu_current_temp_c (cpu scan)) as [t|].
  - destruct (JS.gtb t 85) eqn:H85; [|destruct (JS.gtb t 75) eqn:H75].
    + apply gtb_lt in H85. repeat split; try discriminate; eauto.
      intros [t' [[= <-] H]]. lra.
    + apply gtb_le in H85. apply gtb_lt in H75.
      repeat split; try discriminate; eauto.
      intros [t' [[= <-] H]]. lra.
    + apply gtb_le in H85. apply gtb_le in H75.
      repeat split; try discriminate;
        intros [t' [[= <-] H]]; lra.
  - repeat split; try discriminate; intros [t [H _]]; discriminate.
Qed.

Lemma gpuThermalDeduction_cases scan :
  (gpuThermalDeduction scan = 4
   <-> exists t, gpu_current_temp_c (gpu scan) = Some t /\ (85 < t)%Q)
  /\ (gpuThermalDeduction scan = 2
      <-> exists t, gpu_current_temp_c (gpu scan) = Some t
                    /\ (80 < t /\ t <= 85)%Q)
  /\ (gpu_current_temp_c (gpu scan) = None -> gpuThermalDeduction scan = 0).
Proof.
  unfold gpuThermalDeduction.
  destruct (gpu_current_temp_c (gpu scan)) as [t|].
  - destruct (JS.gtb t 85) eqn:H85; [|destruct (JS.gtb t 80) eqn:H80].
    + apply gtb_lt in H85. repeat split; try discriminate; eauto.
      intros [t' [[= <-] H]]. lra.
    + apply gtb_le in H85. apply gtb_lt in H80.
      repeat split; try discriminate; eauto.
      intros [t' [[= <-] H]]. lra.
    + apply gtb_le in H85. apply gtb_le in H80.
      repeat split; try discriminate;
        intros [t' [[= <-] H]]; lra.
  - repeat split; try discriminate; intros [t [H _]]; discriminate.
Qed.

(** X5. The thermal findings and the thermal deductions of the scorer
    agree.  thermal-cpu-critical is reported exactly when the CPU reading
    is above 85, and exactly then the CPU score loses 5; thermal-cpu-warm
    exactly when it is above 75 and at most 85, and exactly then the score
    loses 2.  thermal-gpu-hot goes with a GPU reading above 85 and a loss
    of 4, thermal-gpu-warm with a reading above 80 and at most 85 and a loss
    of 2.  A sensor that reports nothing gives no finding and no
    deduction.  The deductions are those of the returned score: its CPU part
    is the base of the CPU minus the thermal and the boost deduction, its
    GPU part the base of the GPU minus the thermal and the VRAM deduction,
    each kept within 0 and 25. *)
Theorem X5_thermal_findings_match_deductions cpuDb gpuDb scan :
  let r := analyzeScan cpuDb gpuDb scan in
  let found := bottlenecks r in
  let cpuTemp := cpu_current_temp_c (cpu scan) in
  let gpuTemp := gpu_current_temp_c (gpu scan) in
  (emitted "thermal-cpu-critical" found
   <-> exists t, cpuTemp = Some t /\ (85 < t)%Q)
  /\ (emitted "thermal-cpu-critical" found <-> cpuThermalDeduction scan = 5)
  /\ (emitted "thermal-cpu-warm" found
      <-> exists t, cpuTemp = Some t /\ (75 < t /\ t <= 85)%Q)
  /\ (emitted "thermal-cpu-warm" found <-> cpuThermalDeduction scan = 2)
  /\ (emitted "thermal-gpu-hot" found
      <-> exists t, gpuTemp = Some t /\ (85 < t)%Q)
  /\ (emitted "thermal-gpu-hot" found <-> gpuThermalDeduction scan = 4)
  /\ (emitted "thermal-gpu-warm" found
      <-> exists t, gpuTemp = Some t /\ (80 < t /\ t <= 85)%Q)
  /\ (emitted "thermal-gpu-warm" found <-> gpuThermalDeduction scan = 2)
  /\ (cpuTemp = None ->
      ~ emitted "thermal-cpu-critical" found
      /\ ~ emitted "thermal-cpu-warm" found
      /\ cpuThermalDeduction scan = 0)
  /\ (gpuTemp = None ->
      ~ emitted "thermal-gpu-hot" found
      /\ ~ emitted "thermal-gpu-warm" found
      /\ gpuThermalDeduction scan = 0)
  /\ b_cpu (breakdown (score r))
     = clamp (tierBase 25 (lookup cpuDb (cpu_model_name (cpu scan)))
              - cpuThermalDeduction scan - cpuBoostDeduction scan) 0 25
  /\ b_gpu (breakdown (score r))
     = clamp (tierBase 25 (lookup gpuDb (gpu_model_name (gpu scan)))
              - gpuThermalDeduction scan - gpuVramDeduction scan) 0 25
  /\ (forall t, cpuTemp = Some t ->
      cpuThermalDeduction scan
      = if Qlt_le_dec 85 t then 5 else if Qlt_le_dec 75 t then 2 else 0)
  /\ (forall t, gpuTemp = Some t ->
      gpuThermalDeduction scan
      = if Qlt_le_dec 85 t then 4 else if Qlt_le_dec 80 t then 2 else 0).
Proof.
  cbn zeta.
  rewrite thermal_cpu_critical_iff, thermal_cpu_warm_iff,
    thermal_gpu_hot_iff, thermal_gpu_warm_iff.
  destruct (cpuThermalDeduction_cases scan) as [C5 [C2 C0]].
  destruct (gpuThermalDeduction_cases scan) as [G4 [G2 G0]].
  do 8 (split; [tauto|]).
  split; [intros H; rewrite (C0 H); repeat split; discriminate|].
  split; [intros H; rewrite (G0 H); repeat split; discriminate|].
  split; [cbn [score analyzeScan]; now rewrite cpu_score_parts|].
  split; [cbn [score analyzeScan]; now rewrite gpu_score_parts|].
  clear. unfold cpuThermalDeduction, gpuThermalDeduction.
  split; intros t ->.
  - destruct (Qlt_le_dec 85 t) as [H|H];
      [apply gtb_lt in H|apply gtb_le in H]; rewrite H; [reflexivity|].
    destruct (Qlt_le_dec 75 t) as [H'|H'];
      [apply gtb_lt in H'|apply gtb_le in H']; now rewrite H'.
  - destruct (Qlt_le_dec 85 t) as [H|H];
      [apply gtb_lt in H|apply gtb_le in H]; rewrite H; [reflexivity|].
    destruct (Qlt_le_dec 80 t) as [H'|H'];
      [apply gtb_lt in H'|apply gtb_le in H']; now rewrite H'.
Qed.

(** X6. The finding gpu-vram-full and the VRAM deduction of the scorer
    agree: the finding is reported exactly when the total VRAM is positive
    and the used amount divided by the total, the quotient rounded to
    binary64, is above 0.9, and exactly then the GPU score loses 3. *)
Theorem X6_vram_finding_matches_deduction cpuDb gpuDb scan :
  let r := analyzeScan cpuDb gpuDb scan in
  let full :=
    below 0 (vram_total_gb (gpu scan))
    /\ below 0.9 (vram_used_gb (gpu scan) / vram_total_gb (gpu scan))%float
  in
  (emitted "gpu-vram-full" (bottlenecks r) <-> full)
  /\ (emitted "gpu-vram-full" (bottlenecks r) <-> gpuVramDeduction scan = 3)
  /\ (~ emitted "gpu-vram-full" (bottlenecks r)
      <-> gpuVramDeduction scan = 0)
  /\ b_gpu (breakdown (score r))
     = clamp (tierBase 25 (lookup gpuDb (gpu_model_name (gpu scan)))
              - gpuThermalDeduction scan - gpuVramDeduction scan) 0 25.
Proof.
  cbn zeta. rewrite vram_full_iff. unfold gpuVramDeduction.
  split; [unfold vramPressure; now rewrite andb_true_iff, !fgtb_below|].
  split; [destruct (vramPressure scan); intuition discriminate|].
  split; [destruct (vramPressure scan); intuition discriminate|].
  cbn [score analyzeScan]. now rewrite gpu_score_parts.
Qed.

(** ** Memory *)

Lemma channel_eqb_eq a b : channel_eqb a b = true <-> a = b.
Proof. destruct a, b; cbn; split; congruence. Qed.

Ltac ram_owner cpuDb gpuDb scan :=
  to_owner cpuDb gpuDb scan;
  unfold detectRAMBottlenecks, ramChannelDeduction, ramCapacityDeduction,
    ramUsageDeduction, ramSpeedDeductionDDR4, ramSpeedDeductionDDR5,
    isDDR4, isDDR5;
  split_ifs; cbn; intuition discriminate.

Lemma ram_single_channel_iff cpuDb gpuDb scan :
  emitted "ram-single-channel" (bottlenecks (analyzeScan cpuDb gpuDb scan))
  <-> ramChannelDeduction scan = 10.
Proof. ram_owner cpuDb gpuDb scan. Qed.

Lemma ram_low_capacity_iff cpuDb gpuDb scan :
  emitted "ram-low-capacity" (bottlenecks (analyzeScan cpuDb gpuDb scan))
  <-> ramCapacityDeduction scan = 5.
Proof. ram_owner cpuDb gpuDb scan. Qed.

Lemma ram_high_usage_iff cpuDb gpuDb scan :
  emitted "ram-high-usage" (bottlenecks (analyzeScan cpuDb gpuDb scan))
  <-> ramUsageDeduction scan = 3.
Proof. ram_owner cpuDb gpuDb scan. Qed.

Lemma ram_slow_speed_iff cpuDb gpuDb scan :
  emitted "ram-slow-speed" (bottlenecks (analyzeScan cpuDb gpuDb scan))
  <-> ramSpeedDeductionDDR4 scan = 8.
Proof. ram_owner cpuDb gpuDb scan. Qed.

Lemma ram_slow_speed_ddr5_iff cpuDb gpuDb scan :
  emitted "ram-slow-speed-ddr5" (bottlenecks (analyzeScan cpuDb gpuDb scan))
  <-> ramSpeedDeductionDDR5 scan = 8.
Proof. ram_owner cpuDb gpuDb scan. Qed.

(** Decide every comparison that the goal tests and keep the outcome as an
    inequality. *)
Ltac q_cases :=
  repeat match goal with
    | |- context [JS.ltb ?a ?b] => destruct (JS.ltb a b) eqn:?
    | |- context [JS.gtb ?a ?b] => destruct (JS.gtb a b) eqn:?
    end;
  repeat match goal with
    | H : JS.ltb _ _ = true |- _ => apply ltb_lt in H
    | H : JS.ltb _ _ = false |- _ => apply ltb_ge in H
    | H : JS.gtb _ _ = true |- _ => apply gtb_lt in H
    | H : JS.gtb _ _ = false |- _ => apply gtb_le in H
    end.

Lemma ram_deduction_conditions scan :
  (ramChannelDeduction scan = 10 <-> channel_mode (ram scan) = single)
  /\ (ramCapacityDeduction scan = 5 <-> (total_gb (ram scan) < 16)%Q)
  /\ (ramCapacityDeduction scan = 1
      <-> (16 <= total_gb (ram scan) /\ total_gb (ram scan) < 32)%Q)
  /\ (ramUsageDeduction scan = 3 <-> (85 < usage_percent (ram scan))%Q)
  /\ (ramSpeedDeductionDDR4 scan = 8
      <-> isDDR4 scan = true /\ (speed_mhz (ram scan) < 3000)%Q)
  /\ (ramSpeedDeductionDDR4 scan = 3
      <-> isDDR4 scan = true
          /\ (3000 <= speed_mhz (ram scan) /\ speed_mhz (ram scan) < 3200)%Q)
  /\ (ramSpeedDeductionDDR5 scan = 8
      <-> isDDR5 scan = true /\ (speed_mhz (ram scan) < 4800)%Q)
  /\ (ramSpeedDeductionDDR5 scan = 3
      <-> isDDR5 scan = true
          /\ (4800 <= speed_mhz (ram scan) /\ speed_mhz (ram scan) < 5600)%Q).
Proof.
  unfold ramChannelDeduction, ramCapacityDeduction, ramUsageDeduction,
    ramSpeedDeductionDDR4, ramSpeedDeductionDDR5.
  rewrite <- channel_eqb_eq.
  repeat apply conj; q_cases;
    try destruct (channel_eqb (channel_mode (ram scan)) single);
    try destruct (isDDR4 scan); try destruct (isDDR5 scan); cbn [andb];
    intros; try discriminate; try tauto; try lra; try lia;
    try (split; [reflexivity|lra]);
    try (match goal with H : _ /\ _ |- _ => destruct H end;
         try discriminate; lra).
Qed.

(** X7. The memory findings and the deductions of the scorer agree.
    ram-single-channel is reported exactly when channel_mode is single, and
    exactly then the RAM score loses 10; ram-low-capacity exactly when the
    total is below 16 GB (loss of 5); ram-high-usage exactly when the usage
    is above 85% (loss of 3); ram-slow-speed exactly when the form factor
    names DDR4 and the speed is below 3000 (loss of 8); ram-slow-speed-ddr5
    exactly when it names DDR5 and the speed is below 4800 (loss of 8).
    The smaller deductions of the scorer (1 for 16 GB up to 32 GB, 3 for
    DDR4 from 3000 up to 3200 and for DDR5 from 4800 up to 5600) come
    without a finding. *)
Theorem X7_memory_findings_match_deductions cpuDb gpuDb scan :
  let r := analyzeScan cpuDb gpuDb scan in
  let found := bottlenecks r in
  (emitted "ram-single-channel" found <-> channel_mode (ram scan) = single)
  /\ (emitted "ram-single-channel" found <-> ramChannelDeduction scan = 10)
  /\ (emitted "ram-low-capacity" found <-> (total_gb (ram scan) < 16)%Q)
  /\ (emitted "ram-low-capacity" found <-> ramCapacityDeduction scan = 5)
  /\ (emitted "ram-high-usage" found <-> (85 < usage_percent (ram scan))%Q)
  /\ (emitted "ram-high-usage" found <-> ramUsageDeduction scan = 3)
  /\ (emitted "ram-slow-speed" found
      <-> isDDR4 scan = true /\ (speed_mhz (ram scan) < 3000)%Q)
  /\ (emitted "ram-slow-speed" found <-> ramSpeedDeductionDDR4 scan = 8)
  /\ (emitted "ram-slow-speed-ddr5" found
      <-> isDDR5 scan = true /\ (speed_mhz (ram scan) < 4800)%Q)
  /\ (emitted "ram-slow-speed-ddr5" found
      <-> ramSpeedDeductionDDR5 scan = 8)
  /\ ((16 <= total_gb (ram scan) /\ total_gb (ram scan) < 32)%Q ->
      ramCapacityDeduction scan = 1 /\ ~ emitted "ram-low-capacity" found)
  /\ (isDDR4 scan = true ->
      (3000 <= speed_mhz (ram scan) /\ speed_mhz (ram scan) < 3200)%Q ->
      ramSpeedDeductionDDR4 scan = 3 /\ ~ emitted "ram-slow-speed" found)
  /\ (isDDR5 scan = true ->
      (4800 <= speed_mhz (ram scan) /\ speed_mhz (ram scan) < 5600)%Q ->
      ramSpeedDeductionDDR5 scan = 3
      /\ ~ emitted "ram-slow-speed-ddr5" found)
  /\ b_ram (breakdown (score r))
     = clamp (20 - ramSpeedDeductionDDR4 scan - ramSpeedDeductionDDR5 scan
              - ramChannelDeduction scan - ramCapacityDeduction scan
              - ramUsageDeduction scan) 0 20.
Proof.
  cbn zeta.
  rewrite ram_single_channel_iff, ram_low_capacity_iff, ram_high_usage_iff,
    ram_slow_speed_iff, ram_slow_speed_ddr5_iff.
  destruct (ram_deduction_conditions scan)
    as [Hch [Hc5 [Hc1 [Hu [H48 [H43 [H58 H53]]]]]]].
  do 10 (split; [tauto|]).
  split; [intros H; apply Hc1 in H; rewrite H; split;
          [reflexivity|discriminate]|].
  split; [intros Hd H; assert (E : ramSpeedDeductionDDR4 scan = 3)
            by (apply H43; tauto);
          rewrite E; split; [reflexivity|discriminate]|].
  split; [intros Hd H; assert (E : ramSpeedDeductionDDR5 scan = 3)
            by (apply H53; tauto);
          rewrite E; split; [reflexivity|discriminate]|].
  cbn [score analyzeScan]. now rewrite ram_score_parts.
Qed.

(** ** Storage *)

Lemma ex_Some A (P : A -> Prop) (d : A) :
  (exists x, Some d = Some x /\ P x) <-> P d.
Proof.
  split; [intros [x [[= <-] H]]; exact H|intros H; now exists d].
Qed.

Lemma bootFindings_emittedb bootDrive :
  (emittedb "storage-hdd-boot" (bootFindings bootDrive) = true
   <-> exists d, bootDrive = Some d /\ type d = HDD)
  /\ (emittedb "storage-boot-almost-full" (bootFindings bootDrive) = true
      <-> exists d, bootDrive = Some d /\ storageFullnessDeduction d = 3)
  /\ (emittedb "storage-boot-getting-full" (bootFindings bootDrive) = true
      <-> exists d, bootDrive = Some d /\ storageFullnessDeduction d = 1).
Proof.
  destruct bootDrive as [d|]; cbn [bootFindings].
  - rewrite (ex_Some (fun x => type x = HDD)),
      (ex_Some (fun x => storageFullnessDeduction x = 3)),
      (ex_Some (fun x => storageFullnessDeduction x = 1)).
    unfold storageFullnessDeduction.
    destruct (type d); cbn [storageType_eqb]; split_ifs; cbn;
      repeat split; intros H; try discriminate H; reflexivity.
  - cbn. repeat split; intros H; try discriminate H;
      destruct H as [d [H _]]; discriminate H.
Qed.

Lemma storageFullnessDeduction_cases d :
  (storageFullnessDeduction d = 3
   <-> below 0 (capacity_gb d)
       /\ below 0.9 (used_gb d / capacity_gb d)%float)
  /\ (storageFullnessDeduction d = 1
      <-> below 0 (capacity_gb d)
          /\ below 0.8 (used_gb d / capacity_gb d)%float
          /\ ~ below 0.9 (used_gb d / capacity_gb d)%float).
Proof.
  unfold storageFullnessDeduction, JS.fgtb, below.
  destruct (PrimFloat.ltb 0 (capacity_gb d)),
    (PrimFloat.ltb 0.9 (used_gb d / capacity_gb d)),
    (PrimFloat.ltb 0.8 (used_gb d / capacity_gb d));
    intuition (discriminate || congruence).
Qed.

Lemma no_nvme_iff cpuDb gpuDb scan :
  emitted "storage-no-nvme" (bottlenecks (analyzeScan cpuDb gpuDb scan))
  <-> Forall (fun d => type d <> NVMe_SSD) (storage scan).
Proof.
  to_owner cpuDb gpuDb scan. rewrite emittedb_app.
  replace (emittedb "storage-no-nvme"
             (bootFindings (find is_boot_drive (storage scan))))
    with false
    by (unfold bootFindings;
        destruct (find is_boot_drive (storage scan)); split_ifs;
        reflexivity).
  cbn [orb]. unfold nvmeFindings.
  destruct (existsb _ (storage scan)) eqn:E.
  - split; [discriminate|]. intros Hall.
    apply existsb_exists in E. destruct E as [d [Hin Hd]].
    apply storageType_eqb_eq in Hd.
    rewrite Forall_forall in Hall. now apply Hall in Hin.
  - split; [intros _|reflexivity].
    apply Forall_forall. intros d Hin Hd.
    assert (existsb (fun d => storageType_eqb (type d) NVMe_SSD)
              (storage scan) = true); [|congruence].
    apply existsb_exists. exists d. split; [exact Hin|].
    now apply storageType_eqb_eq.
Qed.

(** X8. The storage findings and the storage score.  With [boot] the first
    drive that carries the boot flag: storage-hdd-boot is reported exactly
    when [boot] exists and is an HDD; storage-boot-almost-full exactly when
    its capacity is positive and the used amount divided by the capacity,
    the quotient rounded to binary64, is above 0.9, and exactly then the
    score loses 3; storage-boot-getting-full exactly when that quotient is
    above 0.8 and not above 0.9, with a loss of 1;
    storage-no-nvme exactly when no drive of the list is an NVMe SSD (an
    empty list included).  Without a boot drive none of the boot findings
    is reported and the storage score is 15; with an HDD as boot drive the
    score is at most 5. *)
Theorem X8_storage_findings_and_score cpuDb gpuDb scan :
  let r := analyzeScan cpuDb gpuDb scan in
  let found := bottlenecks r in
  let boot := find is_boot_drive (storage scan) in
  (emitted "storage-hdd-boot" found
   <-> exists d, boot = Some d /\ type d = HDD)
  /\ (emitted "storage-boot-almost-full" found
      <-> exists d, boot = Some d
                    /\ below 0 (capacity_gb d)
                    /\ below 0.9 (used_gb d / capacity_gb d)%float)
  /\ (emitted "storage-boot-almost-full" found
      <-> exists d, boot = Some d /\ storageFullnessDeduction d = 3)
  /\ (emitted "storage-boot-getting-full" found
      <-> exists d, boot = Some d
                    /\ below 0 (capacity_gb d)
                    /\ below 0.8 (used_gb d / capacity_gb d)%float
                    /\ ~ below 0.9 (used_gb d / capacity_gb d)%float)
  /\ (emitted "storage-boot-getting-full" found
      <-> exists d, boot = Some d /\ storageFullnessDeduction d = 1)
  /\ (emitted "storage-no-nvme" found
      <-> Forall (fun d => type d <> NVMe_SSD) (storage scan))
  /\ (boot = None ->
      ~ emitted "storage-hdd-boot" found
      /\ ~ emitted "storage-boot-almost-full" found
      /\ ~ emitted "storage-boot-getting-full" found
      /\ b_storage (breakdown (score r)) = 15)
  /\ b_storage (breakdown (score r)) = storageScoreOf boot
  /\ (emitted "storage-hdd-boot" found ->
      b_storage (breakdown (score r)) <= 5).
Proof.
  cbn zeta. rewrite no_nvme_iff.
  rewrite !boot_finding_iff by (cbn; auto).
  destruct (bootFindings_emittedb (find is_boot_drive (storage scan)))
    as [Hh [Ha Hg]].
  rewrite Hh, Ha, Hg.
  assert (Hscore : b_storage (breakdown (score (analyzeScan cpuDb gpuDb scan)))
                   = storageScoreOf (find is_boot_drive (storage scan)))
    by (cbn [score analyzeScan]; now rewrite storage_score_parts).
  rewrite Hscore.
  split; [reflexivity|].
  split; [split; intros [d [Hd H]]; exists d; split; auto;
          now apply storageFullnessDeduction_cases|].
  split; [reflexivity|].
  split; [split; intros [d [Hd H]]; exists d; split; auto;
          now apply storageFullnessDeduction_cases|].
  split; [reflexivity|]. split; [reflexivity|].
  split; [|split; [reflexivity|]].
  - intros ->. repeat split; try reflexivity;
      intros [d [H _]]; discriminate.
  - intros [d [-> Hd]]. cbn [storageScoreOf]. rewrite Hd.
    cbn [storageBase]. unfold clamp, JS.clamp, storageFullnessDeduction,
      storageHealthDeduction. split_ifs; lia.
Qed.

(** ** Drive health *)

Lemma filter_insert_In A (le : A -> A -> bool) (p : A -> bool) x l :
  (forall y, In y l -> p x = true -> p y = true -> le x y = true) ->
  filter p (JS.insert le x l) = filter p (x :: l).
Proof.
  intros tie. induction l as [|y l IH]; [reflexivity|].
  cbn [JS.insert]. destruct (le x y) eqn:Hxy; [reflexivity|].
  cbn [filter] in *. rewrite IH by (intros z Hz; apply tie; now right).
  destruct (p x) eqn:Hx, (p y) eqn:Hy; try reflexivity.
  rewrite (tie y (or_introl eq_refl) eq_refl Hy) in Hxy. discriminate.
Qed.

(** The sort keeps the order of the elements of the list that satisfy [p]
    when those elements tie with one another. *)
Lemma filter_sort_le_In A (le : A -> A -> bool) (p : A -> bool) l :
  (forall x y, In x l -> In y l -> p x = true -> p y = true ->
               le x y = true) ->
  filter p (JS.sort_le le l) = filter p l.
Proof.
  induction l as [|x l IH]; intros tie; [reflexivity|].
  cbn [JS.sort_le]. rewrite filter_insert_In.
  - cbn [filter]. rewrite IH; [reflexivity|].
    intros a b Ha Hb. apply tie; now right.
  - intros y Hy. apply sort_le_In in Hy. apply tie; [now left|now right].
Qed.

Lemma filter_fixed_rules l ids :
  Subseq (map id l) ids ->
  Forall (fun i => JS.startsWith i "storage-health-" = false) ids ->
  filter isHealthId l = [].
Proof.
  intros Hs Hids. rewrite Forall_forall in Hids.
  induction l as [|b l IH]; [reflexivity|].
  cbn [filter]. unfold isHealthId at 1.
  rewrite (Hids (id b)) by (apply (Subseq_In Hs); now left).
  apply IH. cbn [map] in Hs.
  clear -Hs. remember (id b :: map id l) as m eqn:Hm.
  revert b l Hm. induction Hs as [ids|x m ids Hs IH|x m ids Hs IH];
    intros b l Hm.
  - discriminate.
  - injection Hm as -> ->. now apply Subseq_skip.
  - apply Subseq_skip. eapply IH. exact Hm.
Qed.

Lemma filter_health l :
  filter isHealthId (map healthFinding l) = map healthFinding l.
Proof.
  induction l as [|d l IH]; [reflexivity|].
  cbn [map filter]. now rewrite IH.
Qed.

Lemma health_findings_of_detectAll scan ce ge :
  filter isHealthId (detectAll scan ce ge)
  = map healthFinding
      (filter (fun d => unhealthy (health_status d)) (storage scan)).
Proof.
  rewrite detectAll_app, detectStorage_parts, !filter_app.
  rewrite (filter_fixed_rules _ (detectCPU_order scan ce ge))
    by (repeat constructor).
  rewrite (filter_fixed_rules _ (detectGPU_order scan ce ge))
    by (repeat constructor).
  rewrite (filter_fixed_rules _ (detectRAM_order scan))
    by (repeat constructor).
  rewrite (filter_fixed_rules _ (detectThermal_order scan))
    by (repeat constructor).
  rewrite (filter_fixed_rules _ (detectSettings_order scan))
    by (repeat constructor).
  pose proof (detectStorage_order scan) as Hs.
  rewrite map_app in Hs.
  assert (Hfixed : filter isHealthId
                     (bootFindings (find is_boot_drive (storage scan))
                      ++ nvmeFindings (storage scan))%list = [])
    by (apply filter_fixed_rules with storageRuleIds;
        [now rewrite map_app|repeat constructor]).
  rewrite filter_app in Hfixed.
  apply app_eq_nil in Hfixed. destruct Hfixed as [-> ->].
  cbn [app]. now rewrite filter_health, app_nil_r.
Qed.

Lemma detectAll_health_critical scan ce ge b :
  In b (detectAll scan ce ge) -> isHealthId b = true ->
  severity b = critical.
Proof.
  intros Hin Hb.
  assert (Hf : In b (filter isHealthId (detectAll scan ce ge)))
    by (apply filter_In; now split).
  rewrite health_findings_of_detectAll in Hf.
  apply in_map_iff in Hf. destruct Hf as [d [<- _]]. reflexivity.
Qed.

Lemma unhealthy_false_iff status :
  unhealthy status = false
  <-> status = None \/ status = Some EmptyString
      \/ exists s, status = Some s
                   /\ In (JS.toLowerCase s) ["good"; "ok"; "healthy"].
Proof.
  destruct status as [s|]; cbn [unhealthy].
  - destruct s as [|c s]; cbn [JS.truthy andb].
    + split; auto.
    + rewrite negb_false_iff, existsb_exists. split.
      * intros [x [Hin Hx]]. apply String.eqb_eq in Hx. subst x.
        right. right. eauto.
      * intros [H|[H|[s' [[= <-] Hin]]]]; try discriminate.
        eexists. split; [exact Hin|]. apply String.eqb_refl.
  - split; auto.
Qed.

(** X9. The drive-health findings of a result are, in the order of the
    storage list, exactly one finding per unhealthy drive: critical, in the
    category storage, with the identifier storage-health- followed by the
    model of the drive with each run of whitespace replaced by a dash and
    lower-cased.  Whitespace is, among the code units below U+0100, the
    characters 9 to 13, the space and the no-break space U+00A0.  A drive is
    healthy exactly when its status is null, empty or, whatever the case of
    its letters, one of good, ok and healthy.  When the boot drive is
    unhealthy its finding is reported and the storage score loses 5. *)
Theorem X9_one_health_finding_per_unhealthy_drive cpuDb gpuDb scan :
  let r := analyzeScan cpuDb gpuDb scan in
  filter isHealthId (bottlenecks r)
  = map healthFinding
      (filter (fun d => unhealthy (health_status d)) (storage scan))
  /\ (forall d,
        id (healthFinding d)
        = "storage-health-" ++ JS.toLowerCase (JS.replace_ws (model d))
        /\ severity (healthFinding d) = critical
        /\ category (healthFinding d) = Category.storage)
  /\ (forall c, JS.is_space c = isWhite c)
  /\ (forall s, JS.toLowerCase s = lowerCased s)
  /\ JS.toLowerCase
       (JS.replace_ws ("WD" ++ String (ascii_of_nat 160) "Blue  1TB"))
     = "wd-blue-1tb"
  /\ (forall status,
        unhealthy status = false
        <-> status = None \/ status = Some EmptyString
            \/ exists s, status = Some s
                         /\ In (JS.toLowerCase s) ["good"; "ok"; "healthy"])
  /\ (forall d,
        find is_boot_drive (storage scan) = Some d ->
        unhealthy (health_status d) = true ->
        In (healthFinding d) (bottlenecks r)
        /\ storageHealthDeduction d = 5
        /\ b_storage (breakdown (score r))
           = clamp (storageBase (type d) - storageFullnessDeduction d - 5)
               0 15).
Proof.
  cbn zeta. split; [|split; [|split; [|split; [|split; [|split]]]]].
  - cbn [analyzeScan bottlenecks]. unfold JS.sortZ.
    rewrite filter_sort_le_In; [apply health_findings_of_detectAll|].
    intros x y Hx Hy Px Py.
    apply (detectAll_health_critical _ _ _ _ Hx) in Px.
    apply (detectAll_health_critical _ _ _ _ Hy) in Py.
    unfold compareSeverity. rewrite Px, Py. reflexivity.
  - intros d. repeat split.
  - intros c. symmetry. apply isWhite_is_space.
  - intros s. symmetry. apply lowerCased_toLowerCase.
  - vm_compute. reflexivity.
  - apply unhealthy_false_iff.
  - intros d Hfind Hbad.
    assert (Hd : storageHealthDeduction d = 5)
      by (unfold storageHealthDeduction; now rewrite Hbad).
    split; [|split; [exact Hd|]].
    + apply finding_source. do 4 right. left.
      apply in_map, filter_In. split; [|exact Hbad].
      now apply find_some in Hfind.
    + cbn [score analyzeScan]. rewrite storage_score_parts, Hfind.
      cbn [storageScoreOf]. now rewrite Hd.
Qed.

(** ** Identifiers of the findings *)

Lemma Subseq_app A (l1 m1 l2 m2 : list A) :
  Subseq l1 m1 -> Subseq l2 m2 -> Subseq (l1 ++ l2) (m1 ++ m2).
Proof.
  intros H1 H2. induction H1 as [ids|x l ids H IH|x l ids H IH]; cbn.
  - induction ids as [|y ids IH]; cbn; [exact H2|now apply Subseq_skip].
  - now apply Subseq_take.
  - now apply Subseq_skip.
Qed.

Lemma Subseq_NoDup A (l m : list A) : Subseq l m -> NoDup m -> NoDup l.
Proof.
  induction 1 as [ids|x l ids H IH|x l ids H IH]; intros Hm.
  - constructor.
  - inversion Hm as [|? ? Hx Hids]; subst. constructor; [|auto].
    intros Hin. apply Hx. now apply (Subseq_In H).
  - inversion Hm; subst. auto.
Qed.

Lemma append_inj_l (p a b : string) : p ++ a = p ++ b -> a = b.
Proof. induction p as [|c p IH]; cbn; [auto|]. intros [= H]. auto. Qed.

Lemma fixed_ids_of_detectAll scan ce ge :
  Subseq
    (map id (detectCPUBottlenecks scan [] ce ge)
     ++ map id (detectGPUBottlenecks scan [] ce ge)
     ++ map id (detectRAMBottlenecks scan [])
     ++ map id (bootFindings (find is_boot_drive (storage scan))
                ++ nvmeFindings (storage scan))
     ++ map id (detectThermalBottlenecks scan [])
     ++ map id (detectSettingsBottlenecks scan []))%list
    fixedRuleIds.
Proof.
  unfold fixedRuleIds.
  repeat apply Subseq_app;
    auto using detectCPU_order, detectGPU_order, detectRAM_order,
      detectStorage_order, detectThermal_order, detectSettings_order.
Qed.

Lemma fixedRuleIds_NoDup : NoDup fixedRuleIds.
Proof.
  unfold fixedRuleIds. cbn.
  repeat (constructor; [cbn; intuition discriminate|]). constructor.
Qed.

Lemma fixedRuleIds_not_health i :
  In i fixedRuleIds -> JS.startsWith i "storage-health-" = false.
Proof.
  unfold fixedRuleIds. cbn.
  intros H. repeat (destruct H as [<-|H]; [reflexivity|]). destruct H.
Qed.

(** X10. The identifiers of the findings of a result are pairwise distinct
    exactly when the unhealthy drives have pairwise distinct models once
    whitespace runs are replaced by dashes and letters are lower-cased: no
    fixed rule fires twice, and a drive-health identifier repeats only for
    two unhealthy drives with the same sanitized model. *)
Theorem X10_finding_ids_distinct cpuDb gpuDb scan :
  NoDup (map id (bottlenecks (analyzeScan cpuDb gpuDb scan)))
  <-> NoDup (map sanitizedModel
               (filter (fun d => unhealthy (health_status d))
                  (storage scan))).
Proof.
  cbn [analyzeScan bottlenecks]. unfold JS.sortZ.
  set (ce := lookup cpuDb _). set (ge := lookup gpuDb _).
  set (bad := filter _ (storage scan)).
  assert (Hperm :
    Permutation
      (map id (JS.sort_le (fun a b => compareSeverity a b <=? 0)
                 (detectAll scan ce ge)))
      ((map id (detectCPUBottlenecks scan [] ce ge)
        ++ map id (detectGPUBottlenecks scan [] ce ge)
        ++ map id (detectRAMBottlenecks scan [])
        ++ map id (bootFindings (find is_boot_drive (storage scan))
                   ++ nvmeFindings (storage scan))
        ++ map id (detectThermalBottlenecks scan [])
        ++ map id (detectSettingsBottlenecks scan []))
       ++ map id (map healthFinding bad))%list).
  { etransitivity; [apply Permutation_map, sort_le_perm|].
    rewrite detectAll_app, detectStorage_parts. fold bad.
    rewrite !map_app, <- !app_assoc.
    do 5 apply Permutation_app_head.
    etransitivity; [apply Permutation_app_comm|].
    now rewrite <- app_assoc. }
  rewrite (Permutation_NoDup' Hperm).
  assert (Hh : map id (map healthFinding bad)
               = map (String.append "storage-health-")
                   (map sanitizedModel bad))
    by (rewrite !map_map; reflexivity).
  split.
  - intros H. apply NoDup_app_remove_l in H. rewrite Hh in H.
    now apply NoDup_map_inv in H.
  - intros H. apply NoDup_app.
    + apply (Subseq_NoDup (fixed_ids_of_detectAll scan ce ge)).
      apply fixedRuleIds_NoDup.
    + rewrite Hh. apply Finite.Injective_map_NoDup; [|exact H].
      intros a b. apply append_inj_l.
    + intros i Hi Hin.
      apply (Subseq_In (fixed_ids_of_detectAll scan ce ge)) in Hi.
      apply fixedRuleIds_not_health in Hi.
      rewrite Hh in Hin. apply in_map_iff in Hin.
      destruct Hin as [x [<- _]]. discriminate.
Qed.

(** ** Settings *)

Lemma strictEq_false_iff x : strictEq x false = true <-> x = Some false.
Proof. destruct x as [[|]|]; cbn; split; congruence. Qed.

Ltac settings_owner cpuDb gpuDb scan :=
  to_owner cpuDb gpuDb scan;
  rewrite <- ?strictEq_false_iff;
  unfold detectSettingsBottlenecks; split_ifs; cbn; intuition discriminate.

Lemma rebar_off_iff cpuDb gpuDb scan :
  emitted "settings-rebar-off" (bottlenecks (analyzeScan cpuDb gpuDb scan))
  <-> resizable_bar (bios_settings scan) = Some false.
Proof. settings_owner cpuDb gpuDb scan. Qed.

Lemma gpu_scheduling_iff cpuDb gpuDb scan :
  emitted "settings-gpu-scheduling"
    (bottlenecks (analyzeScan cpuDb gpuDb scan))
  <-> hw_accelerated_gpu_scheduling (os scan) = Some false.
Proof. settings_owner cpuDb gpuDb scan. Qed.

Lemma game_mode_off_iff cpuDb gpuDb scan :
  emitted "settings-game-mode-off"
    (bottlenecks (analyzeScan cpuDb gpuDb scan))
  <-> game_mode (os scan) = Some false.
Proof. settings_owner cpuDb gpuDb scan. Qed.

Lemma power_plan_iff cpuDb gpuDb scan :
  emitted "settings-power-plan" (bottlenecks (analyzeScan cpuDb gpuDb scan))
  <-> JS.includes (JS.toLowerCase (power_plan (os scan))) "high performance"
      = false
      /\ JS.includes (JS.toLowerCase (power_plan (os scan))) "ultimate"
         = false.
Proof.
  to_owner cpuDb gpuDb scan. unfold detectSettingsBottlenecks.
  destruct (JS.includes _ "high performance"), (JS.includes _ "ultimate");
    cbn [negb andb]; split_ifs; cbn; intuition discriminate.
Qed.

Lemma powerPlanPoints_cases scan :
  (powerPlanPoints scan = 3
   <-> JS.includes (JS.toLowerCase (power_plan (os scan))) "ultimate" = true
       \/ JS.includes (JS.toLowerCase (power_plan (os scan)))
            "high performance" = true)
  /\ 0 <= powerPlanPoints scan <= 3.
Proof.
  unfold powerPlanPoints.
  destruct (JS.includes _ "ultimate"), (JS.includes _ "high performance"),
    (JS.includes _ "balanced"); cbn [orb];
    (split; [intuition discriminate|lia]).
Qed.

Lemma flagPoints_cases flag points :
  0 < points ->
  (flagPoints flag points = points <-> flag = Some true)
  /\ 0 <= flagPoints flag points <= points
  /\ (flag = Some false -> flagPoints flag points = 0).
Proof.
  intros Hp. destruct flag as [[|]|]; cbn;
    repeat split; intros; try congruence; try lia.
Qed.

(** X11. The settings findings and the settings score.
    settings-power-plan is reported exactly when the lower-cased power plan
    contains neither "high performance" nor "ultimate", which is exactly
    when the plan earns fewer than its 3 points; settings-rebar-off,
    settings-gpu-scheduling and settings-game-mode-off are reported exactly
    when the flag is explicitly false, and such a flag earns nothing.  The
    score is the sum of the points of the six items and reaches 15 exactly
    when the plan earns 3, XMP, resizable BAR, game mode and GPU scheduling
    are explicitly true and the driver version is not empty; no settings
    finding is reported then. *)
Theorem X11_settings_findings_and_points cpuDb gpuDb scan :
  let r := analyzeScan cpuDb gpuDb scan in
  let found := bottlenecks r in
  let plan := JS.toLowerCase (power_plan (os scan)) in
  let rebar := resizable_bar (bios_settings scan) in
  let hags := hw_accelerated_gpu_scheduling (os scan) in
  let game := game_mode (os scan) in
  let full :=
    powerPlanPoints scan = 3
    /\ xmp_enabled (bios_settings scan) = Some true
    /\ driver_version (gpu scan) <> EmptyString
    /\ rebar = Some true /\ game = Some true /\ hags = Some true in
  (emitted "settings-power-plan" found
   <-> JS.includes plan "high performance" = false
       /\ JS.includes plan "ultimate" = false)
  /\ (emitted "settings-power-plan" found <-> powerPlanPoints scan <> 3)
  /\ (emitted "settings-rebar-off" found <-> rebar = Some false)
  /\ (emitted "settings-gpu-scheduling" found <-> hags = Some false)
  /\ (emitted "settings-game-mode-off" found <-> game = Some false)
  /\ b_settings (breakdown (score r))
     = powerPlanPoints scan + xmpPoints (xmp_enabled (bios_settings scan))
       + driverPoints scan + flagPoints rebar 2 + flagPoints game 1
       + flagPoints hags 2
  /\ (emitted "settings-rebar-off" found -> flagPoints rebar 2 = 0)
  /\ (emitted "settings-gpu-scheduling" found -> flagPoints hags 2 = 0)
  /\ (emitted "settings-game-mode-off" found -> flagPoints game 1 = 0)
  /\ (b_settings (breakdown (score r)) = 15 <-> full)
  /\ (full ->
      ~ emitted "settings-power-plan" found
      /\ ~ emitted "settings-xmp-off" found
      /\ ~ emitted "settings-rebar-off" found
      /\ ~ emitted "settings-gpu-scheduling" found
      /\ ~ emitted "settings-game-mode-off" found).
Proof.
  cbn zeta.
  rewrite power_plan_iff, rebar_off_iff, gpu_scheduling_iff,
    game_mode_off_iff, xmp_off_iff.
  destruct (powerPlanPoints_cases scan) as [Hp3 Hpr].
  destruct (flagPoints_cases (resizable_bar (bios_settings scan))
              (points := 2) ltac:(lia)) as [Hr [Hrr Hr0]].
  destruct (flagPoints_cases (game_mode (os scan))
              (points := 1) ltac:(lia)) as [Hg [Hgr Hg0]].
  destruct (flagPoints_cases (hw_accelerated_gpu_scheduling (os scan))
              (points := 2) ltac:(lia)) as [Hh [Hhr Hh0]].
  assert (Hx : xmpPoints (xmp_enabled (bios_settings scan)) = 5
               <-> xmp_enabled (bios_settings scan) = Some true)
    by (destruct (xmp_enabled (bios_settings scan)) as [[|]|]; cbn;
        split; congruence).
  pose proof (xmpPoints_range (xmp_enabled (bios_settings scan))) as Hxr.
  assert (Hd : (driverPoints scan = 2
                <-> driver_version (gpu scan) <> EmptyString)
               /\ 0 <= driverPoints scan <= 2)
    by (unfold driverPoints; destruct (driver_version (gpu scan)); cbn;
        split; try lia; split; congruence).
  destruct Hd as [Hd Hdr].
  assert (Hscore : b_settings (breakdown (score (analyzeScan cpuDb gpuDb scan)))
                   = powerPlanPoints scan
                     + xmpPoints (xmp_enabled (bios_settings scan))
                     + driverPoints scan
                     + flagPoints (resizable_bar (bios_settings scan)) 2
                     + flagPoints (game_mode (os scan)) 1
                     + flagPoints (hw_accelerated_gpu_scheduling (os scan)) 2)
    by (cbn [score analyzeScan]; rewrite settings_score_parts;
        unfold otherSettingsPoints; lia).
  rewrite Hscore.
  split; [reflexivity|].
  split.
  { rewrite Hp3.
    destruct (JS.includes _ "high performance"), (JS.includes _ "ultimate");
      intuition discriminate. }
  do 3 (split; [reflexivity|]). split; [reflexivity|].
  do 3 (split; [auto|]).
  split.
  - rewrite <- Hx, <- Hd, <- Hr, <- Hg, <- Hh. lia.
  - intros [H1 [H2 [H3 [H4 [H5 H6]]]]].
    rewrite H2, H4, H5, H6.
    apply Hp3 in H1.
    repeat split; try discriminate.
    intros [Ha Hb]. destruct H1; congruence.
Qed.

(** ** The recommendation builder, rule by rule *)

Lemma numbered_app p l x :
  numbered p (l ++ [x])%list
  = (numbered p l
     ++ [mkRec (fst (fst x)) (snd (fst x)) (snd x)
           (p + Z.of_nat (List.length l))])%list.
Proof.
  unfold RecData in *.
  revert p. induction l as [|[[i t] c] l IH]; intros p; cbn [numbered app].
  - destruct x as [[i t] c]. cbn. now rewrite Z.add_0_r.
  - rewrite IH.
    replace (p + Z.of_nat (List.length ((i, t, c) :: l)))
      with (p + 1 + Z.of_nat (List.length l))
      by (cbn [List.length]; lia).
    reflexivity.
Qed.

Lemma shape_step steps st (c : bool) i t cost :
  shape steps st ->
  shape (steps ++ [(c, (i, t, cost))])%list
    (if c then pushRec (mkRec i t cost) st else st).
Proof.
  unfold shape, chosen, RecData in *. intros [Hr Hn].
  rewrite filter_app, map_app. cbn [filter fst].
  destruct c; cbn [map snd].
  - unfold pushRec, JS.push. cbn [recs next_priority].
    rewrite numbered_app, Hr, Hn. cbn [fst snd].
    rewrite length_app. cbn [List.length]. split; [reflexivity|lia].
  - now rewrite !app_nil_r.
Qed.

Lemma shape_start : shape [] {| recs := []; next_priority := 1 |}.
Proof. split; reflexivity. Qed.

(** Go through the simple rules of the builder, keeping the shape of each
    intermediate state. *)
Ltac walk_rules :=
  repeat lazymatch goal with
    | |- recs ?st = _ => fail
    | |- (let x := ?e in @?B x) = ?rhs =>
        let y := fresh "st" in
        pose (y := e); change (B y = rhs); cbv beta;
        try (first
               [ assert (shape [] y) by (exact shape_start)
               | lazymatch goal with
                 | H : shape ?steps ?prev |- _ =>
                     lazymatch eval unfold y in y with
                     | (if ?c then pushRec (mkRec ?i ?t ?cost) prev
                        else prev) =>
                         assert (shape (steps ++ [(c, (i, t, cost))])%list y)
                           by (apply shape_step; exact H);
                         clear H
                     end
                 end ];
             clearbody y)
    end.

Lemma buildRecommendations_steps cpuDb gpuDb scan bs ce ge :
  buildRecommendations cpuDb gpuDb scan bs [] ce ge
  = numbered 1 (chosen (builderSteps cpuDb gpuDb bs ce ge)).
Proof.
  cbv beta delta [buildRecommendations]. walk_rules.
  match goal with
  | H : shape ?steps ?prev, y := match ce with _ => _ end |- _ =>
      assert (H11 :
        shape (steps
               ++ [(match ce with
                    | Some c =>
                        (st1 "cpu-high-usage" || st1 "cpu-gpu-tier-mismatch")
                        && (0 <? Z.of_nat (List.length (getUpgrades c cpuDb 2)))
                    | None => false
                    end,
                    ("rec-cpu-upgrade", upgrade,
                     match ce with
                     | Some c => priceSpan (getUpgrades c cpuDb 2)
                     | None => priceSpan []
                     end))])%list y);
      [ eapply eq_ind; [apply shape_step; exact H|];
        unfold y; destruct ce; [|reflexivity];
        destruct (st1 "cpu-high-usage" || st1 "cpu-gpu-tier-mismatch");
        reflexivity
      | clear H; clearbody y ]
  end.
  match goal with
  | H : shape ?steps ?prev, y := match ge with _ => _ end |- _ =>
      assert (H12 :
        shape (steps
               ++ [(match ge with
                    | Some g =>
                        (st1 "gpu-limited" || st1 "gpu-cpu-tier-mismatch")
                        && (0 <? Z.of_nat (List.length (getUpgrades g gpuDb 2)))
                    | None => false
                    end,
                    ("rec-gpu-upgrade", upgrade,
                     match ge with
                     | Some g => priceSpan (getUpgrades g gpuDb 2)
                     | None => priceSpan []
                     end))])%list y);
      [ eapply eq_ind; [apply shape_step; exact H|];
        unfold y; destruct ge; [|reflexivity];
        destruct (st1 "gpu-limited" || st1 "gpu-cpu-tier-mismatch");
        reflexivity
      | clear H; clearbody y ]
  end.
  destruct H12 as [Hr _]. rewrite Hr. reflexivity.
Qed.

(** ** Order, priorities and identifiers of the recommendations *)

Lemma numbered_priority p l :
  map priority (numbered p l)
  = map (fun k => p + Z.of_nat k) (seq 0 (List.length l)).
Proof.
  revert p. induction l as [|[[i t] c] l IH]; intros p; [reflexivity|].
  cbn [numbered map List.length seq priority mkRec].
  rewrite IH, <- seq_shift, map_map. f_equal; [lia|].
  apply map_ext. intros k. lia.
Qed.

Lemma numbered_length p l : List.length (numbered p l) = List.length l.
Proof.
  revert p. induction l as [|[[i t] c] l IH]; intros p; cbn; auto.
Qed.

Lemma numbered_id p l :
  map rec_id (numbered p l) = map (fun x : RecData => fst (fst x)) l.
Proof.
  revert p. induction l as [|[[i t] c] l IH]; intros p; cbn; [|rewrite IH];
    reflexivity.
Qed.

Lemma numbered_sorted p l :
  StronglySorted (fun a b : RecData =>
                    tierOrder (snd (fst a)) <= tierOrder (snd (fst b))) l ->
  StronglySorted recommendationLe (numbered p l)
  /\ Forall (fun r => p <= priority r) (numbered p l).
Proof.
  intros Hs. revert p.
  induction Hs as [|[[i t] c] l Hs IH Hx]; intros p; cbn [numbered].
  - split; constructor.
  - destruct (IH (p + 1)) as [IHs IHp]. split.
    + constructor; [exact IHs|].
      rewrite Forall_forall in *. intros r Hr.
      pose proof (IHp r Hr) as Hprio. cbn beta in Hprio.
      assert (Ht : tierOrder t <= tierOrder (rec_tier r)).
      { clear -Hr Hx. revert p Hr.
        induction l as [|[[j u] d] l IHl]; intros p; cbn [numbered];
          [intros []|].
        intros [<-|Hr].
        - exact (Hx _ (or_introl eq_refl)).
        - apply (IHl (fun y Hy => Hx y (or_intror Hy)) (p + 1) Hr). }
      apply recommendationLe_order. cbn [rec_tier priority mkRec]. lia.
    + constructor; [cbn; lia|].
      eapply Forall_impl; [|exact IHp]. cbn beta. intros r Hr. lia.
Qed.

Lemma sort_le_sorted_id A (le : A -> A -> bool) l :
  StronglySorted (fun a b => le a b = true) l -> JS.sort_le le l = l.
Proof.
  induction 1 as [|x l Hs IH Hx]; [reflexivity|].
  cbn [JS.sort_le]. rewrite IH.
  destruct l as [|y l]; [reflexivity|].
  cbn [JS.insert]. now rewrite (Forall_inv Hx).
Qed.

Lemma Subseq_filter A B (f : A -> B) (p : A -> bool) l :
  Subseq (map f (filter p l)) (map f l).
Proof.
  induction l as [|x l IH]; cbn; [constructor|].
  destruct (p x); cbn; [now apply Subseq_take|now apply Subseq_skip].
Qed.

Lemma Subseq_sorted A (R : A -> A -> Prop) l m :
  Subseq l m -> StronglySorted R m -> StronglySorted R l.
Proof.
  induction 1 as [ids|x l ids H IH|x l ids H IH]; intros Hm.
  - constructor.
  - apply StronglySorted_inv in Hm. destruct Hm as [Hm Hx].
    constructor; [auto|].
    rewrite Forall_forall in *. intros y Hy. apply Hx.
    now apply (Subseq_In H).
  - apply StronglySorted_inv in Hm. tauto.
Qed.

Lemma chosen_tiers_sorted cpuDb gpuDb bs ce ge :
  StronglySorted (fun a b : RecData =>
                    tierOrder (snd (fst a)) <= tierOrder (snd (fst b)))
    (chosen (builderSteps cpuDb gpuDb bs ce ge)).
Proof.
  pose proof (Subseq_filter (fun s : bool * RecData => snd (fst (snd s)))
                fst (builderSteps cpuDb gpuDb bs ce ge)) as Hsub.
  assert (Hs : StronglySorted (fun a b => tierOrder a <= tierOrder b)
                 (map (fun x : RecData => snd (fst x))
                    (chosen (builderSteps cpuDb gpuDb bs ce ge)))).
  { unfold chosen. rewrite map_map.
    apply (Subseq_sorted Hsub). cbn.
    repeat (constructor; [|repeat constructor; cbn; lia]). constructor. }
  clear Hsub. induction (chosen _) as [|x l IH]; [constructor|].
  cbn [map] in Hs. apply StronglySorted_inv in Hs. destruct Hs as [Hs Hx].
  constructor; [auto|]. rewrite Forall_forall in *. intros y Hy.
  apply Hx. exact (in_map (fun x : RecData => snd (fst x)) l y Hy).
Qed.

Lemma recommendations_steps cpuDb gpuDb scan :
  recommendations (analyzeScan cpuDb gpuDb scan)
  = numbered 1
      (chosen
         (builderSteps cpuDb gpuDb
            (detectAll scan (lookup cpuDb (cpu_model_name (cpu scan)))
               (lookup gpuDb (gpu_model_name (gpu scan))))
            (lookup cpuDb (cpu_model_name (cpu scan)))
            (lookup gpuDb (gpu_model_name (gpu scan))))).
Proof.
  cbn [analyzeScan recommendations]. rewrite buildRecommendations_steps.
  unfold JS.sortZ. apply sort_le_sorted_id.
  eapply StronglySorted_impl;
    [|apply numbered_sorted, chosen_tiers_sorted].
  intros a b H. apply Z.leb_le. now apply compareRecommendation_le.
Qed.

(** X12. The recommendations of a result are the ones the builder pushed,
    in the order it pushed them: the final sort changes nothing.  Their
    priorities are 1, 2, ..., n without a gap, their identifiers follow the
    order in which the rules are declared, no identifier occurs twice, and
    there are at most 11 of them. *)
Theorem X12_recommendations_in_construction_order cpuDb gpuDb scan :
  let recs := recommendations (analyzeScan cpuDb gpuDb scan) in
  let cpuEntry := lookup cpuDb (cpu_model_name (cpu scan)) in
  let gpuEntry := lookup gpuDb (gpu_model_name (gpu scan)) in
  recs = buildRecommendations cpuDb gpuDb scan
           (detectAll scan cpuEntry gpuEntry) [] cpuEntry gpuEntry
  /\ map priority recs
     = map (fun k => 1 + Z.of_nat k) (seq 0 (List.length recs))
  /\ Subseq (map rec_id recs) recRuleIds
  /\ NoDup (map rec_id recs)
  /\ (List.length recs <= 11)%nat.
Proof.
  cbn zeta. rewrite recommendations_steps, buildRecommendations_steps.
  set (steps := builderSteps _ _ _ _ _).
  assert (Hsub : Subseq (map rec_id (numbered 1 (chosen steps))) recRuleIds).
  { rewrite numbered_id. unfold chosen. rewrite map_map.
    apply (Subseq_filter (fun s : bool * RecData => fst (fst (snd s)))
             fst steps). }
  split; [reflexivity|].
  split; [now rewrite numbered_priority, numbered_length|].
  split; [exact Hsub|].
  split.
  - apply (Subseq_NoDup Hsub). unfold recRuleIds.
    repeat (constructor; [cbn; intuition discriminate|]). constructor.
  - rewrite numbered_length. unfold chosen. rewrite length_map.
    etransitivity; [apply filter_length_le|]. reflexivity.
Qed.


(** ** Which findings lead to which recommendation *)

Lemma recommended_guard i p steps :
  recommended i (numbered p (chosen steps)) <-> guardOf i steps = true.
Proof.
  unfold recommended, guardOf. rewrite existsb_exists. split.
  - intros [r [Hr Hid]]. apply (in_map rec_id) in Hr.
    rewrite numbered_id in Hr. unfold chosen in Hr. rewrite map_map in Hr.
    apply in_map_iff in Hr. destruct Hr as [s [Hs Hin]].
    apply filter_In in Hin. destruct Hin as [Hin Hg].
    exists s. split; [exact Hin|]. cbn beta. unfold RecData in *.
    rewrite Hg. cbn [andb].
    apply String.eqb_eq. now rewrite Hs.
  - intros [s [Hin Hs]]. apply andb_true_iff in Hs. destruct Hs as [Hg Hs].
    apply String.eqb_eq in Hs.
    assert (Hi : In i (map rec_id (numbered p (chosen steps)))).
    { rewrite numbered_id. unfold chosen. rewrite map_map.
      apply in_map_iff. exists s. split; [exact Hs|].
      apply filter_In. now split. }
    apply in_map_iff in Hi. destruct Hi as [r [Hid Hr]]. now exists r.
Qed.

Lemma hasCriticalb_none i l : emittedb i l = false -> hasCriticalb i l = false.
Proof.
  unfold emittedb, hasCriticalb. induction l as [|b l IH]; [reflexivity|].
  cbn [existsb]. intros H. apply orb_false_iff in H. destruct H as [Hb Hl].
  now rewrite Hb, IH.
Qed.

Lemma hasCriticalb_slow_ram i scan ce ge :
  i = "ram-slow-speed" \/ i = "ram-slow-speed-ddr5" ->
  hasCriticalb i (detectAll scan ce ge) = emittedb i (detectAll scan ce ge).
Proof.
  intros Hi. rewrite emittedb_detectAll.
  rewrite detectAll_app. unfold hasCriticalb. rewrite !existsb_app.
  fold (hasCriticalb i (detectCPUBottlenecks scan [] ce ge)).
  fold (hasCriticalb i (detectGPUBottlenecks scan [] ce ge)).
  fold (hasCriticalb i (detectRAMBottlenecks scan [])).
  fold (hasCriticalb i (detectStorageBottlenecks scan [])).
  fold (hasCriticalb i (detectThermalBottlenecks scan [])).
  fold (hasCriticalb i (detectSettingsBottlenecks scan [])).
  assert (Hc : emittedb i (detectCPUBottlenecks scan [] ce ge) = false)
    by (destruct Hi as [-> | ->]; drop_outside; reflexivity).
  assert (Hg : emittedb i (detectGPUBottlenecks scan [] ce ge) = false)
    by (destruct Hi as [-> | ->]; drop_outside; reflexivity).
  assert (Hs : emittedb i (detectStorageBottlenecks scan []) = false)
    by (destruct Hi as [-> | ->]; drop_outside; reflexivity).
  assert (Ht : emittedb i (detectThermalBottlenecks scan []) = false)
    by (destruct Hi as [-> | ->]; drop_outside; reflexivity).
  assert (He : emittedb i (detectSettingsBottlenecks scan []) = false)
    by (destruct Hi as [-> | ->]; drop_outside; reflexivity).
  rewrite (hasCriticalb_none _ _ Hc), (hasCriticalb_none _ _ Hg),
    (hasCriticalb_none _ _ Hs), (hasCriticalb_none _ _ Ht),
    (hasCriticalb_none _ _ He), Hc, Hg, Hs, Ht, He.
  cbn [orb]. rewrite !orb_false_r.
  unfold hasCriticalb, emittedb, detectRAMBottlenecks.
  destruct Hi as [-> | ->]; split_ifs; reflexivity.
Qed.

(** Evaluate the guard of one rule of the builder. *)
Ltac guard_of :=
  unfold guardOf, builderSteps; cbn -[getUpgrades];
  rewrite ?andb_false_r, ?andb_true_r; cbn [orb];
  rewrite ?orb_false_r; try reflexivity.

Lemma analysis_recommended i cpuDb gpuDb scan :
  recommended i (recommendations (analyzeScan cpuDb gpuDb scan))
  <-> guardOf i
        (builderSteps cpuDb gpuDb
           (detectAll scan (lookup cpuDb (cpu_model_name (cpu scan)))
              (lookup gpuDb (gpu_model_name (gpu scan))))
           (lookup cpuDb (cpu_model_name (cpu scan)))
           (lookup gpuDb (gpu_model_name (gpu scan)))) = true.
Proof. rewrite recommendations_steps. apply recommended_guard. Qed.

Ltac one_finding :=
  rewrite analysis_recommended, emitted_analyze;
  unfold emittedb; guard_of.

(** X13. Each free or cheap recommendation is part of the result exactly when
    the finding it answers is: the XMP recommendation for the XMP setting
    finding or one of the two slow-memory findings, and one finding each for
    the power plan, Resizable BAR, GPU scheduling, boost check, CPU cooling,
    second memory stick, more memory and SSD boot drive recommendations. *)
Theorem X13_fixes_follow_findings cpuDb gpuDb scan :
  let r := analyzeScan cpuDb gpuDb scan in
  let found i := emitted i (bottlenecks r) in
  let advised i := recommended i (recommendations r) in
  (advised "rec-enable-xmp"
   <-> found "settings-xmp-off" \/ found "ram-slow-speed"
       \/ found "ram-slow-speed-ddr5")
  /\ (advised "rec-power-plan" <-> found "settings-power-plan")
  /\ (advised "rec-enable-rebar" <-> found "settings-rebar-off")
  /\ (advised "rec-gpu-scheduling" <-> found "settings-gpu-scheduling")
  /\ (advised "rec-check-boost" <-> found "cpu-not-boosting")
  /\ (advised "rec-cpu-cooling" <-> found "thermal-cpu-critical")
  /\ (advised "rec-second-ram-stick" <-> found "ram-single-channel")
  /\ (advised "rec-more-ram" <-> found "ram-low-capacity")
  /\ (advised "rec-ssd-boot" <-> found "storage-hdd-boot").
Proof.
  cbn zeta.
  split; [|repeat split; one_finding; auto].
  rewrite analysis_recommended, !emitted_analyze.
  rewrite <- (hasCriticalb_slow_ram (i := "ram-slow-speed")) by auto.
  rewrite <- (hasCriticalb_slow_ram (i := "ram-slow-speed-ddr5")) by auto.
  unfold emittedb, hasCriticalb. guard_of.
  rewrite !orb_true_iff. tauto.
Qed.

(** ** Upgrade recommendations *)

Lemma getUpgrades_nonempty current database n :
  0 < n ->
  (0 <? Z.of_nat (List.length (getUpgrades current database n))) = true
  <-> exists e, In e (map snd database) /\ higherTier current e.
Proof.
  intros Hn. unfold getUpgrades. cbn zeta.
  set (candidates := filter _ (map snd database)).
  destruct (slice_0_firstn
              (JS.sortQ (fun a b => (valueRatio b - valueRatio a)%Q)
                 candidates) n) as [k [-> Hk]].
  rewrite (Hk ltac:(lia)). clear Hk k.
  assert (Hex : (exists e, In e (map snd database) /\ higherTier current e)
                <-> exists e, In e candidates).
  { unfold candidates, higherTier.
    split; intros [e He]; exists e;
      [apply filter_In|apply filter_In in He];
      now rewrite Z.ltb_lt in *. }
  rewrite Hex. clear Hex. rewrite Z.ltb_lt.
  assert (Hsort : forall e, In e (JS.sortQ
                    (fun a b => (valueRatio b - valueRatio a)%Q) candidates)
                  <-> In e candidates)
    by (intros e; unfold JS.sortQ; apply sort_le_In).
  destruct (JS.sortQ _ candidates) as [|x l].
  - rewrite firstn_nil. cbn. split; [lia|].
    intros [e He]. now apply Hsort in He.
  - destruct (Z.to_nat n) as [|k] eqn:E; [lia|]. cbn.
    split; [|lia]. intros _. exists x. apply Hsort. now left.
Qed.

Lemma In_numbered r p l :
  In r (numbered p l) ->
  exists d q, In d l /\ r = mkRec (fst (fst d)) (snd (fst d)) (snd d) q.
Proof.
  revert p. induction l as [|[[i t] c] l IH]; intros p; cbn [numbered In];
    [tauto|].
  intros [<-|Hr].
  - exists (i, t, c), p. split; [now left|reflexivity].
  - destruct (IH _ Hr) as [d [q [Hd ->]]]. exists d, q.
    split; [now right|reflexivity].
Qed.

Lemma In_chosen d steps : In d (chosen steps) <-> In (true, d) steps.
Proof.
  unfold chosen. rewrite in_map_iff. split.
  - intros [[g x] [<- Hin]]. apply filter_In in Hin. cbn in Hin.
    destruct Hin as [Hin ->]. exact Hin.
  - intros Hin. exists (true, d). split; [reflexivity|].
    apply filter_In. now split.
Qed.

(** X14. The CPU upgrade recommendation is part of the result exactly when
    the lookup of the model returned a member, the finding cpu-high-usage or
    cpu-gpu-tier-mismatch is reported and the catalog has an entry of a
    higher tier than that member; the GPU upgrade recommendation likewise,
    for the findings gpu-limited and gpu-cpu-tier-mismatch.
    An upgrade recommendation has tier upgrade and the price span of at most
    two ranked candidates as its cost.  A member inherited from
    Object.prototype has no tier and ranks below every entry: with such a
    member, one of the two findings and a catalog that is not empty, the
    upgrade is recommended. *)
Theorem X14_upgrade_recommendations cpuDb gpuDb scan :
  let r := analyzeScan cpuDb gpuDb scan in
  let found i := emitted i (bottlenecks r) in
  let advised i := recommended i (recommendations r) in
  (advised "rec-cpu-upgrade"
   <-> exists c, lookup cpuDb (cpu_model_name (cpu scan)) = Some c
       /\ (found "cpu-high-usage" \/ found "cpu-gpu-tier-mismatch")
       /\ exists e, In e (map snd cpuDb) /\ higherTier c e)
  /\ (advised "rec-gpu-upgrade"
      <-> exists g, lookup gpuDb (gpu_model_name (gpu scan)) = Some g
          /\ (found "gpu-limited" \/ found "gpu-cpu-tier-mismatch")
          /\ exists e, In e (map snd gpuDb) /\ higherTier g e)
  /\ (forall x, In x (recommendations r) -> rec_id x = "rec-cpu-upgrade" ->
      exists c, lookup cpuDb (cpu_model_name (cpu scan)) = Some c
        /\ rec_tier x = upgrade
        /\ rec_estimated_cost x = priceSpan (getUpgrades c cpuDb 2))
  /\ (forall x, In x (recommendations r) -> rec_id x = "rec-gpu-upgrade" ->
      exists g, lookup gpuDb (gpu_model_name (gpu scan)) = Some g
        /\ rec_tier x = upgrade
        /\ rec_estimated_cost x = priceSpan (getUpgrades g gpuDb 2))
  /\ (forall k, lookup cpuDb (cpu_model_name (cpu scan))
                = Some (Inherited k) ->
      found "cpu-high-usage" \/ found "cpu-gpu-tier-mismatch" ->
      cpuDb <> [] -> advised "rec-cpu-upgrade")
  /\ (forall k, lookup gpuDb (gpu_model_name (gpu scan))
                = Some (Inherited k) ->
      found "gpu-limited" \/ found "gpu-cpu-tier-mismatch" ->
      gpuDb <> [] -> advised "rec-gpu-upgrade").
Proof.
  assert (Hlow : forall k (db : Database),
             db <> [] ->
             exists e, In e (map snd db) /\ higherTier (Inherited k) e).
  { intros k [|[key e] rest] Hne; [congruence|].
    exists e. split; [now left|].
    unfold higherTier. cbn [tierOf]. destruct (tier e); vm_compute;
      reflexivity. }
  revert Hlow.
  cbn beta zeta.
  setoid_rewrite (analysis_recommended "rec-cpu-upgrade").
  setoid_rewrite (analysis_recommended "rec-gpu-upgrade").
  setoid_rewrite emitted_analyze. rewrite recommendations_steps.
  generalize (detectAll scan (lookup cpuDb (cpu_model_name (cpu scan)))
                (lookup gpuDb (gpu_model_name (gpu scan)))).
  generalize (lookup cpuDb (cpu_model_name (cpu scan))).
  generalize (lookup gpuDb (gpu_model_name (gpu scan))).
  intros ge ce bs Hlow. unfold emittedb.
  assert (Hcpu :
    guardOf "rec-cpu-upgrade" (builderSteps cpuDb gpuDb bs ce ge) = true
    <-> exists c, ce = Some c
        /\ (existsb (fun b => id b =? "cpu-high-usage")%string bs = true
            \/ existsb (fun b => id b =? "cpu-gpu-tier-mismatch")%string bs
               = true)
        /\ exists e, In e (map snd cpuDb) /\ higherTier c e).
  { guard_of. destruct ce as [c|].
    + rewrite andb_true_iff, orb_true_iff, getUpgrades_nonempty by lia.
      split.
      * intros [H1 H2]. exists c. auto.
      * intros [c' [Hc [H1 H2]]]. injection Hc as <-. auto.
    + split; [discriminate|]. intros [c' [Hc _]]. discriminate Hc. }
  assert (Hgpu :
    guardOf "rec-gpu-upgrade" (builderSteps cpuDb gpuDb bs ce ge) = true
    <-> exists g, ge = Some g
        /\ (existsb (fun b => id b =? "gpu-limited")%string bs = true
            \/ existsb (fun b => id b =? "gpu-cpu-tier-mismatch")%string bs
               = true)
        /\ exists e, In e (map snd gpuDb) /\ higherTier g e).
  { guard_of. destruct ge as [g|].
    + rewrite andb_true_iff, orb_true_iff, getUpgrades_nonempty by lia.
      split.
      * intros [H1 H2]. exists g. auto.
      * intros [g' [Hg [H1 H2]]]. injection Hg as <-. auto.
    + split; [discriminate|]. intros [g' [Hg _]]. discriminate Hg. }
  split; [exact Hcpu|]. split; [exact Hgpu|].
  split; [|split; [|split]];
    [| |intros k -> Hf Hne; apply Hcpu; exists (Inherited k); auto 6
       |intros k -> Hf Hne; apply Hgpu; exists (Inherited k); auto 6].
  - intros x Hx Hid. apply In_numbered in Hx.
    destruct Hx as [[[i t] cost] [q [Hd ->]]]. cbn in Hid. subst i.
    apply In_chosen in Hd. unfold builderSteps in Hd. cbn [In] in Hd.
    repeat (destruct Hd as [Hd|Hd]; [try discriminate Hd|]);
      [|contradiction].
    injection Hd as Hguard <- <-. destruct ce as [c|]; [|discriminate].
    exists c. repeat split.
  - intros x Hx Hid. apply In_numbered in Hx.
    destruct Hx as [[[i t] cost] [q [Hd ->]]]. cbn in Hid. subst i.
    apply In_chosen in Hd. unfold builderSteps in Hd. cbn [In] in Hd.
    repeat (destruct Hd as [Hd|Hd]; [try discriminate Hd|]);
      [|contradiction].
    injection Hd as Hguard <- <-. destruct ge as [g|]; [|discriminate].
    exists g. repeat split.
Qed.


(** ** Grade, gauge colour and the score of a catalogued part *)

Import Dashboard.

Lemma grade_of_total scan bs ce ge :
  grade (calculateScore scan bs ce ge)
  = fst (getGrade (total (calculateScore scan bs ce ge))).
Proof. reflexivity. Qed.

(** X15. The grade of a result follows its total in five bands: A from 90,
    A- from 80, B from 70, C from 60 and D below; the colour of the score
    gauge agrees with them: green for A and A-, amber for B and C, red for
    D. *)
Theorem X15_grade_bands_and_gauge_colour cpuDb gpuDb scan :
  let s := score (analyzeScan cpuDb gpuDb scan) in
  (grade s = "A" <-> 90 <= total s)
  /\ (grade s = "A-" <-> 80 <= total s < 90)
  /\ (grade s = "B" <-> 70 <= total s < 80)
  /\ (grade s = "C" <-> 60 <= total s < 70)
  /\ (grade s = "D" <-> total s < 60)
  /\ (getScoreColor (total s) = "var(--green)"
      <-> grade s = "A" \/ grade s = "A-")
  /\ (getScoreColor (total s) = "var(--amber)"
      <-> grade s = "B" \/ grade s = "C")
  /\ (getScoreColor (total s) = "var(--red)" <-> grade s = "D").
Proof.
  cbn zeta. cbn [score analyzeScan]. rewrite grade_of_total.
  match goal with |- context [getGrade ?x] => generalize x end.
  intros t. unfold getGrade, getScoreColor.
  destruct (Z.leb_spec 90 t), (Z.leb_spec 80 t), (Z.leb_spec 70 t),
    (Z.leb_spec 60 t); try lia; cbn [fst];
    intuition (try congruence; try lia).
Qed.

Lemma tierBase_known m : 6 <= tierBase 25 (Some m) <= 22.
Proof. destruct m as [e|k]; cbn; [destruct (tier e)|]; cbn; lia. Qed.

Lemma tierBase_mid m :
  tierOf m <> Some very_high -> tierOf m <> Some high ->
  tierBase 25 (Some m) <= 14.
Proof.
  destruct m as [e|k]; cbn; [destruct (tier e)|]; cbn; intros; try lia;
    congruence.
Qed.

Lemma tierBase_any ce : tierBase 25 ce <= 25.
Proof.
  destruct ce as [e|]; [pose proof (tierBase_known e); lia|cbn; lia].
Qed.

Lemma cpuThermalDeduction_nonneg scan : 0 <= cpuThermalDeduction scan.
Proof.
  unfold cpuThermalDeduction.
  destruct (cpu_current_temp_c (cpu scan)); split_ifs; lia.
Qed.

Lemma gpuThermalDeduction_nonneg scan : 0 <= gpuThermalDeduction scan.
Proof.
  unfold gpuThermalDeduction.
  destruct (gpu_current_temp_c (gpu scan)); split_ifs; lia.
Qed.

Lemma tierBase_nonneg ce : 0 <= tierBase 25 ce.
Proof.
  destruct ce as [e|]; [pose proof (tierBase_known e); lia|cbn; lia].
Qed.

Lemma score_from_base cpuDb gpuDb scan :
  let s := score (analyzeScan cpuDb gpuDb scan) in
  total s <= tierBase 25 (lookup cpuDb (cpu_model_name (cpu scan)))
             + tierBase 25 (lookup gpuDb (gpu_model_name (gpu scan))) + 50.
Proof.
  cbn zeta. cbn [score analyzeScan]. rewrite total_is_sum. cbn zeta.
  rewrite cpu_score_parts, gpu_score_parts, ram_score_parts,
    storage_score_parts, settings_score_parts.
  unfold cpuScoreFrom, gpuScoreFrom.
  pose proof (cpuThermalDeduction_nonneg scan).
  pose proof (gpuThermalDeduction_nonneg scan).
  pose proof (tierBase_nonneg (lookup cpuDb (cpu_model_name (cpu scan)))).
  pose proof (tierBase_nonneg (lookup gpuDb (gpu_model_name (gpu scan)))).
  match goal with
  | |- context [clamp ?r 0 20] =>
      pose proof (@clamp_bounds r 0 20 ltac:(lia))
  end.
  pose proof (storageScoreOf_range (find is_boot_drive (storage scan))).
  pose proof (xmpPoints_range (xmp_enabled (bios_settings scan))).
  pose proof (otherSettingsPoints_range scan).
  unfold cpuBoostDeduction, gpuVramDeduction.
  destruct (boostShortfall scan), (vramPressure scan);
    unfold clamp, JS.clamp in *; lia.
Qed.

(** X16. A part that the catalog knows caps the score: with the CPU or the
    GPU found in the catalog the total is at most 97, and when that entry
    is of tier mid or lower the total is at most 89, so that the grade is
    never A.  The same holds for a lookup that returned a member inherited
    from Object.prototype, which has no tier. *)
Theorem X16_catalogued_part_caps_the_score cpuDb gpuDb scan m :
  lookup cpuDb (cpu_model_name (cpu scan)) = Some m
  \/ lookup gpuDb (gpu_model_name (gpu scan)) = Some m ->
  let s := score (analyzeScan cpuDb gpuDb scan) in
  total s <= 97
  /\ (tierOf m <> Some very_high -> tierOf m <> Some high ->
      total s <= 89 /\ grade s <> "A")
  /\ (forall e, m = Own e -> tier e <> very_high -> tier e <> high ->
      total s <= 89 /\ grade s <> "A").
Proof.
  intros Hfound s.
  pose proof (score_from_base cpuDb gpuDb scan) as Hsum. cbn zeta in Hsum.
  fold s in Hsum.
  pose proof (tierBase_any (lookup cpuDb (cpu_model_name (cpu scan)))) as Hc.
  pose proof (tierBase_any (lookup gpuDb (gpu_model_name (gpu scan)))) as Hg.
  pose proof (tierBase_known m) as Hk.
  assert (Hband : grade s = "A" -> 90 <= total s).
  { subst s. cbn [score analyzeScan]. rewrite grade_of_total.
    match goal with |- context [getGrade ?x] => generalize x end.
    intros t. unfold getGrade.
    destruct (Z.leb_spec 90 t); [intros _; lia|].
    split_ifs; cbn [fst]; intros HA; discriminate HA. }
  assert (Hmid : tierOf m <> Some very_high -> tierOf m <> Some high ->
                 total s <= 89 /\ grade s <> "A").
  { intros Hv Hh. pose proof (@tierBase_mid m Hv Hh) as Hm.
    assert (Hle : total s <= 89)
      by (destruct Hfound as [He|He]; rewrite He in *; lia).
    split; [exact Hle|]. intros HA. apply Hband in HA. lia. }
  split; [destruct Hfound as [He|He]; rewrite He in *; lia|].
  split; [exact Hmid|].
  intros e -> Hv Hh. apply Hmid; cbn [tierOf]; congruence.
Qed.

Lemma X16_catalogued_part_caps_the_score_witness :
  let scan := SampleData.sampleScan in
  exists e, lookup cpuDatabase (cpu_model_name (cpu scan)) = Some e
            /\ total (score (analyzeScan cpuDatabase gpuDatabase scan)) <= 97.
Proof.
  intros scan.
  assert (H : exists e,
             lookup cpuDatabase (cpu_model_name (cpu scan)) = Some e)
    by (vm_compute; eexists; reflexivity).
  destruct H as [e He]. exists e. split; [exact He|].
  exact (proj1 (X16_catalogued_part_caps_the_score cpuDatabase gpuDatabase
                  scan (or_introl He))).
Defined.

(** ** The cards of the overview *)

Lemma tempStatus_cases temp :
  (tempStatus temp = Some good <-> exists t, temp = Some t /\ (t < 70)%Q)
  /\ (tempStatus temp = Some warning
      <-> exists t, temp = Some t /\ (70 <= t /\ t < 85)%Q)
  /\ (tempStatus temp = Some critical
      <-> exists t, temp = Some t /\ (85 <= t)%Q).
Proof.
  unfold tempStatus. destruct temp as [t|].
  - rewrite (ex_Some (fun x => (x < 70)%Q)),
      (ex_Some (fun x => (70 <= x /\ x < 85)%Q)),
      (ex_Some (fun x => (85 <= x)%Q)).
    destruct (JS.ltb t 70) eqn:H70; [|destruct (JS.ltb t 85) eqn:H85].
    + apply ltb_lt in H70.
      split; [|split]; split; intros Hx; try discriminate Hx; auto; lra.
    + apply ltb_ge in H70. apply ltb_lt in H85.
      split; [|split]; split; intros Hx; try discriminate Hx; auto; lra.
    + apply ltb_ge in H70. apply ltb_ge in H85.
      split; [|split]; split; intros Hx; try discriminate Hx; auto; lra.
  - split; [|split]; split; intros Hx; try discriminate Hx;
      destruct Hx as [t [Hx _]]; discriminate Hx.
Qed.

Lemma card_and_deduction (temp : option Q) (warm : Q) (hi mid : Z) :
  (70 <= warm)%Q -> (warm < 85)%Q -> hi <> mid -> hi <> 0 -> mid <> 0 ->
  let d := match temp with
           | Some t => if JS.gtb t 85 then hi
                       else if JS.gtb t warm then mid else 0
           | None => 0
           end in
  (d = hi -> tempStatus temp = Some critical)
  /\ (d = mid
      -> tempStatus temp = Some warning
         \/ (tempStatus temp = Some critical
             /\ exists t, temp = Some t /\ (t == 85)%Q))
  /\ (tempStatus temp = Some good -> d <> hi /\ d <> mid)
  /\ (tempStatus temp = Some critical -> d = hi \/ d = mid).
Proof.
  intros Hlo Hup Hhm Hh Hm d. subst d. unfold tempStatus.
  destruct temp as [t|].
  - destruct (JS.gtb t 85) eqn:G85;
      [apply gtb_lt in G85|apply gtb_le in G85];
      (destruct (JS.gtb t warm) eqn:Gw;
       [apply gtb_lt in Gw|apply gtb_le in Gw]);
      (destruct (JS.ltb t 70) eqn:L70;
       [apply ltb_lt in L70|apply ltb_ge in L70]);
      (destruct (JS.ltb t 85) eqn:L85;
       [apply ltb_lt in L85|apply ltb_ge in L85]);
      try lra;
      (split; [|split; [|split]]); intros Hx;
      try discriminate Hx; try congruence; auto.
    right. split; [reflexivity|]. exists t. split; [reflexivity|lra].
  - split; [|split; [|split]]; intros Hx; try discriminate Hx; congruence.
Qed.

(** X17. The temperature cards of the overview against the thermal
    findings.  A card is good below 70 degrees, warning from 70 and critical
    from 85; the engine reports the CPU above 75 and above 85, the GPU above
    80 and above 85.  So thermal-cpu-critical and thermal-gpu-hot come with
    a critical card, thermal-cpu-warm and thermal-gpu-warm with a warning
    card or, at exactly 85 degrees, a critical one, and a good card comes
    with no thermal finding for that part; a card is critical without the
    engine's stronger finding exactly at 85 degrees. *)
Theorem X17_temperature_cards_and_findings cpuDb gpuDb scan :
  let found i := emitted i (bottlenecks (analyzeScan cpuDb gpuDb scan)) in
  let cpuCard := tempStatus (cpu_current_temp_c (cpu scan)) in
  let gpuCard := tempStatus (gpu_current_temp_c (gpu scan)) in
  (found "thermal-cpu-critical" -> cpuCard = Some critical)
  /\ (found "thermal-cpu-warm"
      -> cpuCard = Some warning
         \/ (cpuCard = Some critical
             /\ exists t, cpu_current_temp_c (cpu scan) = Some t
                          /\ (t == 85)%Q))
  /\ (cpuCard = Some good
      -> ~ found "thermal-cpu-critical" /\ ~ found "thermal-cpu-warm")
  /\ (cpuCard = Some critical
      -> found "thermal-cpu-critical" \/ found "thermal-cpu-warm")
  /\ (found "thermal-gpu-hot" -> gpuCard = Some critical)
  /\ (found "thermal-gpu-warm"
      -> gpuCard = Some warning
         \/ (gpuCard = Some critical
             /\ exists t, gpu_current_temp_c (gpu scan) = Some t
                          /\ (t == 85)%Q))
  /\ (gpuCard = Some good
      -> ~ found "thermal-gpu-hot" /\ ~ found "thermal-gpu-warm")
  /\ (gpuCard = Some critical
      -> found "thermal-gpu-hot" \/ found "thermal-gpu-warm").
Proof.
  cbn zeta.
  rewrite thermal_cpu_critical_iff, thermal_cpu_warm_iff,
    thermal_gpu_hot_iff, thermal_gpu_warm_iff.
  pose proof (@card_and_deduction (cpu_current_temp_c (cpu scan)) 75 5 2)
    as Hc.
  pose proof (@card_and_deduction (gpu_current_temp_c (gpu scan)) 80 4 2)
    as Hg.
  cbn zeta in Hc, Hg. fold (cpuThermalDeduction scan) in Hc.
  fold (gpuThermalDeduction scan) in Hg.
  destruct Hc as [Hc1 [Hc2 [Hc3 Hc4]]]; try lra; try lia.
  destruct Hg as [Hg1 [Hg2 [Hg3 Hg4]]]; try lra; try lia.
  repeat (split; [assumption|]). assumption.
Qed.

(** X18. The storage card of the overview against the storage score.  When
    a drive carries the boot flag the card shows the first such drive, the
    one the engine scores.  When none does, the card shows the first drive
    of the list, while the engine reports no boot-drive finding and gives
    the full storage score of 15 whatever that drive is; with an empty list
    there is no card. *)
Theorem X18_storage_card_and_score cpuDb gpuDb scan :
  let r := analyzeScan cpuDb gpuDb scan in
  let found i := emitted i (bottlenecks r) in
  (forall d, find is_boot_drive (storage scan) = Some d ->
     bootDrive scan = Some d
     /\ b_storage (breakdown (score r)) = storageScoreOf (Some d))
  /\ (forall d rest,
        storage scan = d :: rest ->
        Forall (fun x => is_boot_drive x = false) (storage scan) ->
        bootDrive scan = Some d
        /\ b_storage (breakdown (score r)) = 15
        /\ ~ found "storage-hdd-boot"
        /\ ~ found "storage-boot-almost-full"
        /\ ~ found "storage-boot-getting-full")
  /\ (storage scan = [] ->
      bootDrive scan = None /\ b_storage (breakdown (score r)) = 15).
Proof.
  cbn zeta.
  assert (Hscore : b_storage (breakdown (score (analyzeScan cpuDb gpuDb scan)))
                   = storageScoreOf (find is_boot_drive (storage scan)))
    by (cbn [score analyzeScan]; now rewrite storage_score_parts).
  rewrite Hscore. unfold bootDrive.
  split; [|split].
  - intros d Hd. now rewrite Hd.
  - intros d rest Hs Hall.
    assert (Hnone : find is_boot_drive (storage scan) = None).
    { destruct (find is_boot_drive (storage scan)) as [x|] eqn:E;
        [|reflexivity].
      apply find_some in E. destruct E as [Hin Hx].
      rewrite Forall_forall in Hall. rewrite (Hall x Hin) in Hx.
      discriminate Hx. }
    rewrite !boot_finding_iff by (cbn; auto).
    rewrite Hnone, Hs. cbn. repeat split; intros Hx; discriminate Hx.
  - intros Hs. rewrite Hs. cbn. split; reflexivity.
Qed.

Lemma X18_storage_card_and_score_witness :
  let scan := Scenarios.setStorage [TwoBootDrivesScenario.firstBoot]
                SampleData.sampleScan in
  bootDrive scan = Some TwoBootDrivesScenario.firstBoot.
Proof.
  intros scan.
  exact (proj1 (proj1 (X18_storage_card_and_score cpuDatabase gpuDatabase
                         scan)
                  TwoBootDrivesScenario.firstBoot
                  ltac:(vm_compute; reflexivity))).
Defined.

(** ** The sections of the recommendation list *)

Lemma recTier_eqb_eq a b : recTier_eqb a b = true <-> a = b.
Proof. destruct a, b; cbn; split; intros H; congruence. Qed.

Lemma filter_none A (p : A -> bool) l :
  Forall (fun x => p x = false) l -> filter p l = [].
Proof.
  induction 1 as [|x l Hx Hl IH]; [reflexivity|].
  cbn. now rewrite Hx.
Qed.

Lemma sections_concat l :
  StronglySorted (fun a b : Recommendation =>
                    tierOrder (rec_tier a) <= tierOrder (rec_tier b)) l ->
  (filter (fun r => recTier_eqb (rec_tier r) free) l
   ++ filter (fun r => recTier_eqb (rec_tier r) cheap) l
   ++ filter (fun r => recTier_eqb (rec_tier r) upgrade) l)%list = l.
Proof.
  induction 1 as [|x l Hs IH Hx]; [reflexivity|].
  cbn [filter]. rewrite Forall_forall in Hx.
  destruct (rec_tier x) eqn:Ex; cbn [recTier_eqb].
  - cbn [app]. now rewrite IH.
  - assert (Hf : filter (fun r => recTier_eqb (rec_tier r) free) l = []).
    { apply filter_none, Forall_forall. intros y Hy.
      specialize (Hx y Hy). cbn in Hx.
      destruct (rec_tier y); cbn in *; [lia|reflexivity|reflexivity]. }
    rewrite Hf in *. cbn [app] in *. now rewrite IH.
  - assert (Hf : filter (fun r => recTier_eqb (rec_tier r) free) l = []).
    { apply filter_none, Forall_forall. intros y Hy.
      specialize (Hx y Hy). cbn in Hx.
      destruct (rec_tier y); cbn in *; [lia|reflexivity|reflexivity]. }
    assert (Hc : filter (fun r => recTier_eqb (rec_tier r) cheap) l = []).
    { apply filter_none, Forall_forall. intros y Hy.
      specialize (Hx y Hy). cbn in Hx.
      destruct (rec_tier y); cbn in *; [reflexivity|lia|reflexivity]. }
    rewrite Hf, Hc in *. cbn [app] in *. now rewrite IH.
Qed.

Lemma filter_sorted A (R : A -> A -> Prop) (p : A -> bool) l :
  StronglySorted R l -> StronglySorted R (filter p l).
Proof.
  induction 1 as [|x l Hs IH Hx]; [constructor|].
  cbn. destruct (p x); [|exact IH].
  constructor; [exact IH|].
  rewrite Forall_forall in *. intros y Hy. apply filter_In in Hy.
  now apply Hx.
Qed.

Lemma recommendations_sorted cpuDb gpuDb scan :
  StronglySorted recommendationLe
    (recommendations (analyzeScan cpuDb gpuDb scan))
  /\ StronglySorted (fun a b => priority a <= priority b)
       (recommendations (analyzeScan cpuDb gpuDb scan)).
Proof.
  rewrite recommendations_steps. split.
  - apply numbered_sorted, chosen_tiers_sorted.
  - generalize (chosen (builderSteps cpuDb gpuDb
      (detectAll scan (lookup cpuDb (cpu_model_name (cpu scan)))
         (lookup gpuDb (gpu_model_name (gpu scan))))
      (lookup cpuDb (cpu_model_name (cpu scan)))
      (lookup gpuDb (gpu_model_name (gpu scan))))).
    intros l. generalize 1.
    induction l as [|[[i t] c] l IH]; intros p; cbn [numbered];
      constructor; [apply IH|].
    assert (Hp : forall q, p < q ->
                 Forall (fun r => p <= priority r) (numbered q l)).
    { clear IH. induction l as [|[[j u] d] l IHl]; intros q Hq;
        cbn [numbered]; constructor; [cbn; lia|apply IHl; lia]. }
    cbn [priority mkRec]. apply Hp. lia.
Qed.

(** X19. The recommendation list of the dashboard shows the engine's
    recommendations unchanged: its sections free, cheap and upgrade, each
    sorted by priority, hold the recommendations of their tier in the
    engine's order, and read from top to bottom they are the engine's list. *)
Theorem X19_sections_show_the_engine_order cpuDb gpuDb scan :
  let recs := recommendations (analyzeScan cpuDb gpuDb scan) in
  grouped recs
  = [ (free, filter (fun r => recTier_eqb (rec_tier r) free) recs);
      (cheap, filter (fun r => recTier_eqb (rec_tier r) cheap) recs);
      (upgrade, filter (fun r => recTier_eqb (rec_tier r) upgrade) recs) ]
  /\ List.concat (map snd (grouped recs)) = recs
  /\ Forall (fun section =>
               Forall (fun r => rec_tier r = fst section) (snd section))
       (grouped recs).
Proof.
  cbn zeta.
  destruct (recommendations_sorted cpuDb gpuDb scan) as [Hle Hprio].
  set (recs := recommendations (analyzeScan cpuDb gpuDb scan)) in *.
  clearbody recs.
  assert (Hsec : forall t,
             JS.sortZ (fun a b => priority a - priority b)
               (filter (fun r => recTier_eqb (rec_tier r) t) recs)
             = filter (fun r => recTier_eqb (rec_tier r) t) recs).
  { intros t. unfold JS.sortZ. apply sort_le_sorted_id.
    apply filter_sorted.
    eapply StronglySorted_impl; [|exact Hprio].
    intros a b H. cbn beta in H. apply Z.leb_le. lia. }
  assert (Hg : grouped recs
               = [ (free, filter (fun r => recTier_eqb (rec_tier r) free) recs);
                   (cheap,
                    filter (fun r => recTier_eqb (rec_tier r) cheap) recs);
                   (upgrade,
                    filter (fun r => recTier_eqb (rec_tier r) upgrade) recs) ])
    by (unfold grouped, tiers; cbn [map]; now rewrite !Hsec).
  rewrite Hg. split; [reflexivity|]. split.
  - cbn [map snd List.concat]. rewrite app_nil_r. apply sections_concat.
    eapply StronglySorted_impl; [|exact Hle].
    intros a b H. apply recommendationLe_order in H. cbn beta. lia.
  - apply Forall_cons; [|apply Forall_cons; [|apply Forall_cons;
                                                 [|apply Forall_nil]]];
      cbn [fst snd]; apply Forall_forall; intros r Hr;
      apply filter_In in Hr; apply recTier_eqb_eq, Hr.
Qed.


(** * The scan endpoint *)

Import Api.

(** ** The sanitizer *)

Lemma includes_char c d s :
  JS.includes (String d s) (String c EmptyString)
  = Ascii.eqb c d || JS.includes s (String c EmptyString).
Proof.
  cbn [JS.includes JS.startsWith]. now rewrite andb_true_r.
Qed.

Lemma stripAngles_clean s :
  JS.includes (stripAngles s) "<" = false
  /\ JS.includes (stripAngles s) ">" = false.
Proof.
  induction s as [|c s [IHl IHg]]; [split; reflexivity|].
  cbn [stripAngles].
  destruct (Ascii.eqb c "<") eqn:El; [cbn [orb]; now split|].
  destruct (Ascii.eqb c ">") eqn:Eg; [cbn [orb]; now split|].
  cbn [orb]. rewrite !includes_char, IHl, IHg.
  rewrite (Ascii.eqb_sym "<"%char c), (Ascii.eqb_sym ">"%char c), El, Eg.
  now split.
Qed.

Lemma stripAngles_id s :
  JS.includes s "<" = false -> JS.includes s ">" = false ->
  stripAngles s = s.
Proof.
  induction s as [|c s IH]; [reflexivity|].
  rewrite !includes_char. intros Hl Hg.
  apply orb_false_iff in Hl. apply orb_false_iff in Hg.
  destruct Hl as [Hl Hl']. destruct Hg as [Hg Hg'].
  cbn [stripAngles].
  rewrite (Ascii.eqb_sym c "<"%char), (Ascii.eqb_sym c ">"%char), Hl, Hg.
  cbn [orb]. now rewrite IH.
Qed.

Lemma sanitize_beyond v d : 10 < d -> sanitizeObject v d = VUndefined.
Proof.
  intros Hd. apply Z.ltb_lt in Hd.
  destruct v; cbn [sanitizeObject]; now rewrite Hd.
Qed.

Lemma sanitize_arr items d :
  d <= 10 ->
  sanitizeObject (VArr items) d
  = VArr (map (fun item => sanitizeObject item (d + 1)) items).
Proof.
  intros Hd. cbn [sanitizeObject].
  now replace (10 <? d) with false by (symmetry; apply Z.ltb_ge; lia).
Qed.

Lemma sanitize_obj props d :
  d <= 10 -> sanitizeObject (VObj props) d = VObj (sanitizeEntries props d).
Proof.
  intros Hd. cbn [sanitizeObject].
  replace (10 <? d) with false by (symmetry; apply Z.ltb_ge; lia).
  f_equal. induction props as [|[key value] rest IH]; [reflexivity|].
  cbn [sanitizeEntries]. rewrite <- IH. reflexivity.
Qed.

Lemma sanitize_scalar v d :
  d <= 10 ->
  match v with VArr _ | VObj _ | VStr _ => False | _ => True end ->
  sanitizeObject v d = v.
Proof.
  intros Hd Hv. destruct v; try contradiction; cbn [sanitizeObject];
    now replace (10 <? d) with false by (symmetry; apply Z.ltb_ge; lia).
Qed.

Lemma sanitize_str s d : d <= 10 -> sanitizeObject (VStr s) d = VStr (stripAngles s).
Proof.
  intros Hd. cbn [sanitizeObject].
  now replace (10 <? d) with false by (symmetry; apply Z.ltb_ge; lia).
Qed.

Lemma clean_obj props :
  clean (VObj props)
  = forallb (fun kv => negb (isPollutionKey (fst kv)) && clean (snd kv)) props.
Proof.
  cbn [clean]. induction props as [|[key value] rest IH]; [reflexivity|].
  cbn [forallb fst snd]. now rewrite <- IH.
Qed.

Lemma defined_obj props :
  defined (VObj props) = forallb (fun kv => defined (snd kv)) props.
Proof.
  cbn [defined]. induction props as [|[key value] rest IH]; [reflexivity|].
  cbn [forallb fst snd]. now rewrite <- IH.
Qed.

Lemma height_obj props :
  height (VObj props)
  = fold_right (fun kv h => Z.max (1 + height (snd kv)) h) 0 props.
Proof.
  cbn [height]. induction props as [|[key value] rest IH]; [reflexivity|].
  cbn [fold_right fst snd]. now rewrite <- IH.
Qed.

Lemma height_nonneg v : 0 <= height v.
Proof.
  destruct v; cbn [height]; try lia.
  - induction items as [|x l IH]; cbn [fold_right]; lia.
  - induction props as [|[k x] l IH]; lia.
Qed.

(** Split on the depth test of the sanitizer. *)
Ltac by_depth d :=
  destruct (Z.ltb_spec 10 d) as [Hdeep|Hd];
  [rewrite ?sanitize_beyond by exact Hdeep|].

(** Rewrite the sanitizer away on a scalar, under [Hd : d <= 10]. *)
Ltac scalar_case :=
  repeat match goal with
    | Hd : ?d <= 10 |- context [sanitizeObject ?v ?d] =>
        rewrite (@sanitize_scalar v d Hd I)
    end;
  reflexivity.

Lemma sanitize_clean v : forall d, clean (sanitizeObject v d) = true.
Proof.
  induction v as [| | | | |items IH|props IH] using Value_ind; intros d;
    by_depth d; try reflexivity.
  - scalar_case.
  - scalar_case.
  - scalar_case.
  - scalar_case.
  - rewrite sanitize_str by exact Hd. cbn [clean].
    destruct (stripAngles_clean s) as [-> ->]. reflexivity.
  - rewrite sanitize_arr by exact Hd. cbn [clean].
    induction IH as [|x l Hx Hl IHl]; [reflexivity|].
    cbn [map forallb]. now rewrite Hx, IHl.
  - rewrite sanitize_obj, clean_obj by exact Hd.
    induction IH as [|[key value] l Hx Hl IHl]; [reflexivity|].
    cbn [sanitizeEntries]. destruct (isPollutionKey key) eqn:Ek;
      [exact IHl|].
    cbn [forallb fst snd] in *. now rewrite Ek, Hx, IHl.
Qed.

Lemma sanitize_idempotent v :
  forall d, sanitizeObject (sanitizeObject v d) d = sanitizeObject v d.
Proof.
  induction v as [| | | | |items IH|props IH] using Value_ind; intros d;
    by_depth d; try reflexivity.
  - scalar_case.
  - scalar_case.
  - scalar_case.
  - scalar_case.
  - rewrite !sanitize_str by exact Hd.
    destruct (stripAngles_clean s) as [Hl Hg].
    now rewrite (stripAngles_id _ Hl Hg).
  - rewrite !sanitize_arr by exact Hd. f_equal.
    rewrite map_map.
    induction IH as [|x l Hx Hl IHl]; [reflexivity|].
    cbn [map]. now rewrite Hx, IHl.
  - rewrite !sanitize_obj by exact Hd. f_equal.
    induction IH as [|[key value] l Hx Hl IHl]; [reflexivity|].
    cbn [sanitizeEntries]. destruct (isPollutionKey key) eqn:Ek;
      [exact IHl|].
    cbn [sanitizeEntries fst snd] in *. now rewrite Ek, Hx, IHl.
Qed.

Lemma sanitize_keys props d :
  map fst (sanitizeEntries props d)
  = filter (fun key => negb (isPollutionKey key)) (map fst props).
Proof.
  induction props as [|[key value] rest IH]; [reflexivity|].
  cbn [sanitizeEntries map filter fst].
  destruct (isPollutionKey key); cbn [negb map fst]; now rewrite IH.
Qed.

Lemma sanitize_fixes_clean v :
  forall d, clean v = true -> defined v = true -> d + height v <= 10 ->
            sanitizeObject v d = v.
Proof.
  induction v as [| | | | |items IH|props IH] using Value_ind;
    intros d Hc Hdef Hh.
  - discriminate Hdef.
  - cbn [height] in Hh. apply sanitize_scalar; [lia|exact I].
  - cbn [height] in Hh. apply sanitize_scalar; [lia|exact I].
  - cbn [height] in Hh. apply sanitize_scalar; [lia|exact I].
  - cbn [height] in Hh. rewrite sanitize_str by lia. cbn [clean] in Hc.
    apply andb_true_iff in Hc. destruct Hc as [Hl Hg].
    apply negb_true_iff in Hl. apply negb_true_iff in Hg.
    now rewrite stripAngles_id.
  - pose proof (height_nonneg (VArr items)) as Hn.
    rewrite sanitize_arr by lia. f_equal.
    cbn [clean defined height] in *.
    induction IH as [|x l Hx Hl IHl]; [reflexivity|].
    cbn [forallb fold_right map] in *.
    apply andb_true_iff in Hc. apply andb_true_iff in Hdef.
    destruct Hc as [Hc1 Hc2]. destruct Hdef as [Hd1 Hd2].
    assert (0 <= fold_right (fun item h => Z.max (1 + height item) h) 0 l)
      by (clear; induction l; cbn [fold_right]; lia).
    rewrite Hx, IHl; auto; lia.
  - pose proof (height_nonneg (VObj props)) as Hn.
    rewrite sanitize_obj by lia. f_equal.
    rewrite clean_obj in Hc. rewrite defined_obj in Hdef.
    rewrite height_obj in Hh, Hn.
    induction IH as [|[key value] l Hx Hl IHl]; [reflexivity|].
    cbn [forallb fold_right sanitizeEntries fst snd] in *.
    apply andb_true_iff in Hc. apply andb_true_iff in Hdef.
    destruct Hc as [Hc1 Hc2]. destruct Hdef as [Hd1 Hd2].
    apply andb_true_iff in Hc1. destruct Hc1 as [Hk Hc1].
    apply negb_true_iff in Hk. rewrite Hk.
    assert (0 <= fold_right (fun kv h => Z.max (1 + height (snd kv)) h) 0 l)
      by (clear; induction l; cbn [fold_right]; lia).
    rewrite Hx, IHl; auto; lia.
Qed.

(** X20. The sanitizer of the endpoint.  Whatever the value and the depth,
    no string value of the result holds an angle bracket and no object of
    the result has the key __proto__, constructor or prototype, at any
    level; sanitizing a second time changes nothing; a value that holds
    neither and is nested within the depth limit is returned as it is; the
    keys of an object are the keys of the input without the three, in the
    same order, and are not themselves stripped of angle brackets. *)
Theorem X20_sanitizer_result v d :
  clean (sanitizeObject v d) = true
  /\ sanitizeObject (sanitizeObject v d) d = sanitizeObject v d
  /\ (clean v = true -> defined v = true -> d + height v <= 10 ->
      sanitizeObject v d = v)
  /\ (forall props, v = VObj props -> d <= 10 ->
      exists out, sanitizeObject v d = VObj out
                  /\ map fst out
                     = filter (fun key => negb (isPollutionKey key))
                         (map fst props)).
Proof.
  split; [apply sanitize_clean|].
  split; [apply sanitize_idempotent|].
  split; [apply sanitize_fixes_clean|].
  intros props -> Hd. exists (sanitizeEntries props d).
  split; [now apply sanitize_obj|apply sanitize_keys].
Qed.

Lemma sanitize_defined_within v :
  forall d, defined v = true -> d + height v <= 10 ->
            defined (sanitizeObject v d) = true.
Proof.
  induction v as [| | | | |items IH|props IH] using Value_ind;
    intros d Hdef Hh.
  - discriminate Hdef.
  - cbn [height] in Hh. rewrite sanitize_scalar; [reflexivity|lia|exact I].
  - cbn [height] in Hh. rewrite sanitize_scalar; [reflexivity|lia|exact I].
  - cbn [height] in Hh. rewrite sanitize_scalar; [reflexivity|lia|exact I].
  - rewrite sanitize_str by (cbn in Hh; lia). reflexivity.
  - pose proof (height_nonneg (VArr items)) as Hn.
    rewrite sanitize_arr by lia.
    cbn [defined height] in *.
    induction IH as [|x l Hx Hl IHl]; [reflexivity|].
    cbn [forallb fold_right map] in *.
    apply andb_true_iff in Hdef. destruct Hdef as [Hd1 Hd2].
    assert (0 <= fold_right (fun item h => Z.max (1 + height item) h) 0 l)
      by (clear; induction l; cbn [fold_right]; lia).
    rewrite Hx, IHl; auto; lia.
  - pose proof (height_nonneg (VObj props)) as Hn.
    rewrite sanitize_obj by lia.
    rewrite defined_obj in *. rewrite height_obj in *.
    induction IH as [|[key value] l Hx Hl IHl]; [reflexivity|].
    cbn [forallb fold_right sanitizeEntries fst snd] in *.
    apply andb_true_iff in Hdef. destruct Hdef as [Hd1 Hd2].
    assert (0 <= fold_right (fun kv h => Z.max (1 + height (snd kv)) h) 0 l)
      by (clear; induction l; cbn [fold_right]; lia).
    destruct (isPollutionKey key).
    + apply IHl; auto; lia.
    + cbn [forallb fst snd]. rewrite Hx, IHl; auto; lia.
Qed.

Lemma sanitize_defined_only v :
  forall d, clean v = true -> defined (sanitizeObject v d) = true ->
            d + height v <= 10.
Proof.
  induction v as [| | | | |items IH|props IH] using Value_ind;
    intros d Hc Hdef;
    (destruct (Z.ltb_spec 10 d) as [Hdeep|Hd];
     [rewrite sanitize_beyond in Hdef by exact Hdeep; discriminate Hdef|]);
    try (cbn [height]; lia).
  - rewrite sanitize_arr in Hdef by exact Hd.
    cbn [defined height clean] in *.
    induction IH as [|x l Hx Hl IHl]; [cbn; lia|].
    cbn [forallb fold_right map] in *.
    apply andb_true_iff in Hdef. destruct Hdef as [Hd1 Hd2].
    apply andb_true_iff in Hc. destruct Hc as [Hc1 Hc2].
    specialize (Hx (d + 1) Hc1 Hd1). specialize (IHl Hc2 Hd2). lia.
  - rewrite sanitize_obj in Hdef by exact Hd.
    rewrite defined_obj in Hdef. rewrite clean_obj in Hc.
    rewrite height_obj.
    induction IH as [|[key value] l Hx Hl IHl]; [cbn; lia|].
    cbn [forallb fold_right sanitizeEntries fst snd] in *.
    apply andb_true_iff in Hc. destruct Hc as [Hc1 Hc2].
    apply andb_true_iff in Hc1. destruct Hc1 as [Hk Hc1].
    apply negb_true_iff in Hk. rewrite Hk in Hdef.
    cbn [forallb fst snd] in Hdef.
    apply andb_true_iff in Hdef. destruct Hdef as [Hd1 Hd2].
    specialize (Hx (d + 1) Hc1 Hd1). specialize (IHl Hc2 Hd2). lia.
Qed.

(** X21. The depth limit of the sanitizer.  Called at a depth above 10 it
    returns undefined.  For a JSON value whose nesting stays within the
    limit the result holds no undefined; for one that has no disallowed key
    and no angle bracket the converse holds too: the result is free of
    undefined only if the nesting stays within the limit, so that deeper
    parts are lost. *)
Theorem X21_sanitizer_depth_limit v d :
  defined v = true ->
  (10 < d -> sanitizeObject v d = VUndefined)
  /\ (d + height v <= 10 -> defined (sanitizeObject v d) = true)
  /\ (clean v = true -> defined (sanitizeObject v d) = true ->
      d + height v <= 10).
Proof.
  intros Hdef. split; [apply sanitize_beyond|].
  split; [now apply sanitize_defined_within|apply sanitize_defined_only].
Qed.

Lemma X21_sanitizer_depth_limit_witness :
  let v := VArr [VObj [("model", VStr "disk")]; VNum 2] in
  defined v = true
  /\ defined (sanitizeObject v 0) = true
  /\ sanitizeObject v 11 = VUndefined.
Proof.
  intros v.
  assert (Hdef : defined v = true) by reflexivity.
  destruct (X21_sanitizer_depth_limit v 0 Hdef) as [_ [Hin _]].
  destruct (X21_sanitizer_depth_limit v 11 Hdef) as [Hout _].
  split; [exact Hdef|].
  split; [apply Hin; vm_compute; discriminate|apply Hout; lia].
Defined.

(** ** The shape validation *)

Lemma hasProperty_constructor v :
  typeofObject v && negb (isNull v) = true ->
  hasProperty "constructor" v = true.
Proof.
  destruct v; try discriminate; intros _; unfold hasProperty;
    (replace (inheritedKey "constructor" _) with true by reflexivity);
    apply orb_true_r.
Qed.

(** X22. The shape validation of the endpoint never returns an empty list.
    For a body that is not an object or an array (null included) the one
    error is that the body must be a JSON object.  For every object and
    every array the last error is that the request contains disallowed
    keys: the test for the key constructor uses the in operator, which
    also sees the properties an object inherits, and every object inherits
    constructor. *)
Theorem X22_validation_always_reports data :
  (typeofObject data && negb (isNull data) = false ->
   validateScanShape data = ["Request body must be a JSON object."])
  /\ (typeofObject data && negb (isNull data) = true ->
      exists before,
        validateScanShape data
        = (before ++ ["Request contains disallowed keys."])%list)
  /\ (1 <= List.length (validateScanShape data))%nat.
Proof.
  assert (Hobj : typeofObject data && negb (isNull data) = true ->
                 exists before,
                   validateScanShape data
                   = (before ++ ["Request contains disallowed keys."])%list).
  { intros Hdata. pose proof (hasProperty_constructor _ Hdata) as Hc.
    unfold validateScanShape.
    replace (negb (typeofObject data) || isNull data) with false
      by (destruct data; try discriminate Hdata; reflexivity).
    rewrite Hc, orb_true_r. cbn [orb]. unfold JS.push at 1.
    eexists. reflexivity. }
  split; [|split; [exact Hobj|]].
  - intros Hdata. unfold validateScanShape.
    replace (negb (typeofObject data) || isNull data) with true
      by (destruct data; try discriminate Hdata; reflexivity).
    reflexivity.
  - destruct (typeofObject data && negb (isNull data)) eqn:Hdata.
    + destruct (Hobj eq_refl) as [before ->]. rewrite length_app. cbn. lia.
    + unfold validateScanShape.
      replace (negb (typeofObject data) || isNull data) with true
        by (destruct data; try discriminate Hdata; reflexivity).
      cbn. lia.
Qed.

Lemma push_if_nil A (c : bool) (x : A) l :
  (if c then JS.push x l else l) = [] -> c = false /\ l = [].
Proof.
  destruct c; [|auto]. unfold JS.push. intros H.
  apply app_eq_nil in H. destruct H as [_ H]. discriminate H.
Qed.

Lemma checkSection_nil scan errors section :
  checkSection scan errors section = [] ->
  errors = []
  /\ (String.eqb section "storage" = false ->
      typeofObject (get scan section) = true
      /\ isNull (get scan section) = false).
Proof.
  unfold checkSection. intros H.
  destruct (negb (hasProperty section scan));
    [apply (@push_if_nil _ true) in H; destruct H as [H _]; discriminate H|].
  destruct (String.eqb section "storage").
  - destruct (negb (isArray (get scan section)));
      [apply (@push_if_nil _ true) in H; destruct H as [H _];
       discriminate H|].
    destruct (arrayLength (get scan section) =? 0);
      [apply (@push_if_nil _ true) in H; destruct H as [H _];
       discriminate H|].
    split; [exact H|discriminate].
  - apply push_if_nil in H. destruct H as [Hc He].
    apply orb_false_iff in Hc. destruct Hc as [Ht Hn].
    apply negb_false_iff in Ht. auto.
Qed.

(** X23. The endpoint is at least as strict as the uploader: a body for
    which the shape validation reports nothing but the disallowed keys
    passes the validation of the uploader. *)
Theorem X23_endpoint_stricter_than_uploader data :
  validateScanShape data = ["Request contains disallowed keys."] ->
  validateScan data = true.
Proof.
  intros H.
  destruct (typeofObject data && negb (isNull data)) eqn:Hdata.
  2:{ unfold validateScanShape in H.
      replace (negb (typeofObject data) || isNull data) with true in H
        by (destruct data; try discriminate Hdata; reflexivity).
      discriminate H. }
  pose proof (hasProperty_constructor _ Hdata) as Hc.
  unfold validateScan.
  unfold validateScanShape in H.
  replace (negb (typeofObject data) || isNull data) with false in *
    by (destruct data; try discriminate Hdata; reflexivity).
  rewrite Hc, orb_true_r in H. cbn [orb] in H. unfold JS.push at 1 in H.
  apply (app_inj_tail _ []) in H. destruct H as [H _].
  apply push_if_nil in H. destruct H as [_ H].
  apply push_if_nil in H. destruct H as [_ H].
  apply push_if_nil in H. destruct H as [_ H].
  cbn [fold_left requiredSections] in H.
  apply checkSection_nil in H. destruct H as [H _].
  apply checkSection_nil in H. destruct H as [H _].
  apply checkSection_nil in H. destruct H as [H _].
  apply checkSection_nil in H. destruct H as [H Hram].
  apply checkSection_nil in H. destruct H as [H Hgpu].
  apply checkSection_nil in H. destruct H as [_ Hcpu].
  destruct (Hcpu eq_refl) as [-> ->].
  destruct (Hgpu eq_refl) as [-> ->].
  destruct (Hram eq_refl) as [-> ->].
  reflexivity.
Qed.

Lemma X23_endpoint_stricter_than_uploader_witness :
  let body :=
    VObj [("cpu", VObj [("model_name", VStr "AMD Ryzen 7 5800X")]);
          ("gpu", VObj [("model_name", VStr "NVIDIA GeForce RTX 3070")]);
          ("ram", VObj [("total_gb", VNum 32)]);
          ("storage", VArr [VObj [("model", VStr "Samsung 980")]]);
          ("motherboard", VObj []);
          ("os", VObj [])] in
  validateScanShape body = ["Request contains disallowed keys."]
  /\ validateScan body = true.
Proof.
  intros body.
  assert (H : validateScanShape body = ["Request contains disallowed keys."])
    by (vm_compute; reflexivity).
  split; [exact H|].
  exact (X23_endpoint_stricter_than_uploader body H).
Defined.


(** * More on the catalog *)

(** ** A name that the first key contains *)

Lemma is_space_lower c : JS.is_space c = true -> JS.lower_char c = c.
Proof.
  destruct c as [[] [] [] [] [] [] [] []]; vm_compute; intros H;
    (reflexivity || discriminate H).
Qed.

Lemma blank_key name :
  allSpaces name = true -> JS.trim (JS.toLowerCase name) = EmptyString.
Proof.
  intros H. unfold JS.trim.
  assert (Hs : JS.trimStart (JS.toLowerCase name) = EmptyString).
  { induction name as [|c s IH]; [reflexivity|].
    cbn [allSpaces] in H. apply andb_true_iff in H. destruct H as [Hc Hs].
    rewrite isWhite_is_space in Hc. cbn [JS.toLowerCase JS.trimStart].
    rewrite (is_space_lower _ Hc), Hc. now apply IH. }
  now rewrite Hs.
Qed.

Lemma includes_empty s : JS.includes s EmptyString = true.
Proof. destruct s; reflexivity. Qed.

(** X24. The substring fallback of the lookup returns the first catalog
    entry whose key matches, so a name that is no key and that the first
    key of the catalog contains resolves to the first entry.  A blank name
    (empty, or whitespace only) is such a name: it is looked up as the first
    entry of the catalog, not as unknown hardware. *)
Theorem X24_first_entry_by_substring database k e name :
  hd_error database = Some (k, e) ->
  HardwareDb.get database (normalize name) = None ->
  (JS.includes k (normalize name) = true ->
   lookup database name = Some (Own e))
  /\ (allSpaces name = true -> lookup database name = Some (Own e)).
Proof.
  intros Hhd Hget.
  assert (Hsub : JS.includes k (normalize name) = true ->
                 lookup database name = Some (Own e)).
  { intros Hk. unfold lookup. unfold normalize in *. rewrite Hget.
    destruct database as [|[k' e'] rest]; [discriminate Hhd|].
    injection Hhd as -> ->. cbn [substringMatch].
    now rewrite Hk, orb_true_r. }
  split; [exact Hsub|].
  intros Hblank. apply Hsub. unfold normalize.
  rewrite (blank_key _ Hblank). apply includes_empty.
Qed.

Lemma X24_first_entry_by_substring_witness :
  lookupCPU "   " = lookupCPU "AMD Ryzen 9 9950X3D"
  /\ lookupGPU EmptyString = lookupGPU "NVIDIA GeForce RTX 5090".
Proof.
  split.
  - transitivity (Some (Own (mkEntry "AMD Ryzen 9 9950X3D" very_high 97
                               2025 699 699)));
      [|vm_compute; reflexivity].
    refine (proj2 (@X24_first_entry_by_substring cpuDatabase
                     "amd ryzen 9 9950x3d" _ "   " _ _) _);
      vm_compute; reflexivity.
  - transitivity (Some (Own (mkEntry "NVIDIA GeForce RTX 5090" very_high
                               100 2025 1999 2199)));
      [|vm_compute; reflexivity].
    refine (proj2 (@X24_first_entry_by_substring gpuDatabase
                     "nvidia geforce rtx 5090" _ EmptyString _ _) _);
      vm_compute; reflexivity.
Defined.

(** ** The catalogs that ship with the program *)

(** One entry of a catalog is filed under its normalized name, is found by
    its name and by its key, and has a price of at least 1. *)
Ltac entry_ok :=
  split; [vm_compute; reflexivity|];
  split; [vm_compute; reflexivity|];
  split; [vm_compute; reflexivity|];
  vm_compute; discriminate.

Ltac entries_ok :=
  repeat (apply Forall_cons; [entry_ok|]); apply Forall_nil.

Lemma keys_NoDup (keys : list string) :
  nodup string_dec keys = keys -> NoDup keys.
Proof. intros <-. apply NoDup_nodup. Qed.

(** X25. The two catalogs that ship with the program are consistent: every
    entry is filed under its lower-cased, trimmed name; looking up the name
    of an entry or its key returns that entry; no key occurs twice; and
    every price is at least 1, so that the value ratio of the upgrade
    ranking is gaming_score / max(current_price, 1) on every entry. *)
Theorem X25_shipped_catalogs_consistent :
  let consistent (database : Database) :=
    Forall (fun kv =>
              fst kv = normalize (name (snd kv))
              /\ lookup database (name (snd kv)) = Some (Own (snd kv))
              /\ lookup database (fst kv) = Some (Own (snd kv))
              /\ (1 <= current_price_approx (snd kv))%Q)
           database
    /\ NoDup (map fst database)
    /\ Forall (fun kv => (valueRatio (snd kv) == specValueRatio (snd kv))%Q)
         database in
  consistent cpuDatabase /\ consistent gpuDatabase.
Proof.
  cbn zeta.
  assert (Hcpu : Forall (fun kv =>
              fst kv = normalize (name (snd kv))
              /\ lookup cpuDatabase (name (snd kv)) = Some (Own (snd kv))
              /\ lookup cpuDatabase (fst kv) = Some (Own (snd kv))
              /\ (1 <= current_price_approx (snd kv))%Q) cpuDatabase)
    by (unfold cpuDatabase at 3; entries_ok).
  assert (Hgpu : Forall (fun kv =>
              fst kv = normalize (name (snd kv))
              /\ lookup gpuDatabase (name (snd kv)) = Some (Own (snd kv))
              /\ lookup gpuDatabase (fst kv) = Some (Own (snd kv))
              /\ (1 <= current_price_approx (snd kv))%Q) gpuDatabase)
    by (unfold gpuDatabase at 3; entries_ok).
  split; (split; [assumption|]);
    (split; [apply keys_NoDup; vm_compute; reflexivity|]).
  - eapply Forall_impl; [|exact Hcpu]. cbn beta.
    intros kv [_ [_ [_ Hp]]]. apply valueRatio_spec. now right.
  - eapply Forall_impl; [|exact Hgpu]. cbn beta.
    intros kv [_ [_ [_ Hp]]]. apply valueRatio_spec. now right.
Qed.
